(** * The RPC client of the LSP plugin (plugin/core/rpc.py)

    A shallow embedding of [Client] and of the Python operations its
    methods rely on, followed by the properties of the client that the
    specification states.

    Python values are the ones [json.loads] produces; exceptions are
    values of [exn]; a method is a computation in the monad [M], which
    threads the fields of the [Client] object, may raise, and records
    what the method does to the outside (log lines, writes to the
    transport, calls of callbacks) as a list of events. *)

From Stdlib Require Import ZArith String List Bool Lia Sorted.
From Corelib Require Import SpecFloat.
From stdpp Require Import gmap strings list fin_maps pretty.

#[local] Set Warnings "-register-all".
Local Open Scope Z_scope.

(** ** Python values *)

(** What [json.loads] returns: None, bool, int, float, str, list, dict.
    A dict is kept as its items in insertion order (keys distinct, as in
    a Python dict); a float is an IEEE 754 value. *)
Inductive value : Type :=
| VNone
| VBool (b : bool)
| VInt (n : Z)
| VFloat (f : spec_float)
| VStr (s : string)
| VList (l : list value)
| VDict (d : list (string * value)).

(** ** Exceptions *)

(** The exception classes that occur in the client, plus the ones a
    callback may raise: [OtherException] is any other class derived from
    [Exception]; [KeyboardInterrupt] and [SystemExit] derive from
    [BaseException] only. [ValueError] covers [json.JSONDecodeError], its
    subclass; [IOError] is Python 3's alias of [OSError].

    [NeverReturns] is no exception: it is how a call ends that does not end
    (a wait that polls for ever). Like an exception that no clause catches,
    it keeps what comes after the call from running. *)
Inductive exn : Type :=
| ValueError
| TypeError
| KeyError
| AttributeError
| OverflowError
| IOError
| OtherException (tag : nat)
| KeyboardInterrupt
| SystemExit
| NeverReturns.

(** [isinstance(e, IOError)], what [except IOError] catches. *)
Definition is_IOError (e : exn) : bool :=
  match e with IOError => true | _ => false end.

(** [isinstance(e, KeyError)], what [except KeyError] catches. *)
Definition is_KeyError (e : exn) : bool :=
  match e with KeyError => true | _ => false end.

(** [isinstance(e, Exception)], what [except Exception] catches. *)
Definition is_Exception (e : exn) : bool :=
  match e with KeyboardInterrupt | SystemExit | NeverReturns => false | _ => true end.

Inductive outcome (A : Type) : Type :=
| Ret (a : A)
| Raise (e : exn).
Arguments Ret {A} a.
Arguments Raise {A} e.

(** ** Collaborators *)

(** The two transports of plugin/core/transports.py, as opaque handles. *)
Inductive Transport : Type := TCPTransport | StdioTransport.

(** plugin/core/types.py: the flags of [Settings] that rpc.py reads. *)
Record Settings : Type := { log_payloads : bool; log_stderr : bool }.

(** plugin/core/protocol.py: the message objects handed to the client.
    rpc.py reads [method] and calls [to_payload]. *)
Record Request : Type := { request_method : string; request_params : value }.
Record Notification : Type :=
  { notification_method : string; notification_params : value }.
Record Response : Type := { response_request_id : value; response_result : value }.

(** A callable of the owning layer (a response, request or notification
    handler, a crash handler, ...), known by a name. *)
Inductive callable : Type := Callable (name : nat).

(** The error display handler: [DebugDisplay] is the one [__init__]
    installs, [lambda msg: debug(msg)]; [Display f] is one installed by
    [set_error_display_handler]. *)
Inductive display_handler : Type :=
| DebugDisplay
| Display (f : callable).

(** What a method does to the outside, in the order it happens. *)
Inductive event : Type :=
| EvDebug (args : list value)                  (* debug(...) *)     
| EvExceptionLog (message : string) (e : exn)  (* exception_log(message, e) *)
| EvStart (t : Transport)                      (* transport.start(...) *)
| EvSend (t : Transport) (message : string)    (* transport.send(message) *)
| EvCall (f : callable) (args : list value)    (* a callable is called *)
| EvNotify.                                    (* _sync_request_cvar.notify() *)

(** Library functions and collaborator code that rpc.py calls and that are
    not part of it. [json_loads] gives [None] where [json.loads] raises
    (a [ValueError]: [json.JSONDecodeError] from Python 3.5 on);
    [int_of_str] gives [None] where [int] raises [ValueError] on a str;
    [run_callback f args] is how the callable [f] ends when called with
    [args]. Callbacks are code of the owning layer: the model records each
    call and how it ends, and leaves calls back into the client from inside
    a callback out. [TIMEOUT_MAX] is [threading.TIMEOUT_MAX], which depends
    on the platform: a lock refuses to wait longer. *)
Class Runtime : Type := {
  json_loads : string -> option value;
  json_dumps : value -> string;
  py_str : value -> string;
  int_of_str : string -> option Z;
  TIMEOUT_MAX : spec_float;
  Request_to_payload : Request -> Z -> value;
  Notification_to_payload : Notification -> value;
  Response_to_payload : Response -> value;
  run_callback : callable -> list value -> outcome unit
}.

(** ** Python operations on values *)

Fixpoint contains (needle hay : string) : bool :=
  String.prefix needle hay ||
  match hay with
  | EmptyString => false
  | String _ rest => contains needle rest
  end.

Fixpoint assoc (key : string) (d : list (string * value)) : option value :=
  match d with
  | [] => None
  | (k, v) :: rest => if String.eqb k key then Some v else assoc key rest
  end.

(** [v == s] for a str [s]. *)
Definition py_eq_str (v : value) (s : string) : bool :=
  match v with VStr t => String.eqb t s | _ => false end.

(** [key in v] for a str [key]: key of a dict, element of a list,
    substring of a str; the other types are not iterable. *)
Definition py_in (key : string) (v : value) : outcome bool :=
  match v with
  | VDict d => Ret (match assoc key d with Some _ => true | None => false end)
  | VList l => Ret (existsb (fun x => py_eq_str x key) l)
  | VStr s => Ret (contains key s)
  | _ => Raise TypeError
  end.

(** [v.get(key, default)]: only a dict has the method. *)
Definition py_get (v : value) (key : string) (default : value) : outcome value :=
  match v with
  | VDict d => Ret (match assoc key d with Some x => x | None => default end)
  | _ => Raise AttributeError
  end.

(** [v[key]] for a str [key]. *)
Definition py_getitem (v : value) (key : string) : outcome value :=
  match v with
  | VDict d => match assoc key d with Some x => Ret x | None => Raise KeyError end
  | _ => Raise TypeError
  end.

(** [bool(v)]. *)
Definition py_truthy (v : value) : bool :=
  match v with
  | VNone => false
  | VBool b => b
  | VInt n => negb (n =? 0)
  | VFloat (S754_zero _) => false
  | VFloat _ => true
  | VStr s => negb (String.eqb s EmptyString)
  | VList l => match l with [] => false | _ => true end
  | VDict d => match d with [] => false | _ => true end
  end.

(** [int(v)]: a float is truncated towards zero. *)
Definition py_int `{Runtime} (v : value) : outcome Z :=
  match v with
  | VInt n => Ret n
  | VBool b => Ret (if b then 1 else 0)
  | VFloat (S754_zero _) => Ret 0
  | VFloat (S754_finite s m e) =>
      let a := if 0 <=? e then Z.pos m * 2 ^ e else Z.pos m / 2 ^ (- e) in
      Ret (if s then - a else a)
  | VFloat (S754_infinity _) => Raise OverflowError
  | VFloat S754_nan => Raise ValueError
  | VStr s => match int_of_str s with Some n => Ret n | None => Raise ValueError end
  | VNone | VList _ | VDict _ => Raise TypeError
  end.

(** [prefix + v]: concatenation to a str needs a str. *)
Definition py_concat (prefix : string) (v : value) : outcome string :=
  match v with
  | VStr s => Ret (prefix +:+ s)
  | _ => Raise TypeError
  end.

(** Whether [v] can be a dict key. *)
Definition hashable (v : value) : bool :=
  match v with VList _ | VDict _ => false | _ => true end.

(** [handlers.get(key)] on a dict keyed by method names. *)
Definition handlers_get (handlers : gmap string callable) (key : value)
  : outcome (option callable) :=
  match key with
  | VStr m => Ret (handlers !! m)
  | _ => if hashable key then Ret None else Raise TypeError
  end.

(** ** The client object *)

(** The fields [__init__] creates, under their names. The lock and the
    condition variable carry no data: what the waiting thread sees of them
    is in [execute_request]. *)
Record Client : Type := {
  transport : option Transport;
  request_id : Z;
  _response_handlers : gmap Z (callable * option callable);
  _request_handlers : gmap string callable;
  _notification_handlers : gmap string callable;
  _sync_request_results : gmap Z value;
  exiting : bool;
  _crash_handler : option callable;
  _transport_fail_handler : option callable;
  _error_display_handler : display_handler;
  settings : Settings
}.

Definition set_transport (x : option Transport) (c : Client) : Client :=
  {| transport := x; request_id := request_id c;
     _response_handlers := _response_handlers c;
     _request_handlers := _request_handlers c;
     _notification_handlers := _notification_handlers c;
     _sync_request_results := _sync_request_results c;
     exiting := exiting c; _crash_handler := _crash_handler c;
     _transport_fail_handler := _transport_fail_handler c;
     _error_display_handler := _error_display_handler c;
     settings := settings c |}.

Definition set_request_id (x : Z) (c : Client) : Client :=
  {| transport := transport c; request_id := x;
     _response_handlers := _response_handlers c;
     _request_handlers := _request_handlers c;
     _notification_handlers := _notification_handlers c;
     _sync_request_results := _sync_request_results c;
     exiting := exiting c; _crash_handler := _crash_handler c;
     _transport_fail_handler := _transport_fail_handler c;
     _error_display_handler := _error_display_handler c;
     settings := settings c |}.

Definition set_response_handlers (x : gmap Z (callable * option callable))
    (c : Client) : Client :=
  {| transport := transport c; request_id := request_id c;
     _response_handlers := x;
     _request_handlers := _request_handlers c;
     _notification_handlers := _notification_handlers c;
     _sync_request_results := _sync_request_results c;
     exiting := exiting c; _crash_handler := _crash_handler c;
     _transport_fail_handler := _transport_fail_handler c;
     _error_display_handler := _error_display_handler c;
     settings := settings c |}.

Definition set_request_handlers (x : gmap string callable) (c : Client) : Client :=
  {| transport := transport c; request_id := request_id c;
     _response_handlers := _response_handlers c;
     _request_handlers := x;
     _notification_handlers := _notification_handlers c;
     _sync_request_results := _sync_request_results c;
     exiting := exiting c; _crash_handler := _crash_handler c;
     _transport_fail_handler := _transport_fail_handler c;
     _error_display_handler := _error_display_handler c;
     settings := settings c |}.

Definition set_notification_handlers (x : gmap string callable) (c : Client) : Client :=
  {| transport := transport c; request_id := request_id c;
     _response_handlers := _response_handlers c;
     _request_handlers := _request_handlers c;
     _notification_handlers := x;
     _sync_request_results := _sync_request_results c;
     exiting := exiting c; _crash_handler := _crash_handler c;
     _transport_fail_handler := _transport_fail_handler c;
     _error_display_handler := _error_display_handler c;
     settings := settings c |}.

Definition set_sync_request_results (x : gmap Z value) (c : Client) : Client :=
  {| transport := transport c; request_id := request_id c;
     _response_handlers := _response_handlers c;
     _request_handlers := _request_handlers c;
     _notification_handlers := _notification_handlers c;
     _sync_request_results := x;
     exiting := exiting c; _crash_handler := _crash_handler c;
     _transport_fail_handler := _transport_fail_handler c;
     _error_display_handler := _error_display_handler c;
     settings := settings c |}.

Definition set_exiting (x : bool) (c : Client) : Client :=
  {| transport := transport c; request_id := request_id c;
     _response_handlers := _response_handlers c;
     _request_handlers := _request_handlers c;
     _notification_handlers := _notification_handlers c;
     _sync_request_results := _sync_request_results c;
     exiting := x; _crash_handler := _crash_handler c;
     _transport_fail_handler := _transport_fail_handler c;
     _error_display_handler := _error_display_handler c;
     settings := settings c |}.

Definition set_crash_handler_field (x : option callable) (c : Client) : Client :=
  {| transport := transport c; request_id := request_id c;
     _response_handlers := _response_handlers c;
     _request_handlers := _request_handlers c;
     _notification_handlers := _notification_handlers c;
     _sync_request_results := _sync_request_results c;
     exiting := exiting c; _crash_handler := x;
     _transport_fail_handler := _transport_fail_handler c;
     _error_display_handler := _error_display_handler c;
     settings := settings c |}.

Definition set_transport_fail_handler_field (x : option callable) (c : Client)
  : Client :=
  {| transport := transport c; request_id := request_id c;
     _response_handlers := _response_handlers c;
     _request_handlers := _request_handlers c;
     _notification_handlers := _notification_handlers c;
     _sync_request_results := _sync_request_results c;
     exiting := exiting c; _crash_handler := _crash_handler c;
     _transport_fail_handler := x;
     _error_display_handler := _error_display_handler c;
     settings := settings c |}.

Definition set_error_display_handler_field (x : display_handler) (c : Client) : Client :=
  {| transport := transport c; request_id := request_id c;
     _response_handlers := _response_handlers c;
     _request_handlers := _request_handlers c;
     _notification_handlers := _notification_handlers c;
     _sync_request_results := _sync_request_results c;
     exiting := exiting c; _crash_handler := _crash_handler c;
     _transport_fail_handler := _transport_fail_handler c;
     _error_display_handler := x;
     settings := settings c |}.

(** ** The monad of methods *)

(** A method starts from the object's fields and ends by returning or by
    raising, with the fields as it left them and the events it caused. *)
Definition M (A : Type) : Type := Client -> outcome A * Client * list event.

Definition ret {A} (a : A) : M A := fun c => (Ret a, c, []).

Definition raise {A} (e : exn) : M A := fun c => (Raise e, c, []).

Definition bind {A B} (m : M A) (k : A -> M B) : M B :=
  fun c =>
    match m c with
    | (Ret a, c1, t1) => let '(r, c2, t2) := k a c1 in (r, c2, t1 ++ t2)
    | (Raise e, c1, t1) => (Raise e, c1, t1)
    end.

Declare Scope method_scope.
Delimit Scope method_scope with method.
Notation "x <- m ;; k" := (bind m (fun x => k))
  (at level 100, m at next level, right associativity) : method_scope.
Notation "m ;; k" := (bind m (fun _ => k))
  (at level 100, right associativity) : method_scope.
Local Open Scope method_scope.

(** Read the object. *)
Definition self : M Client := fun c => (Ret c, c, []).

(** Assign to fields of the object. *)
Definition update (f : Client -> Client) : M unit := fun c => (Ret tt, f c, []).

Definition emit (ev : event) : M unit := fun c => (Ret tt, c, [ev]).

(** The result of a Python operation that may raise. *)
Definition lift {A} (o : outcome A) : M A :=
  match o with Ret a => ret a | Raise e => raise e end.

(** [try: m  except <class> as err: handler(err)]: an exception of another
    class goes on to the caller. *)
Definition try_except {A} (m : M A) (catches : exn -> bool) (handler : exn -> M A)
  : M A :=
  fun c =>
    match m c with
    | (Raise e, c1, t1) =>
        if catches e
        then let '(r, c2, t2) := handler e c1 in (r, c2, t1 ++ t2)
        else (Raise e, c1, t1)
    | done => done
    end.

Definition when (b : bool) (m : M unit) : M unit := if b then m else ret tt.

(** ** The methods of [Client] *)

Definition TCP_CONNECT_TIMEOUT : Z := 5.

(** 1.0 *)
Definition DEFAULT_SYNC_REQUEST_TIMEOUT : spec_float :=
  S754_finite false 4503599627370496 (-52).

(** Modelled from the spec: [Notification.exit()] of plugin/core/protocol.py,
    which is not among the sources; the exit notification that [exit()]
    sends. *)
Definition Notification_exit : Notification :=
  {| notification_method := "exit"; notification_params := VNone |}.

Section Methods.
Context {rt : Runtime}.

(** [str(v)], and what [format] puts for [{}]. *)
Definition str_of (v : value) : string :=
  match v with VStr s => s | _ => py_str v end.

Definition debug (args : list value) : M unit := emit (EvDebug args).

Definition exception_log (message : string) (e : exn) : M unit :=
  emit (EvExceptionLog message e).

Definition format_request (payload : value) : string := json_dumps payload.

(** [f(args)]: the call is recorded, and ends as the callable does. *)
Definition call (f : callable) (args : list value) : M unit :=
  emit (EvCall f args) ;; lift (run_callback f args).

(** [if f is not None: f()]. *)
Definition call_if_set (f : option callable) (args : list value) : M unit :=
  match f with
  | Some g => call g args
  | None => ret tt
  end.

(** [self._error_display_handler(msg)]. *)
Definition call_display (d : display_handler) (msg : value) : M unit :=
  match d with
  | DebugDisplay => debug [msg]
  | Display f => call f [msg]
  end.

Definition Client_init (t : Transport) (s : Settings) : Client * list event :=
  ({| transport := Some t;
      request_id := 0;
      _response_handlers := ∅;
      _request_handlers := ∅;
      _notification_handlers := ∅;
      _sync_request_results := ∅;
      exiting := false;
      _crash_handler := None;
      _transport_fail_handler := None;
      _error_display_handler := DebugDisplay;
      settings := s |},
   [EvStart t]).

Definition send_payload (payload : value) : M unit :=
  c <- self ;;
  match transport c with
  | Some t => emit (EvSend t (format_request payload))
  | None => ret tt
  end.

Definition send_request (request : Request) (handler : callable)
    (error_handler : option callable) : M unit :=
  update (fun c => set_request_id (request_id c + 1) c) ;;
  c <- self ;;
  match transport c with
  | Some _ =>
      debug [VStr (" --> " +:+ request_method request)] ;;
      update (fun c =>
        set_response_handlers
          (<[request_id c := (handler, error_handler)]> (_response_handlers c)) c) ;;
      c <- self ;;
      send_payload (Request_to_payload request (request_id c))
  | None =>
      debug [VStr "unable to send"; VStr (request_method request)] ;;
      call_if_set error_handler [VNone]
  end.

Definition send_notification (notification : Notification) : M unit :=
  c <- self ;;
  match transport c with
  | Some _ =>
      debug [VStr (" --> " +:+ notification_method notification)] ;;
      send_payload (Notification_to_payload notification)
  | None =>
      debug [VStr "unable to send"; VStr (notification_method notification)]
  end.

Definition send_response (response : Response) : M unit :=
  send_payload (Response_to_payload response).

Definition exit : M unit :=
  update (set_exiting true) ;;
  send_notification Notification_exit.

Definition set_crash_handler (handler : callable) : M unit :=
  update (set_crash_handler_field (Some handler)).

Definition set_error_display_handler (handler : callable) : M unit :=
  update (set_error_display_handler_field (Display handler)).

Definition set_transport_failure_handler (handler : callable) : M unit :=
  update (set_transport_fail_handler_field (Some handler)).

Definition handle_transport_failure : M unit :=
  debug [VStr "transport failed"] ;;
  update (set_transport None) ;;
  c <- self ;;
  call_if_set (_transport_fail_handler c) [] ;;
  c <- self ;;
  call_if_set (_crash_handler c) [].

Definition on_transport_closed : M unit :=
  c <- self ;;
  call_display (_error_display_handler c)
    (VStr "Communication to server closed, exiting") ;;
  c <- self ;;
  if negb (exiting c) then handle_transport_failure else ret tt.

Definition on_request (request_method : string) (handler : callable) : M unit :=
  update (fun c =>
    set_request_handlers (<[request_method := handler]> (_request_handlers c)) c).

Definition on_notification (notification_method : string) (handler : callable)
  : M unit :=
  update (fun c =>
    set_notification_handlers
      (<[notification_method := handler]> (_notification_handlers c)) c).

Definition handle (typestr : string) (message : value)
    (handlers : gmap string callable) (args : list value) : M unit :=
  method <- lift (py_get message "method" (VStr EmptyString)) ;;
  params <- lift (py_get message "params" VNone) ;;
  when (negb (py_eq_str method "window/logMessage"))
    (line <- lift (py_concat "<--  " method) ;;
     debug [VStr line] ;;
     c <- self ;;
     when (log_payloads (settings c) && py_truthy params)
       (debug [VStr ("     " +:+ str_of params)])) ;;
  handler <- lift (handlers_get handlers method) ;;
  match handler with
  | Some h =>
      try_except (call h (params :: args)) is_Exception
        (fun err =>
           exception_log ("Error handling " +:+ typestr +:+ " " +:+ str_of method) err)
  | None => debug [VStr ("Unhandled " +:+ typestr); method]
  end.

Definition response_handler (response : value) : M unit :=
  id <- lift (py_getitem response "id") ;;
  request_id <- lift (py_int id) ;;
  c <- self ;;
  when (log_payloads (settings c))
    (result <- lift (py_get response "result" VNone) ;;
     debug [VStr ("     " +:+ str_of result)]) ;;
  (* handler, error_handler = self._response_handlers.pop(request_id, (None, None)) *)
  c <- self ;;
  let entry := _response_handlers c !! request_id in
  update (fun c =>
    set_response_handlers (delete request_id (_response_handlers c)) c) ;;
  let handler := fst <$> entry in
  let error_handler := entry ≫= snd in
  (* [response] is a dict from here on, [response["id"]] has succeeded: the
     two membership tests raise nothing, whichever the conditions evaluate *)
  has_result <- lift (py_in "result" response) ;;
  has_error <- lift (py_in "error" response) ;;
  if has_result && negb has_error then
    result <- lift (py_getitem response "result") ;;
    match handler with
    | Some h => call h [result]
    | None =>
        update (fun c =>
          set_sync_request_results
            (<[request_id := result]> (_sync_request_results c)) c) ;;
        emit EvNotify
    end
  else if negb has_result && has_error then
    error <- lift (py_getitem response "error") ;;
    c <- self ;;
    when (log_payloads (settings c)) (debug [VStr ("ERR: " +:+ str_of error)]) ;;
    match error_handler with
    | Some h => call h [error]
    | None =>
        c <- self ;;
        message <- lift (py_get error "message" VNone) ;;
        call_display (_error_display_handler c) message
    end
  else
    debug [VStr "invalid response payload"; response].

Definition receive_payload (message : string) : M unit :=
  payload <-
    try_except
      (match json_loads message with
       | Some v => ret (Some v)
       | None => raise ValueError
       end)
      is_IOError
      (fun err =>
         exception_log ("got a non-JSON payload: " +:+ message) err ;;
         ret None) ;;
  match payload with
  | None => ret tt
  | Some payload =>
      try_except
        (has_method <- lift (py_in "method" payload) ;;
         if has_method then
           has_id <- lift (py_in "id" payload) ;;
           if has_id then
             c <- self ;;
             id <- lift (py_get payload "id" VNone) ;;
             handle "request" payload (_request_handlers c) [id]
           else
             c <- self ;;
             handle "notification" payload (_notification_handlers c) []
         else
           has_id <- lift (py_in "id" payload) ;;
           if has_id then response_handler payload
           else debug [VStr "Unknown payload type: "; payload])
        is_Exception
        (fun err => exception_log "Error handling server payload" err)
  end.

(** The transport's delivery thread, while a caller waits: it hands each
    arrived message to [receive_payload]. An exception that leaves
    [receive_payload] is raised in that thread, not in the waiting one, and
    ends the deliveries. *)
Fixpoint deliver (arrivals : list string) : M unit :=
  match arrivals with
  | [] => ret tt
  | message :: rest =>
      fun c =>
        match receive_payload message c with
        | (Ret _, c1, t1) => let '(r, c2, t2) := deliver rest c1 in (r, c2, t1 ++ t2)
        | (Raise _, c1, t1) => (Ret tt, c1, t1)
        end
  end.

(** How [self._sync_request_cvar.wait_for(predicate, timeout)] ends when the
    result does not come (threading.py): it tests the predicate, and while
    it is false waits on a lock, [acquire(True, t)] when the time [t] left is
    above 0 and [acquire(False)] otherwise, until the time is up. *)
Inductive wait_end : Type :=
| TimesOut    (* the time is up: [wait_for] returns False *)
| Overflows   (* [acquire] raises OverflowError: the timeout is above
                 [TIMEOUT_MAX] *)
| Polls.      (* the timeout is nan: the time left is nan, neither above 0
                 nor up, and [wait_for] tests the predicate for ever *)

Definition wait_for_end (timeout : spec_float) : wait_end :=
  match timeout with
  | S754_nan => Polls
  | _ =>
      if SFltb (S754_zero false) timeout && SFltb TIMEOUT_MAX timeout
      then Overflows
      else TimesOut
  end.

(** [arrivals] are the messages the delivery thread processes between the
    send and the moment [wait_for] ends. When the result is there by then,
    [wait_for] returns at its next test of the predicate, whatever the
    timeout is. When it is not, the wait ends as the timeout makes it end:
    [wait_for] returns and [pop] raises KeyError, or the OverflowError of the
    lock leaves the method, which catches KeyError only, or the call does not
    return at all. *)
Definition execute_request (request : Request) (timeout : spec_float)
    (arrivals : list string) : M value :=
  c <- self ;;
  match transport c with
  | None =>
      debug [VStr "unable to send"; VStr (request_method request)] ;;
      ret VNone
  | Some _ =>
      debug [VStr (" ==> " +:+ request_method request)] ;;
      update (fun c => set_request_id (request_id c + 1) c) ;;
      c <- self ;;
      let request_id := request_id c in
      send_payload (Request_to_payload request request_id) ;;
      try_except
        (deliver arrivals ;;
         c <- self ;;
         match _sync_request_results c !! request_id with
         | Some result =>
             update (fun c =>
               set_sync_request_results
                 (delete request_id (_sync_request_results c)) c) ;;
             ret result
         | None =>
             match wait_for_end timeout with
             | TimesOut => raise KeyError
             | Overflows => raise OverflowError
             | Polls => raise NeverReturns
             end
         end)
        is_KeyError
        (fun e =>
           debug [VStr "timeout on"; VStr (request_method request)] ;;
           ret VNone)
  end.

End Methods.

(** ** Reading a trace *)

(** The messages handed to [transport.send]. *)
Fixpoint sent (tr : list event) : list string :=
  match tr with
  | [] => []
  | EvSend _ message :: rest => message :: sent rest
  | _ :: rest => sent rest
  end.

(** The calls of callables, with their arguments. *)
Fixpoint calls (tr : list event) : list (callable * list value) :=
  match tr with
  | [] => []
  | EvCall f args :: rest => (f, args) :: calls rest
  | _ :: rest => calls rest
  end.

(** The messages given to [exception_log]. *)
Fixpoint exception_logs (tr : list event) : list string :=
  match tr with
  | [] => []
  | EvExceptionLog message _ :: rest => message :: exception_logs rest
  | _ :: rest => exception_logs rest
  end.

(** The three parts of what a method gives. *)
Definition result_of {A} (r : outcome A * Client * list event) : outcome A := r.1.1.
Definition client_of {A} (r : outcome A * Client * list event) : Client := r.1.2.
Definition trace_of {A} (r : outcome A * Client * list event) : list event := r.2.

(** ** The client in use *)

(** A call of one of the client's methods by the owning layer or by the
    transport, with its arguments. *)
Inductive api_call : Type :=
| Call_send_request (request : Request) (handler : callable)
    (error_handler : option callable)
| Call_execute_request (request : Request) (timeout : spec_float)
    (arrivals : list string)
| Call_send_notification (notification : Notification)
| Call_send_response (response : Response)
| Call_exit
| Call_set_crash_handler (handler : callable)
| Call_set_error_display_handler (handler : callable)
| Call_set_transport_failure_handler (handler : callable)
| Call_receive_payload (message : string)
| Call_on_transport_closed
| Call_on_request (request_method : string) (handler : callable)
| Call_on_notification (notification_method : string) (handler : callable).

Section Use.
Context {rt : Runtime}.

(** A method without a return statement returns None. *)
Definition returning_None (m : M unit) : M value := m ;; ret VNone.

Definition perform (a : api_call) : M value :=
  match a with
  | Call_send_request request handler error_handler =>
      returning_None (send_request request handler error_handler)
  | Call_execute_request request timeout arrivals =>
      execute_request request timeout arrivals
  | Call_send_notification notification =>
      returning_None (send_notification notification)
  | Call_send_response response => returning_None (send_response response)
  | Call_exit => returning_None exit
  | Call_set_crash_handler handler => returning_None (set_crash_handler handler)
  | Call_set_error_display_handler handler =>
      returning_None (set_error_display_handler handler)
  | Call_set_transport_failure_handler handler =>
      returning_None (set_transport_failure_handler handler)
  | Call_receive_payload message => returning_None (receive_payload message)
  | Call_on_transport_closed => returning_None on_transport_closed
  | Call_on_request request_method handler =>
      returning_None (on_request request_method handler)
  | Call_on_notification notification_method handler =>
      returning_None (on_notification notification_method handler)
  end.

(** The object after a series of calls made one after the other: no call
    starts before the one before it has ended, as when one thread makes them
    all, or when the threads that make them never overlap. An exception goes
    to the caller of the call that raised; the object stays as that call left
    it. *)
Fixpoint run (history : list api_call) (c : Client) : Client :=
  match history with
  | [] => c
  | a :: rest => run rest (client_of (perform a c))
  end.


(** The same list, computed: each request made with a transport attached
    gets the counter plus one. *)
Fixpoint requests_made (history : list api_call) (c : Client) : list (Request * Z) :=
  match history with
  | [] => []
  | a :: rest =>
      match a, transport c with
      | Call_send_request request _ _, Some _ => [(request, request_id c + 1)]
      | Call_execute_request request _ _, Some _ => [(request, request_id c + 1)]
      | _, _ => []
      end ++ requests_made rest (client_of (perform a c))
  end.

(** [send_request] in the two steps that another thread can come between:
    the increment of line 95, and the rest of the method, which reads the
    counter again for the key of the pending entry and for the payload. The
    object has no lock for the counter. *)
Definition send_request_increment : M unit :=
  update (fun c => set_request_id (request_id c + 1) c).

Definition send_request_after_increment (request : Request) (handler : callable)
    (error_handler : option callable) : M unit :=
  c <- self ;;
  match transport c with
  | Some _ =>
      debug [VStr (" --> " +:+ request_method request)] ;;
      update (fun c =>
        set_response_handlers
          (<[request_id c := (handler, error_handler)]> (_response_handlers c)) c) ;;
      c <- self ;;
      send_payload (Request_to_payload request (request_id c))
  | None =>
      debug [VStr "unable to send"; VStr (request_method request)] ;;
      call_if_set error_handler [VNone]
  end.

(** A response with a result for the request [id]: a message that decodes
    to an object with no method, a result and no error, under an id that
    [int] turns into [id]. [response_handler] stores its result under [id]
    when no entry is pending there. *)
Definition answers (id : Z) (message : string) : bool :=
  match json_loads message with
  | Some (VDict d) =>
      match assoc "method" d, assoc "id" d, assoc "result" d, assoc "error" d with
      | None, Some v, Some _, None =>
          match py_int v with
          | Ret n => Z.eqb n id
          | Raise _ => false
          end
      | _, _, _, _ => false
      end
  | _ => false
  end.

(** What the error display handler leaves in the trace, and how it ends. *)
Definition display_trace (d : display_handler) (msg : value) : list event :=
  match d with
  | DebugDisplay => [EvDebug [msg]]
  | Display f => [EvCall f [msg]]
  end.

Definition display_outcome (d : display_handler) (msg : value) : outcome unit :=
  match d with
  | DebugDisplay => Ret tt
  | Display f => run_callback f [msg]
  end.

End Use.

(** ** A runtime for the examples *)

(** Stand-ins for the library functions, enough to run the client on the
    messages of the examples below: a printer in the manner of [json.dumps]
    and [str] (floats are not printed), a decoder that knows a few JSON
    texts and rejects the rest, decimal digits for [int], the wire shapes
    of section 6 of the specification for [to_payload]. The callable named
    13 raises an exception, the one named 14 exits the interpreter, every
    other one returns. The properties below hold for every runtime; this
    one is where they are tried. *)
Definition quote : string := String (Ascii.ascii_of_nat 34) EmptyString.

Fixpoint sample_print (v : value) : string :=
  match v with
  | VNone => "null"
  | VBool true => "true"
  | VBool false => "false"
  | VInt n => pretty n
  | VFloat _ => "float"
  | VStr s => quote +:+ s +:+ quote
  | VList l =>
      "[" +:+
      (fix items (l : list value) : string :=
         match l with
         | [] => EmptyString
         | [x] => sample_print x
         | x :: rest => sample_print x +:+ ", " +:+ items rest
         end) l +:+ "]"
  | VDict d =>
      "{" +:+
      (fix items (d : list (string * value)) : string :=
         match d with
         | [] => EmptyString
         | [(k, x)] => quote +:+ k +:+ quote +:+ ": " +:+ sample_print x
         | (k, x) :: rest =>
             quote +:+ k +:+ quote +:+ ": " +:+ sample_print x +:+ ", " +:+ items rest
         end) d +:+ "}"
  end.

(** The response to request 1 that the examples use. *)
Definition sample_pong : value := VDict [("id", VInt 1); ("result", VStr "pong")].

(** The texts that the sample decoder knows: it reads back what the printer
    writes for these values. *)
Definition sample_texts : list value := [VNone; VList []; VDict []; sample_pong].

Definition sample_loads (s : string) : option value :=
  List.find (fun v => String.eqb (sample_print v) s) sample_texts.

Definition digit (a : Ascii.ascii) : option Z :=
  let n := Z.of_nat (Ascii.nat_of_ascii a) in
  if (48 <=? n) && (n <=? 57) then Some (n - 48) else None.

Fixpoint digits (acc : Z) (s : string) : option Z :=
  match s with
  | EmptyString => Some acc
  | String a rest =>
      match digit a with
      | Some d => digits (10 * acc + d) rest
      | None => None
      end
  end.

Definition sample_int_of_str (s : string) : option Z :=
  match s with
  | EmptyString => None
  | _ => digits 0 s
  end.

Definition sample_run_callback (f : callable) (args : list value) : outcome unit :=
  match f with
  | Callable 13 => Raise (OtherException 0)
  | Callable 14 => Raise SystemExit
  | _ => Ret tt
  end.

(** 9223372036.0, the [threading.TIMEOUT_MAX] of CPython on Linux. *)
Definition sample_TIMEOUT_MAX : spec_float :=
  S754_finite false 4835703278010368 (-19).

Definition sample_runtime : Runtime :=
  {| json_loads := sample_loads;
     json_dumps := sample_print;
     py_str := sample_print;
     int_of_str := sample_int_of_str;
     TIMEOUT_MAX := sample_TIMEOUT_MAX;
     Request_to_payload := fun request id =>
       VDict [("id", VInt id); ("method", VStr (request_method request));
              ("params", request_params request)];
     Notification_to_payload := fun notification =>
       VDict [("method", VStr (notification_method notification));
              ("params", notification_params notification)];
     Response_to_payload := fun response =>
       VDict [("id", response_request_id response);
              ("result", response_result response)];
     run_callback := sample_run_callback |}.

Definition sample_settings : Settings :=
  {| log_payloads := false; log_stderr := false |}.

(** A client just created on a stdio transport. *)
Definition sample_client : Client :=
  (Client_init StdioTransport sample_settings).1.

(** A client with both handlers registered. *)
Definition sample_watched_client : Client :=
  set_crash_handler_field (Some (Callable 4))
    (set_transport_fail_handler_field (Some (Callable 3)) sample_client).

(** A client whose error display handler is a callable of the owning layer. *)
Definition sample_displaying_client : Client :=
  set_error_display_handler_field (Display (Callable 5)) sample_client.

(** A client with a handler for a server request, which raises. *)
Definition sample_serving_client : Client :=
  client_of (on_request "workspace/configuration"
               (Callable 13) sample_client).

(** ** The vocabulary of the properties *)

(** [keeps R m]: whatever the fields are when [m] starts, the fields when
    it ends, returning or raising, are related to them by [R]. *)
Definition keeps {A} (R : Client -> Client -> Prop) (m : M A) : Prop :=
  forall c, R c (client_of (m c)).

(** What [on_transport_closed] tells the error display handler. *)
Definition closing_message : value := VStr "Communication to server closed, exiting".

Definition detached_stays (a b : Client) : Prop :=
  transport a = None -> transport b = None.


Section Vocabulary.
Context {rt : Runtime}.

(** The line that [log_payloads] adds at the start of [response_handler]. *)
Definition result_log (c : Client) (d : list (string * value)) : list event :=
  if log_payloads (settings c)
  then [EvDebug [VStr ("     " +:+ str_of (default VNone (assoc "result" d)))]]
  else [].

(** The line that [log_payloads] adds for an error. *)
Definition error_log (c : Client) (error : value) : list event :=
  if log_payloads (settings c)
  then [EvDebug [VStr ("ERR: " +:+ str_of error)]]
  else [].

(** The pending table after [pop(request_id, (None, None))]. *)
Definition popped (n : Z) (c : Client) : Client :=
  set_response_handlers (delete n (_response_handlers c)) c.

(** What [handle] logs before it looks the handler up. *)
Definition arrival_log (c : Client) (method : string) (params : value) : list event :=
  if String.eqb method "window/logMessage" then []
  else
    EvDebug [VStr ("<--  " +:+ method)] ::
      (if log_payloads (settings c) && py_truthy params
       then [EvDebug [VStr ("     " +:+ str_of params)]]
       else []).

(** A response is dropped: no field changes and no callable is called. *)
Definition dropped (c : Client) (response : value) : Prop :=
  client_of (response_handler response c) = c /\
  calls (trace_of (response_handler response c)) = [].

(** The claim as the specification has it: a close detaches the transport. *)
Definition detaches_on_close (c : Client) : Prop :=
  transport (client_of (on_transport_closed c)) = None.

(** The claim as the specification has it: the failure of a handler is
    logged with the method and the id of the message. *)
Definition logged_with_method_and_id (method : string) (id : value)
    (tr : list event) : Prop :=
  exists line,
    In line (exception_logs tr) /\
    contains method line = true /\
    contains (str_of id) line = true.

End Vocabulary.

(** ** Further vocabulary *)

(** The sync-result table holds the same under [id]. *)
Definition same_result (id : Z) (a b : Client) : Prop :=
  _sync_request_results b !! id = _sync_request_results a !! id.


(** [ordinary m]: whatever [m] raises is an instance of [Exception]. *)
Definition ordinary {A} (m : M A) : Prop :=
  forall c e, result_of (m c) = Raise e -> is_Exception e = true.

(** No pending entry is under an id above the counter. *)
Definition pending_bounded (c : Client) : Prop :=
  forall k, is_Some (_response_handlers c !! k) -> k <= request_id c.

Definition pending_bounded_stays (a b : Client) : Prop :=
  pending_bounded a -> pending_bounded b.

(** The counter does not go down, and a result stored under an id that has
    been given out is still stored. *)
Definition results_stay (a b : Client) : Prop :=
  request_id a <= request_id b /\
  forall k, k <= request_id a ->
    is_Some (_sync_request_results a !! k) -> is_Some (_sync_request_results b !! k).

(** A second runtime for the examples: its decoder knows more texts, and
    none of its callables leaves the interpreter (the one named 13 raises an
    exception, every other one returns). *)
Definition demo_ping : value :=
  VDict [("id", VInt 7); ("method", VStr "workspace/configuration");
         ("params", VDict [("items", VList [])])].

Definition demo_diagnostics : value :=
  VDict [("method", VStr "textDocument/publishDiagnostics");
         ("params", VDict [("uri", VStr "file:///a.py")])].

(** A response whose id is None. *)
Definition demo_null_id : value := VDict [("id", VNone); ("result", VInt 1)].

Definition demo_texts : list value :=
  [VNone; VBool true; VInt 3; VStr "method"; VList [VStr "id"]; VDict [];
   sample_pong; demo_ping; demo_diagnostics; demo_null_id].

Definition demo_loads (s : string) : option value :=
  List.find (fun v => String.eqb (sample_print v) s) demo_texts.

Definition demo_run_callback (f : callable) (args : list value) : outcome unit :=
  match f with
  | Callable 13 => Raise (OtherException 0)
  | _ => Ret tt
  end.

Definition demo_runtime : Runtime :=
  {| json_loads := demo_loads;
     json_dumps := sample_print;
     py_str := sample_print;
     int_of_str := sample_int_of_str;
     TIMEOUT_MAX := sample_TIMEOUT_MAX;
     Request_to_payload := Request_to_payload (Runtime := sample_runtime);
     Notification_to_payload := Notification_to_payload (Runtime := sample_runtime);
     Response_to_payload := Response_to_payload (Runtime := sample_runtime);
     run_callback := demo_run_callback |}.

(** The except clause at the end of [receive_payload]. *)
Definition server_payload_log `{Runtime} : exn -> M unit :=
  fun err => exception_log "Error handling server payload" err.

(** What [receive_payload] makes of a message that decodes to something
    other than a dict: one log line. *)
Definition stray_payload_log (v : value) : event :=
  match v with
  | VStr s =>
      if contains "method" s then EvExceptionLog "Error handling server payload" AttributeError
      else if contains "id" s then EvExceptionLog "Error handling server payload" TypeError
      else EvDebug [VStr "Unknown payload type: "; v]
  | VList l =>
      if existsb (fun x => py_eq_str x "method") l
      then EvExceptionLog "Error handling server payload" AttributeError
      else if existsb (fun x => py_eq_str x "id") l
      then EvExceptionLog "Error handling server payload" TypeError
      else EvDebug [VStr "Unknown payload type: "; v]
  | _ => EvExceptionLog "Error handling server payload" TypeError
  end.

(** A client with the same callable names in both registries, under
    different methods. *)
Definition demo_serving_client : Client :=
  client_of
    (on_notification "textDocument/publishDiagnostics" (Callable 21)
       (client_of
          (on_notification "workspace/configuration" (Callable 22)
             (client_of
                (on_request "workspace/configuration" (Callable 20) sample_client))))).

(** A client whose transport-failure handler raises. *)
Definition demo_failing_client : Client :=
  set_crash_handler_field (Some (Callable 4))
    (set_transport_fail_handler_field (Some (Callable 13)) sample_client).

(** * Document synchronisation (plugin/core/documents.py)

    The module keeps two tables, the synchronisation state of the documents
    of each window and the changes of each buffer that wait to be sent, and
    turns events of the editor into notifications for the client of the
    view. The editor, the configuration and the clients are collaborators:
    what they answer at the time of a call is a parameter ([Editor]), and
    what the module asks them to do is recorded as events. *)

Module Documents.

(** ** Collaborators *)

(** [sublime.View] and [sublime.Window]: handles on a view and a window of
    the editor. *)
Record View : Type := { view_id : Z }.
Record Window : Type := { window_id : Z }.

(** [sublime.Region(a, b)], with the methods the Sublime Text API documents:
    [begin()] is the smaller and [end()] the larger of the two ends, [empty()]
    says that they are equal, [cover(r)] spans both regions. *)
Record Region : Type := { region_a : Z; region_b : Z }.

Definition Region_begin (r : Region) : Z := Z.min (region_a r) (region_b r).
Definition Region_end (r : Region) : Z := Z.max (region_a r) (region_b r).
Definition Region_empty (r : Region) : bool := Z.eqb (region_a r) (region_b r).
Definition Region_cover (r s : Region) : Region :=
  {| region_a := Z.min (Region_begin r) (Region_begin s);
     region_b := Z.max (Region_end r) (Region_end s) |}.

(** An object of [protocol.Range], and a client object of rpc.py, each known
    by a name. *)
Inductive Range : Type := RangeObject (name : nat).
Inductive client : Type := ClientObject (name : nat).

(** The fields of a client configuration that the module reads. *)
Record ClientConfig : Type := { config_name : string; languageId : string }.

(** What the collaborators answer when asked, at the time of a call. A view
    with no file has file name None; [window] and [active_window] are None
    where the editor gives None or a window that counts as false. *)
Class Editor : Type := {
  file_name : View -> option string;             (* view.file_name() *)
  window : View -> option Window;                (* view.window() *)
  active_window : option Window;                 (* sublime.active_window() *)
  buffer_id : View -> Z;                         (* view.buffer_id() *)
  change_count : View -> Z;                      (* view.change_count() *)
  size : View -> Z;                              (* view.size() *)
  substr : View -> Region -> string;             (* view.substr(region) *)
  substr_at : View -> Z -> string;               (* view.substr(point) *)
  sel : View -> list Region;                     (* view.sel() *)
  classify : View -> Z -> Z;                     (* view.classify(point) *)
  window_to_text : View -> value -> value -> Z;  (* view.window_to_text((x, y)) *)
  filename_to_uri : string -> string;            (* url.filename_to_uri *)
  show_view_status : bool;                       (* settings.show_view_status *)
  config_for_scope : View -> option ClientConfig;
  client_for_view : View -> option client;
  window_clients : Window -> gmap string client;
  Range_from_region : View -> Region -> Range;
  Range_to_lsp : Range -> value;
  Range_bool : Range -> bool;                    (* bool(range) *)
  Point_to_lsp : View -> Z -> value;  (* Point.from_text_point(view, p).to_lsp() *)
  Notification_didOpen : value -> Notification;
  Notification_didClose : value -> Notification;
  Notification_didSave : value -> Notification;
  Notification_didChange : value -> Notification
}.

(** ** The data of the module *)

Definition SUBLIME_WORD_MASK : Z := 515.

(** [DocumentState]: created with version 0. *)
Record DocumentState : Type := { path : string; version : Z }.

Definition DocumentState_init (path : string) : DocumentState :=
  {| path := path; version := 0 |}.

Record TextChange : Type := {
  change_view : View;
  change_change_count : Z;
  change_range : option Range;
  change_text : option string
}.

(** The module-level variables, and the class attribute [prev_cursors] of
    [IncrementalSyncListener]. *)
Record Module_state : Type := {
  document_states : gmap Z (gmap string DocumentState);
  pending_buffer_changes : gmap Z (list TextChange);
  document_sync_initialized : bool;
  prev_cursors : gmap Z (list (Region * string))
}.

Definition initial_state : Module_state :=
  {| document_states := ∅; pending_buffer_changes := ∅;
     document_sync_initialized := false; prev_cursors := ∅ |}.

Definition set_document_states (x : gmap Z (gmap string DocumentState))
    (s : Module_state) : Module_state :=
  {| document_states := x;
     pending_buffer_changes := pending_buffer_changes s;
     document_sync_initialized := document_sync_initialized s;
     prev_cursors := prev_cursors s |}.

Definition set_pending_buffer_changes (x : gmap Z (list TextChange))
    (s : Module_state) : Module_state :=
  {| document_states := document_states s;
     pending_buffer_changes := x;
     document_sync_initialized := document_sync_initialized s;
     prev_cursors := prev_cursors s |}.

Definition set_document_sync_initialized (x : bool) (s : Module_state)
  : Module_state :=
  {| document_states := document_states s;
     pending_buffer_changes := pending_buffer_changes s;
     document_sync_initialized := x;
     prev_cursors := prev_cursors s |}.

Definition set_prev_cursors (x : gmap Z (list (Region * string)))
    (s : Module_state) : Module_state :=
  {| document_states := document_states s;
     pending_buffer_changes := pending_buffer_changes s;
     document_sync_initialized := document_sync_initialized s;
     prev_cursors := x |}.

(** The exceptions that the module raises. *)
Inductive error : Type :=
| KeyError
| IndexError
| AssertionError
| Exception (message : string).

Inductive result (A : Type) : Type :=
| Returns (a : A)
| Raises (e : error).
Arguments Returns {A} a.
Arguments Raises {A} e.

(** An argument of [debug]: a value, or a change, which [debug] prints. *)
Inductive debug_arg : Type :=
| DebugValue (v : value)
| DebugChange (change : TextChange).

(** The functions that [initialize_document_sync] subscribes. *)
Inductive subscriber : Type :=
| Subscriber_notify_did_open
| Subscriber_queue_did_change
| Subscriber_notify_did_save
| Subscriber_notify_did_close.

(** What the module asks of its collaborators. *)
Inductive event : Type :=
| Debug (args : list debug_arg)
| SendNotification (c : client) (n : Notification)  (* c.send_notification(n) *)
| SettingsSet (v : View) (key : string) (x : value) (* v.settings().set(key, x) *)
| SetStatus (v : View) (key : string) (x : string)  (* v.set_status(key, x) *)
| PurgeLater (buffer_id : Z) (version : Z) (delay : Z)
    (* set_timeout_async(lambda: purge_did_change(buffer_id, version), delay) *)
| Subscribe (topic : string) (f : subscriber)       (* Events.subscribe *)
| Publish (topic : string) (v : View) (r : Region) (text : option string).
    (* Events.publish("view.on_modified", view, region, text) *)

(** A function of the module: from the module-level variables to a result,
    the variables as it left them, and the events it caused. *)
Definition D (A : Type) : Type := Module_state -> result A * Module_state * list event.

Definition dret {A} (a : A) : D A := fun s => (Returns a, s, []).
Definition draise {A} (e : error) : D A := fun s => (Raises e, s, []).
Definition dbind {A B} (m : D A) (k : A -> D B) : D B :=
  fun s =>
    match m s with
    | (Returns a, s1, t1) => let '(r, s2, t2) := k a s1 in (r, s2, t1 ++ t2)
    | (Raises e, s1, t1) => (Raises e, s1, t1)
    end.

Declare Scope doc_scope.
Delimit Scope doc_scope with doc.
Notation "x <- m ;; k" := (dbind m (fun x => k))
  (at level 100, m at next level, right associativity) : doc_scope.
Notation "m ;; k" := (dbind m (fun _ => k))
  (at level 100, right associativity) : doc_scope.
Local Open Scope doc_scope.

Definition globals : D Module_state := fun s => (Returns s, s, []).
Definition assign (f : Module_state -> Module_state) : D unit :=
  fun s => (Returns tt, f s, []).
Definition tell (ev : event) : D unit := fun s => (Returns tt, s, [ev]).

Definition debug (args : list debug_arg) : D unit := tell (Debug args).

(** [if name:] for a file name: neither None nor the empty str. *)
Definition named (name : option string) : option string :=
  match name with
  | Some s => if String.eqb s EmptyString then None else Some s
  | None => None
  end.

(** A str, or None, as a value. *)
Definition str_or_None (text : option string) : value :=
  match text with Some s => VStr s | None => VNone end.

(** ** The functions of the module *)

Section Functions.
Context {ed : Editor}.

(** [view.sel()[0].begin()]. *)
Definition first_cursor (view : View) : D Z :=
  match sel view with
  | r :: _ => dret (Region_begin r)
  | [] => draise IndexError
  end.

(** [point] is None or an int; [if not point] holds of None and of 0. *)
Definition get_document_position (view : View) (point : option Z) : D (option value) :=
  match named (file_name view) with
  | Some name =>
      p <- match point with
           | Some p => if Z.eqb p 0 then first_cursor view else dret p
           | None => first_cursor view
           end ;;
      dret (Some (VDict [("textDocument",
                          VDict [("uri", VStr (filename_to_uri name))]);
                         ("position", Point_to_lsp view p)]))
  | None => dret None
  end.

(** [event] is None or the dict of a mouse event, with its x and y. *)
Definition get_position (view : View) (event : option (value * value)) : D Z :=
  match event with
  | Some (x, y) => dret (window_to_text view x y)
  | None => first_cursor view
  end.

Definition is_at_word (view : View) (event : option (value * value)) : D bool :=
  pos <- get_position view event ;;
  let point_classification := classify view pos in
  if negb (Z.eqb (Z.land point_classification SUBLIME_WORD_MASK) 0)
  then dret true
  else dret false.

Definition get_document_state (w : Window) (p : string) : D DocumentState :=
  s <- globals ;;
  (* document_states.setdefault(window.id(), {}) *)
  let window_document_states := default ∅ (document_states s !! window_id w) in
  match window_document_states !! p with
  | Some state => dret state  (* the window has its table: nothing is set *)
  | None =>
      let state := DocumentState_init p in
      assign (set_document_states
                (<[window_id w := <[p := state]> window_document_states]>
                   (document_states s))) ;;
      dret state
  end.

Definition has_document_state (w : Window) (p : string) : D bool :=
  s <- globals ;;
  match document_states s !! window_id w with
  | None => dret false
  | Some window_document_states =>
      dret (bool_decide (is_Some (window_document_states !! p)))
  end.

Definition clear_document_state (w : Window) (p : string) : D unit :=
  s <- globals ;;
  match document_states s !! window_id w with
  | Some window_document_states =>
      (* del document_states[window_id][path] *)
      match window_document_states !! p with
      | Some _ =>
          assign (set_document_states
                    (<[window_id w := delete p window_document_states]>
                       (document_states s)))
      | None => draise KeyError
      end
  | None => dret tt
  end.

Definition clear_document_states (w : Window) : D unit :=
  s <- globals ;;
  match document_states s !! window_id w with
  | Some _ => assign (set_document_states (delete (window_id w) (document_states s)))
  | None => dret tt
  end.

(** [document_state.version = v] on the state object that
    [get_document_state(w, p)] has just given: the object is the one in the
    table. *)
Definition set_version (w : Window) (p : string) (v : Z) : D unit :=
  assign (fun s =>
    set_document_states
      (alter (alter (fun state => {| path := path state; version := v |}) p)
         (window_id w) (document_states s)) s).

Definition get_change_list (buffer_id : Z) : D (list TextChange) :=
  s <- globals ;;
  match pending_buffer_changes s !! buffer_id with
  | Some change_list => dret change_list
  | None =>
      assign (set_pending_buffer_changes
                (<[buffer_id := []]> (pending_buffer_changes s))) ;;
      dret []
  end.

Definition to_content_change (change : TextChange) : value :=
  VDict [("text", str_or_None (change_text change));
         ("range",
          match change_range change with
          | Some r => if Range_bool r then Range_to_lsp r else VNone
          | None => VNone
          end)].

Definition notify_did_incremental_change (change : TextChange) : D unit :=
  let view := change_view change in
  match window view, named (file_name view) with
  | Some w, Some name =>
      s <- globals ;;
      match pending_buffer_changes s !! buffer_id view with
      | None => draise AssertionError
      | Some pending_changes =>
          let content_changes := VList (map to_content_change pending_changes) in
          assign (set_pending_buffer_changes
                    (delete (buffer_id view) (pending_buffer_changes s))) ;;
          debug [DebugValue (VStr "pending list cleared")] ;;
          match client_for_view view with
          | Some _ =>
              document_state <- get_document_state w name ;;
              let uri := filename_to_uri name in
              let count := change_count view in
              let params :=
                VDict [("textDocument",
                        VDict [("uri", VStr uri); ("version", VInt count)]);
                       ("contentChanges", VList [content_changes])] in
              debug [DebugValue (VStr "didChange"); DebugValue params] ;;
              set_version w name count
              (* the notification itself is commented out in the source *)
          | None => dret tt
          end
      end
  | _, _ => dret tt
  end.

Definition purge_did_change (buffer : Z) (requested_version : option Z) : D unit :=
  s <- globals ;;
  match pending_buffer_changes s !! buffer with
  | None =>
      debug [DebugValue (VStr "no pending changes for buffer"); DebugValue (VInt buffer)]
  | Some change_list =>
      match last change_list with
      | None => draise IndexError
      | Some last_edit =>
          let wanted :=
            match requested_version with
            | None => true
            | Some v => Z.eqb v (change_change_count last_edit)
            end in
          if wanted then
            debug [DebugValue (VStr "purging at version");
                   DebugValue (match requested_version with
                               | Some v => VInt v | None => VNone end)] ;;
            notify_did_incremental_change last_edit
          else
            debug [DebugValue (VStr "skipping version");
                   DebugValue (match requested_version with
                               | Some v => VInt v | None => VNone end)]
      end
  end.

Definition queue_did_change (view : View) (region : Region)
    (newText : option string) : D unit :=
  let buffer := buffer_id view in
  change_list <- get_change_list buffer ;;
  let count := change_count view in
  (if Z.ltb (Z.of_nat (length change_list)) count then
     let range := Range_from_region view region in
     let change :=
       {| change_view := view; change_change_count := count;
          change_range := Some range; change_text := newText |} in
     (* change_list.append(change): the list is the one in the table *)
     assign (fun s =>
       set_pending_buffer_changes
         (<[buffer := change_list ++ [change]]> (pending_buffer_changes s)) s) ;;
     debug [DebugChange change]
   else draise (Exception "No changes found")) ;;
  tell (PurgeLater buffer count 500).

Definition notify_did_open (view : View) : D unit :=
  match client_for_view view, config_for_scope view with
  | Some c, Some config =>
      tell (SettingsSet view "show_definitions" (VBool false)) ;;
      match window view, named (file_name view) with
      | Some w, Some view_file =>
          tracked <- has_document_state w view_file ;;
          if negb tracked then
            ds <- get_document_state w view_file ;;
            (if show_view_status
             then tell (SetStatus view "lsp_clients" (config_name config))
             else dret tt) ;;
            let params :=
              VDict [("textDocument",
                      VDict [("uri", VStr (filename_to_uri view_file));
                             ("languageId", VStr (languageId config));
                             ("text",
                              VStr (substr view
                                      {| region_a := 0; region_b := size view |}));
                             ("version", VInt (version ds))])] in
            tell (SendNotification c (Notification_didOpen params))
          else dret tt
      | _, _ => dret tt
      end
  | _, _ => dret tt
  end.

Definition notify_did_close (view : View) : D unit :=
  match active_window, named (file_name view) with
  | Some w, Some name =>
      tracked <- has_document_state w name ;;
      if tracked then
        clear_document_state w name ;;
        match config_for_scope view with
        | Some config =>
            match window_clients w !! config_name config with
            | Some c =>
                let params :=
                  VDict [("textDocument", VDict [("uri", VStr (filename_to_uri name))])] in
                tell (SendNotification c (Notification_didClose params))
            | None => dret tt
            end
        | None => dret tt
        end
      else dret tt
  | _, _ => dret tt
  end.

Definition notify_did_save (view : View) : D unit :=
  match window view, named (file_name view) with
  | Some w, Some name =>
      tracked <- has_document_state w name ;;
      if tracked then
        match client_for_view view with
        | Some c =>
            let params :=
              VDict [("textDocument", VDict [("uri", VStr (filename_to_uri name))])] in
            tell (SendNotification c (Notification_didSave params))
        | None => dret tt
        end
      else debug [DebugValue (VStr "document not tracked"); DebugValue (VStr name)]
  | _, _ => dret tt
  end.

Definition notify_did_change (view : View) : D unit :=
  match window view, named (file_name view) with
  | Some w, Some name =>
      s <- globals ;;
      (match pending_buffer_changes s !! buffer_id view with
       | Some _ =>
           assign (set_pending_buffer_changes
                     (delete (buffer_id view) (pending_buffer_changes s))) ;;
           debug [DebugValue (VStr "pending list cleared")]
       | None => debug [DebugValue (VStr "no pending changes for buffer")]
       end) ;;
      match client_for_view view with
      | Some c =>
          document_state <- get_document_state w name ;;
          let uri := filename_to_uri name in
          let count := change_count view in
          let params :=
            VDict [("textDocument",
                    VDict [("uri", VStr uri); ("version", VInt count)]);
                   ("contentChanges",
                    VList [VDict [("text",
                                   VStr (substr view
                                           {| region_a := 0;
                                              region_b := size view |}))]])] in
          tell (SendNotification c (Notification_didChange params)) ;;
          set_version w name count
      | None => dret tt
      end
  | _, _ => dret tt
  end.

Definition initialize_document_sync (text_document_sync_kind : value) : D unit :=
  s <- globals ;;
  if document_sync_initialized s then dret tt
  else
    assign (set_document_sync_initialized true) ;;
    tell (Subscribe "view.on_load_async" Subscriber_notify_did_open) ;;
    tell (Subscribe "view.on_activated_async" Subscriber_notify_did_open) ;;
    tell (Subscribe "view.on_modified" Subscriber_queue_did_change) ;;
    tell (Subscribe "view.on_post_save_async" Subscriber_notify_did_save) ;;
    tell (Subscribe "view.on_close" Subscriber_notify_did_close).

(** *** [IncrementalSyncListener] *)

Definition get_cursors (view : View) : list Region := sel view.

Definition record_cursor_pos (view : View) : D unit :=
  let cursors :=
    map (fun cursor =>
           if Region_empty cursor && Z.ltb 0 (Region_begin cursor)
           then (cursor, substr_at view (Region_begin cursor - 1))
           else (cursor, substr view cursor))
        (get_cursors view) in
  assign (fun s => set_prev_cursors (<[view_id view := cursors]> (prev_cursors s)) s).

Definition on_insert (view : View) (cursor_begin cursor_end : Z) (text : string)
  : D unit :=
  match named (file_name view) with
  | Some _ =>
      tell (Publish "view.on_modified" view
              {| region_a := cursor_begin; region_b := cursor_end |} (Some text))
  | None => dret tt
  end.

Definition on_delete (view : View) (cursor_begin cursor_end : Z) (text : string)
  : D unit :=
  match named (file_name view) with
  | Some _ =>
      tell (Publish "view.on_modified" view
              {| region_a := cursor_begin; region_b := cursor_end |} None)
  | None => dret tt
  end.

(** The loop of [on_modified_async], from the cursor of number [index] on. *)
Fixpoint on_modified_loop (view : View) (index : nat) (offset : Z)
    (cursors : list Region) : D unit :=
  match cursors with
  | [] => dret tt
  | cursor :: rest =>
      s <- globals ;;
      match prev_cursors s !! view_id view with
      | None => draise KeyError
      | Some recorded =>
          match recorded !! index with
          | None => draise IndexError
          | Some (prev_cursor, prev_text) =>
              let prev_cursor :=
                {| region_a := Region_begin prev_cursor + offset;
                   region_b := Region_end prev_cursor + offset |} in
              (if negb (Region_empty prev_cursor)
                  || Z.ltb (Region_begin cursor) (Region_begin prev_cursor)
               then on_delete view (Region_begin prev_cursor) (Region_end prev_cursor)
                      prev_text
               else dret tt) ;;
              (if Z.ltb (Region_begin prev_cursor) (Region_begin cursor)
               then
                 let region := Region_cover prev_cursor cursor in
                 on_insert view (Region_begin region) (Region_end region)
                   (substr view region)
               else dret tt) ;;
              on_modified_loop view (S index)
                (offset + (Region_begin cursor - Region_begin prev_cursor)) rest
          end
      end
  end.

Definition on_modified_async (view : View) : D unit :=
  on_modified_loop view 0 0 (sel view).

End Functions.

(** ** Reading what a function gives *)

Definition outcome_of {A} (r : result A * Module_state * list event) : result A := r.1.1.
Definition state_of {A} (r : result A * Module_state * list event) : Module_state := r.1.2.
Definition events_of {A} (r : result A * Module_state * list event) : list event := r.2.

(** The notifications given to clients. *)
Fixpoint notifications (tr : list event) : list (client * Notification) :=
  match tr with
  | [] => []
  | SendNotification c n :: rest => (c, n) :: notifications rest
  | _ :: rest => notifications rest
  end.

(** The version recorded for a document, if it is tracked. *)
Definition tracked_version (s : Module_state) (w : Window) (p : string) : option Z :=
  document_states s !! window_id w ≫= fun docs => version <$> docs !! p.

(** The documents of a window; none when the window has no table. *)
Definition documents_of (s : Module_state) (w : Window) : gmap string DocumentState :=
  default ∅ (document_states s !! window_id w).

(** The changes that wait for a buffer; none when the buffer has no list. *)
Definition pending_of (s : Module_state) (buffer : Z) : list TextChange :=
  default [] (pending_buffer_changes s !! buffer).

(** No list of waiting changes is longer than the change count of its last
    change. *)
Definition counted (s : Module_state) : Prop :=
  forall buffer change_list change,
    pending_buffer_changes s !! buffer = Some change_list ->
    last change_list = Some change ->
    Z.of_nat (length change_list) <= change_change_count change.

(** The module state after [get_document_state(w, p)] and the assignment of
    [v] to the version of the state it gave. *)
Definition with_version (w : Window) (p : string) (v : Z) (s : Module_state)
  : Module_state :=
  state_of (set_version w p v (state_of (get_document_state w p s))).

Section Changes.
Context {ed : Editor}.

(** The params of the change notification that
    [notify_did_incremental_change] builds, and logs. *)
Definition incremental_params (view : View) (name : string)
    (pending_changes : list TextChange) : value :=
  VDict [("textDocument",
          VDict [("uri", VStr (filename_to_uri name));
                 ("version", VInt (change_count view))]);
         ("contentChanges", VList [VList (map to_content_change pending_changes)])].

(** The argument of [debug] for a requested version. *)
Definition version_arg (requested_version : option Z) : debug_arg :=
  DebugValue (match requested_version with Some v => VInt v | None => VNone end).

(** The change that [queue_did_change] makes of its arguments. *)
Definition queued_change (view : View) (region : Region) (newText : option string)
  : TextChange :=
  {| change_view := view; change_change_count := change_count view;
     change_range := Some (Range_from_region view region); change_text := newText |}.

(** The params of the notifications that [notify_did_open], [notify_did_close]
    and [notify_did_save], and [notify_did_change] build. *)
Definition did_open_params (view : View) (config : ClientConfig) (name : string)
    (v : Z) : value :=
  VDict [("textDocument",
          VDict [("uri", VStr (filename_to_uri name));
                 ("languageId", VStr (languageId config));
                 ("text", VStr (substr view {| region_a := 0; region_b := size view |}));
                 ("version", VInt v)])].

Definition uri_params (name : string) : value :=
  VDict [("textDocument", VDict [("uri", VStr (filename_to_uri name))])].

Definition did_change_params (view : View) (name : string) : value :=
  VDict [("textDocument",
          VDict [("uri", VStr (filename_to_uri name));
                 ("version", VInt (change_count view))]);
         ("contentChanges",
          VList [VDict [("text",
                         VStr (substr view
                                 {| region_a := 0; region_b := size view |}))]])].

End Changes.

(** An empty selection, the caret, at a point. *)
Definition caret (p : Z) : Region := {| region_a := p; region_b := p |}.

(** ** An editor for the examples *)

(** Views 1 and 2 show the files /work/a.py and /work/b.py in window 10;
    every other view has no file and no window. The buffer of view n is
    n + 100. One client, for the configuration pyls. The active window, the
    cursors and the change count of the views are the parameters. *)
Definition sample_window : Window := {| window_id := 10 |}.

Definition sample_file (v : View) : option string :=
  if Z.eqb (view_id v) 1 then Some "/work/a.py"
  else if Z.eqb (view_id v) 2 then Some "/work/b.py"
  else None.

Definition sample_notification (method : string) (params : value) : Notification :=
  {| notification_method := method; notification_params := params |}.

Definition sample_editor_in (active : option Window) (cursors : list Region)
    (count : Z) : Editor :=
  {| file_name := sample_file;
     window := fun v => match sample_file v with
                        | Some _ => Some sample_window
                        | None => None
                        end;
     active_window := active;
     buffer_id := fun v => view_id v + 100;
     change_count := fun _ => count;
     size := fun _ => 9;
     substr := fun _ _ => "import os";
     substr_at := fun _ _ => "i";
     sel := fun _ => cursors;
     classify := fun _ _ => 1;
     window_to_text := fun _ _ _ => 0;
     filename_to_uri := fun name => "file://" +:+ name;
     show_view_status := true;
     config_for_scope := fun v =>
       match sample_file v with
       | Some _ => Some {| config_name := "pyls"; languageId := "python" |}
       | None => None
       end;
     client_for_view := fun v =>
       match sample_file v with
       | Some _ => Some (ClientObject 1)
       | None => None
       end;
     window_clients := fun _ => {["pyls" := ClientObject 1]};
     Range_from_region := fun _ r => RangeObject (Z.to_nat (Region_begin r));
     Range_to_lsp := fun r => match r with RangeObject n => VInt (Z.of_nat n) end;
     Range_bool := fun _ => true;
     Point_to_lsp := fun _ p => VInt p;
     Notification_didOpen := sample_notification "textDocument/didOpen";
     Notification_didClose := sample_notification "textDocument/didClose";
     Notification_didSave := sample_notification "textDocument/didSave";
     Notification_didChange := sample_notification "textDocument/didChange" |}.

(** The editor with window 10 active and one cursor, at 3. *)
Definition sample_editor (count : Z) : Editor :=
  sample_editor_in (Some sample_window) [{| region_a := 3; region_b := 3 |}] count.

Definition view_a : View := {| view_id := 1 |}.
Definition view_b : View := {| view_id := 2 |}.

End Documents.

(** ** What a method keeps *)

Section KeepsRules.
Context (R : Client -> Client -> Prop).
Hypothesis R_refl : forall c, R c c.
Hypothesis R_trans : forall a b c, R a b -> R b c -> R a c.

Lemma keeps_ret {A} (a : A) : keeps R (ret a).
Proof. intros c. apply R_refl. Qed.

Lemma keeps_raise {A} (e : exn) : keeps R (@raise A e).
Proof. intros c. apply R_refl. Qed.

Lemma keeps_self : keeps R self.
Proof. intros c. apply R_refl. Qed.

Lemma keeps_emit (ev : event) : keeps R (emit ev).
Proof. intros c. apply R_refl. Qed.

Lemma keeps_lift {A} (o : outcome A) : keeps R (lift o).
Proof. destruct o; [apply keeps_ret | apply keeps_raise]. Qed.

Lemma keeps_update (f : Client -> Client) :
  (forall c, R c (f c)) -> keeps R (update f).
Proof. intros Hf c. apply Hf. Qed.

Lemma keeps_bind {A B} (m : M A) (k : A -> M B) :
  keeps R m -> (forall a, keeps R (k a)) -> keeps R (bind m k).
Proof.
  intros Hm Hk c. unfold bind, client_of. specialize (Hm c).
  destruct (m c) as [[[a|e] c1] t1]; simpl in *; [|exact Hm].
  specialize (Hk a c1). unfold client_of in Hk.
  destruct (k a c1) as [[r c2] t2]; simpl in *. eapply R_trans; eassumption.
Qed.

Lemma keeps_try_except {A} (m : M A) (catches : exn -> bool) (h : exn -> M A) :
  keeps R m -> (forall e, keeps R (h e)) -> keeps R (try_except m catches h).
Proof.
  intros Hm Hh c. unfold try_except, client_of. specialize (Hm c).
  destruct (m c) as [[[a|e] c1] t1]; simpl in *; [exact Hm|].
  destruct (catches e); simpl; [|exact Hm].
  specialize (Hh e c1). unfold client_of in Hh.
  destruct (h e c1) as [[r c2] t2]; simpl in *. eapply R_trans; eassumption.
Qed.

Lemma keeps_when (b : bool) (m : M unit) : keeps R m -> keeps R (when b m).
Proof. intros Hm. destruct b; [exact Hm | apply keeps_ret]. Qed.

End KeepsRules.

(** One step of a proof that a method keeps a relation: a rule of the
    monad, or a case distinction the method makes. *)
Ltac keeps_step :=
  lazymatch goal with
  | |- keeps _ (bind _ _) =>
      apply keeps_bind; [assumption | | intros ?; cbv beta]
  | |- keeps _ (try_except _ _ _) =>
      apply keeps_try_except; [assumption | | intros ?; cbv beta]
  | |- keeps _ (when _ _) => apply keeps_when; [assumption |]
  | |- keeps _ (ret _) => apply keeps_ret; assumption
  | |- keeps _ (raise _) => apply keeps_raise; assumption
  | |- keeps _ self => apply keeps_self; assumption
  | |- keeps _ (emit _) => apply keeps_emit; assumption
  | |- keeps _ (lift _) => apply keeps_lift; assumption
  | |- keeps _ (update _) =>
      apply keeps_update; intros ?; cbv beta;
      try solve [auto | hnf; simpl; auto | hnf; simpl; lia]
  | |- keeps _ (match ?x with _ => _ end) => destruct x
  | |- keeps _ (let _ := _ in _) => cbv zeta
  end.

Section KeepsMethods.
Context {rt : Runtime}.
Context (R : Client -> Client -> Prop).
Hypothesis R_refl : forall c, R c c.
Hypothesis R_trans : forall a b c, R a b -> R b c -> R a c.

Lemma keeps_debug args : keeps R (debug args).
Proof. unfold debug. keeps_step. Qed.

Lemma keeps_exception_log message e : keeps R (exception_log message e).
Proof. unfold exception_log. keeps_step. Qed.

Lemma keeps_call f args : keeps R (call f args).
Proof. unfold call. repeat keeps_step. Qed.

Lemma keeps_call_if_set f args : keeps R (call_if_set f args).
Proof. unfold call_if_set. destruct f; [apply keeps_call | keeps_step]. Qed.

Lemma keeps_call_display d msg : keeps R (call_display d msg).
Proof. unfold call_display. destruct d; [apply keeps_debug | apply keeps_call]. Qed.

Lemma keeps_send_payload payload : keeps R (send_payload payload).
Proof. unfold send_payload. repeat keeps_step. Qed.

Lemma keeps_send_notification n : keeps R (send_notification n).
Proof.
  unfold send_notification.
  repeat first [apply keeps_debug | apply keeps_send_payload | keeps_step].
Qed.

Lemma keeps_send_response r : keeps R (send_response r).
Proof. apply keeps_send_payload. Qed.

Lemma keeps_handle typestr message handlers args :
  keeps R (handle typestr message handlers args).
Proof.
  unfold handle.
  repeat first [apply keeps_debug | apply keeps_exception_log | apply keeps_call
               | keeps_step].
Qed.

(** The inbound path assigns to the two tables only. *)
Hypothesis R_response_handlers : forall c x, R c (set_response_handlers x c).
Hypothesis R_sync_request_results : forall c x, R c (set_sync_request_results x c).

Lemma keeps_response_handler response : keeps R (response_handler response).
Proof.
  unfold response_handler.
  repeat first [apply keeps_debug | apply keeps_call | apply keeps_call_display
               | keeps_step].
Qed.

Lemma keeps_receive_payload message : keeps R (receive_payload message).
Proof.
  unfold receive_payload.
  repeat first [apply keeps_debug | apply keeps_exception_log | apply keeps_handle
               | apply keeps_response_handler | keeps_step].
Qed.

Lemma keeps_deliver arrivals : keeps R (deliver arrivals).
Proof.
  induction arrivals as [|message rest IH]; simpl.
  - keeps_step.
  - intros c. pose proof (keeps_receive_payload message c) as H1.
    unfold client_of in *.
    destruct (receive_payload message c) as [[[a|e] c1] t1]; simpl in *; [|exact H1].
    specialize (IH c1). destruct (deliver rest c1) as [[r c2] t2]; simpl in *.
    eapply R_trans; eassumption.
Qed.

End KeepsMethods.

(** ** What every call keeps *)

Section KeepsPerform.
Context {rt : Runtime}.
Context (R : Client -> Client -> Prop).
Hypothesis R_refl : forall c, R c c.
Hypothesis R_trans : forall a b c, R a b -> R b c -> R a c.
(** The assignments that the methods make. *)
Hypothesis R_request_id : forall c, R c (set_request_id (request_id c + 1) c).
Hypothesis R_response_handlers : forall c x, R c (set_response_handlers x c).
Hypothesis R_sync_request_results : forall c x, R c (set_sync_request_results x c).
Hypothesis R_request_handlers : forall c x, R c (set_request_handlers x c).
Hypothesis R_notification_handlers : forall c x, R c (set_notification_handlers x c).
Hypothesis R_exiting : forall c, R c (set_exiting true c).
Hypothesis R_transport : forall c, R c (set_transport None c).
Hypothesis R_crash_handler : forall c x, R c (set_crash_handler_field x c).
Hypothesis R_transport_fail_handler :
  forall c x, R c (set_transport_fail_handler_field x c).
Hypothesis R_error_display_handler :
  forall c x, R c (set_error_display_handler_field x c).

Lemma keeps_send_request request handler error_handler :
  keeps R (send_request request handler error_handler).
Proof.
  unfold send_request.
  repeat first [(apply keeps_debug; assumption) | (apply keeps_send_payload; assumption) | (apply keeps_call_if_set; assumption)
               | keeps_step].
Qed.

Lemma keeps_execute_request request timeout arrivals :
  keeps R (execute_request request timeout arrivals).
Proof.
  unfold execute_request.
  repeat first [(apply keeps_debug; assumption) | (apply keeps_send_payload; assumption) | (apply keeps_deliver; assumption)
               | keeps_step].
Qed.

Lemma keeps_exit : keeps R exit.
Proof. unfold exit. repeat first [(apply keeps_send_notification; assumption) | keeps_step]. Qed.

Lemma keeps_handle_transport_failure : keeps R handle_transport_failure.
Proof.
  unfold handle_transport_failure.
  repeat first [(apply keeps_debug; assumption) | (apply keeps_call_if_set; assumption) | keeps_step].
Qed.

Lemma keeps_on_transport_closed : keeps R on_transport_closed.
Proof.
  unfold on_transport_closed.
  repeat first [(apply keeps_call_display; assumption) | apply keeps_handle_transport_failure
               | keeps_step].
Qed.

Lemma keeps_returning_None m : keeps R m -> keeps R (returning_None m).
Proof. intros Hm. unfold returning_None. repeat keeps_step. exact Hm. Qed.

Lemma keeps_perform a : keeps R (perform a).
Proof.
  destruct a; simpl; try apply keeps_returning_None.
  - apply keeps_send_request.
  - apply keeps_execute_request.
  - apply keeps_send_notification; assumption.
  - apply keeps_send_response; assumption.
  - apply keeps_exit.
  - unfold set_crash_handler. keeps_step.
  - unfold set_error_display_handler. keeps_step.
  - unfold set_transport_failure_handler. keeps_step.
  - apply keeps_receive_payload; assumption.
  - apply keeps_on_transport_closed.
  - unfold on_request. keeps_step.
  - unfold on_notification. keeps_step.
Qed.

Lemma keeps_run history : forall c, R c (run history c).
Proof.
  induction history as [|a rest IH]; intros c; simpl.
  - apply R_refl.
  - eapply R_trans; [apply keeps_perform | apply IH].
Qed.

End KeepsPerform.

(** * Properties of the client *)

Section Equations.
Context {rt : Runtime}.

Lemma call_eq f args c : call f args c = (run_callback f args, c, [EvCall f args]).
Proof. unfold call, bind, emit, lift. destruct (run_callback f args); reflexivity. Qed.

Lemma call_display_eq d msg c :
  call_display d msg c = (display_outcome d msg, c, display_trace d msg).
Proof. destruct d; simpl; [reflexivity | apply call_eq]. Qed.

(** With no transport, [send_request] consumes an id, logs, and leaves the
    rest to the error handler, if there is one. *)
Lemma send_request_detached request handler error_handler c :
  transport c = None ->
  send_request request handler error_handler c =
    (match error_handler with Some f => run_callback f [VNone] | None => Ret tt end,
     set_request_id (request_id c + 1) c,
     EvDebug [VStr "unable to send"; VStr (request_method request)] ::
       match error_handler with Some f => [EvCall f [VNone]] | None => [] end).
Proof.
  intros H. unfold send_request, bind, update, self. simpl. rewrite H.
  unfold debug, emit, call_if_set. destruct error_handler as [f|]; simpl.
  - rewrite call_eq. reflexivity.
  - reflexivity.
Qed.

(** With a transport, it records the pending entry under the new id and
    sends the payload made with that id. *)
Lemma send_request_attached request handler error_handler c t :
  transport c = Some t ->
  send_request request handler error_handler c =
    (Ret tt,
     set_response_handlers
       (<[request_id c + 1 := (handler, error_handler)]> (_response_handlers c))
       (set_request_id (request_id c + 1) c),
     [EvDebug [VStr (" --> " +:+ request_method request)];
      EvSend t (format_request (Request_to_payload request (request_id c + 1)))]).
Proof.
  intros H. unfold send_request, bind, update, self. simpl. rewrite H.
  unfold send_payload, bind, self. simpl. rewrite H. reflexivity.
Qed.

Lemma execute_request_detached request timeout arrivals c :
  transport c = None ->
  execute_request request timeout arrivals c =
    (Ret VNone, c, [EvDebug [VStr "unable to send"; VStr (request_method request)]]).
Proof.
  intros H. unfold execute_request, bind, self. simpl. rewrite H. reflexivity.
Qed.

Lemma receive_payload_undecodable message c :
  json_loads message = None ->
  receive_payload message c = (Raise ValueError, c, []).
Proof.
  intros H. unfold receive_payload, bind, try_except. rewrite H. reflexivity.
Qed.

End Equations.

(** ** Sending without a transport *)

(** No transport is attached and the error handler raises: the exception is
    not caught, it leaves [send_request]. *)
Lemma send_request_without_transport_handler_raises :
  let c := set_transport None sample_client in
  let r := send_request (rt := sample_runtime)
             {| request_method := "initialize"; request_params := VDict [] |}
             (Callable 1) (Some (Callable 13)) c in
  transport c = None /\
  sent (trace_of r) = [] /\
  calls (trace_of r) = [(Callable 13, [VNone])] /\
  result_of r = Raise (OtherException 0) /\
  result_of r <> Ret tt.
Proof.
  intros c r. split; [reflexivity|]. split; [reflexivity|]. split; [reflexivity|].
  split; [reflexivity|]. vm_compute. discriminate.
Qed.

(** C7, amended. When [send_request] is called while no transport is
    attached, nothing is handed to [transport.send]; the supplied error
    handler is called exactly once, at once, with None (no callable is called
    when no error handler was supplied); and the call ends as that one call
    of the handler ends: it returns, without raising, when the handler
    returns or when there is none, and what the handler raises is not caught
    and leaves [send_request]. *)
Theorem send_request_without_transport `{Runtime} (request : Request)
    (handler : callable) (error_handler : option callable) (c : Client) :
  transport c = None ->
  let r := send_request request handler error_handler c in
  sent (trace_of r) = [] /\
  calls (trace_of r) =
    match error_handler with Some f => [(f, [VNone])] | None => [] end /\
  result_of r =
    match error_handler with Some f => run_callback f [VNone] | None => Ret tt end /\
  ((forall f, error_handler = Some f -> run_callback f [VNone] = Ret tt) ->
   result_of r = Ret tt).
Proof.
  intros Hnone r. subst r. rewrite (send_request_detached _ _ _ _ Hnone).
  unfold trace_of, result_of. simpl.
  destruct error_handler as [f|]; simpl; repeat split; auto.
Qed.

Lemma send_request_without_transport_witness :
  let c := set_transport None sample_client in
  let r := send_request (rt := sample_runtime)
             {| request_method := "initialize"; request_params := VDict [] |}
             (Callable 1) (Some (Callable 2)) c in
  transport c = None /\
  sent (trace_of r) = [] /\
  calls (trace_of r) = [(Callable 2, [VNone])] /\
  result_of r = Ret tt.
Proof.
  intros c r.
  destruct (send_request_without_transport (H := sample_runtime)
              {| request_method := "initialize"; request_params := VDict [] |}
              (Callable 1) (Some (Callable 2)) c eq_refl) as (Hs & Hc & _ & Hr).
  split; [reflexivity|]. split; [exact Hs|]. split; [exact Hc|].
  apply Hr. intros f Hf. injection Hf as <-. reflexivity.
Defined.



(** ** Messages that fail to decode *)

(** C1. [json.loads] raises [ValueError] on a message that is not JSON, and
    the [except IOError] clause of [receive_payload] does not catch it:
    nothing is logged, the fields are untouched, and the exception leaves
    [receive_payload]. *)
Theorem receive_payload_decode_failure `{Runtime} (message : string) (c : Client) :
  json_loads message = None ->
  receive_payload message c = (Raise ValueError, c, []).
Proof. apply receive_payload_undecodable. Qed.

Lemma receive_payload_decode_failure_witness :
  json_loads (Runtime := sample_runtime) "{" = None /\
  receive_payload (rt := sample_runtime) "{" sample_client
    = (Raise ValueError, sample_client, []).
Proof.
  split; [reflexivity|].
  apply (receive_payload_decode_failure (H := sample_runtime) "{" sample_client).
  reflexivity.
Defined.

(** ** The transport closes *)

Section Closing.
Context {rt : Runtime}.

Lemma call_if_set_eq f args c :
  call_if_set f args c =
    (match f with Some g => run_callback g args | None => Ret tt end, c,
     match f with Some g => [EvCall g args] | None => [] end).
Proof. destruct f; simpl; [apply call_eq | reflexivity]. Qed.

Lemma on_transport_closed_exiting c :
  exiting c = true ->
  on_transport_closed c =
    (display_outcome (_error_display_handler c) closing_message, c,
     display_trace (_error_display_handler c) closing_message).
Proof.
  intros H. unfold on_transport_closed, bind, self. simpl.
  fold closing_message. rewrite call_display_eq.
  destruct (display_outcome _ _) as [[]|e]; [|reflexivity].
  rewrite H. simpl. rewrite app_nil_r. reflexivity.
Qed.

Lemma on_transport_closed_display_raises c e :
  display_outcome (_error_display_handler c) closing_message = Raise e ->
  on_transport_closed c =
    (Raise e, c, display_trace (_error_display_handler c) closing_message).
Proof.
  intros H. unfold on_transport_closed, bind, self. simpl.
  fold closing_message. rewrite call_display_eq, H. reflexivity.
Qed.

Lemma handle_transport_failure_eq c :
  handle_transport_failure c =
    (match _transport_fail_handler c with
     | Some tf =>
         match run_callback tf [] with
         | Ret _ =>
             match _crash_handler c with
             | Some crash => run_callback crash []
             | None => Ret tt
             end
         | Raise e => Raise e
         end
     | None =>
         match _crash_handler c with
         | Some crash => run_callback crash []
         | None => Ret tt
         end
     end,
     set_transport None c,
     EvDebug [VStr "transport failed"] ::
       match _transport_fail_handler c with
       | Some tf =>
           EvCall tf [] ::
             match run_callback tf [] with
             | Ret _ =>
                 match _crash_handler c with
                 | Some crash => [EvCall crash []]
                 | None => []
                 end
             | Raise _ => []
             end
       | None =>
           match _crash_handler c with
           | Some crash => [EvCall crash []]
           | None => []
           end
       end).
Proof.
  unfold handle_transport_failure, bind, self, debug, emit, update. simpl.
  rewrite !call_if_set_eq. simpl.
  destruct (_transport_fail_handler c) as [tf|]; simpl.
  - destruct (run_callback tf []) as [[]|e]; simpl; [|reflexivity].
    destruct (_crash_handler c); reflexivity.
  - destruct (_crash_handler c); reflexivity.
Qed.

Lemma on_transport_closed_not_exiting c :
  exiting c = false ->
  display_outcome (_error_display_handler c) closing_message = Ret tt ->
  on_transport_closed c =
    (result_of (handle_transport_failure c),
     set_transport None c,
     display_trace (_error_display_handler c) closing_message ++
       trace_of (handle_transport_failure c)).
Proof.
  intros Hex Hd. unfold on_transport_closed, bind, self. simpl.
  fold closing_message. rewrite call_display_eq, Hd, Hex. simpl.
  rewrite handle_transport_failure_eq. reflexivity.
Qed.


Lemma detached_stays_run history c : detached_stays c (run history c).
Proof.
  apply keeps_run; unfold detached_stays; intros; simpl in *; auto.
Qed.


End Closing.




(** After [exit()], a close leaves the transport attached, and a request
    made after it is written to the transport. *)
Lemma on_transport_closed_exiting_keeps_transport :
  let c := run (rt := sample_runtime) [Call_exit] sample_client in
  let c' := client_of (on_transport_closed (rt := sample_runtime) c) in
  let request := {| request_method := "shutdown"; request_params := VNone |} in
  exiting c = true /\
  transport c' = Some StdioTransport /\
  ~ detaches_on_close (rt := sample_runtime) c /\
  sent (trace_of (send_request (rt := sample_runtime) request (Callable 1)
                    (Some (Callable 2)) c'))
    = [json_dumps (Runtime := sample_runtime)
         (Request_to_payload (Runtime := sample_runtime) request 1)] /\
  calls (trace_of (send_request (rt := sample_runtime) request (Callable 1)
                     (Some (Callable 2)) c')) = [].
Proof.
  intros c c' request. split; [reflexivity|]. split; [reflexivity|].
  split; [|split; reflexivity].
  unfold detaches_on_close. fold c'. discriminate.
Qed.

(** C8, amended. When the transport signals close while [exiting] is false
    (and the error display handler returns), [on_transport_closed] sets the
    transport reference to None, it stays None whatever is called later, and
    a [send_request] made then takes the no-transport path: it logs, sends
    nothing and calls the error handler with None. When [exiting] is true the
    close changes no field: the transport reference stays as it was. *)
Theorem on_transport_closed_detaches_unless_exiting `{Runtime} :
  (forall (c : Client) (later : list api_call) (request : Request)
          (handler : callable) (error_handler : option callable),
     exiting c = false ->
     display_outcome (_error_display_handler c) closing_message = Ret tt ->
     let c' := client_of (on_transport_closed c) in
     let c'' := run later c' in
     transport c' = None /\
     transport c'' = None /\
     trace_of (send_request request handler error_handler c'')
       = EvDebug [VStr "unable to send"; VStr (request_method request)] ::
           match error_handler with Some f => [EvCall f [VNone]] | None => [] end) /\
  (forall c : Client,
     exiting c = true -> client_of (on_transport_closed c) = c).
Proof.
  split.
  - intros c later request handler error_handler Hex Hd c' c''.
    assert (Hc' : transport c' = None).
    { subst c'. rewrite (on_transport_closed_not_exiting c Hex Hd). reflexivity. }
    assert (Hc'' : transport c'' = None).
    { subst c''. apply detached_stays_run. exact Hc'. }
    split; [exact Hc'|]. split; [exact Hc''|].
    rewrite (send_request_detached _ _ _ _ Hc''). reflexivity.
  - intros c Hex. rewrite (on_transport_closed_exiting c Hex). reflexivity.
Qed.

Lemma on_transport_closed_detaches_unless_exiting_witness :
  let request := {| request_method := "shutdown"; request_params := VNone |} in
  let c' := client_of (on_transport_closed (rt := sample_runtime) sample_client) in
  let c'' := run (rt := sample_runtime)
               [Call_send_notification Notification_exit] c' in
  exiting sample_client = false /\
  transport sample_client = Some StdioTransport /\
  transport c' = None /\
  transport c'' = None /\
  trace_of (send_request (rt := sample_runtime) request (Callable 1)
              (Some (Callable 2)) c'')
    = [EvDebug [VStr "unable to send"; VStr "shutdown"]; EvCall (Callable 2) [VNone]].
Proof.
  intros request c' c''.
  destruct (on_transport_closed_detaches_unless_exiting (H := sample_runtime))
    as (Hdetach & _).
  destruct (Hdetach sample_client [Call_send_notification Notification_exit]
              request (Callable 1) (Some (Callable 2)) eq_refl eq_refl)
    as (H1 & H2 & H3).
  split; [reflexivity|]. split; [reflexivity|].
  split; [exact H1|]. split; [exact H2|]. exact H3.
Defined.

(** ** Responses *)

Section Responses.
Context {rt : Runtime}.

Lemma popped_absent n c : _response_handlers c !! n = None -> popped n c = c.
Proof.
  intros H. unfold popped. rewrite delete_id by exact H. destruct c; reflexivity.
Qed.

(** [response_handler] on a dict whose id [int] accepts, case by case. *)
Lemma response_handler_eq d id n c :
  assoc "id" d = Some id ->
  py_int id = Ret n ->
  response_handler (VDict d) c =
    match assoc "result" d, assoc "error" d with
    | Some result, None =>
        match _response_handlers c !! n with
        | Some (h, _) =>
            (run_callback h [result], popped n c,
             result_log c d ++ [EvCall h [result]])
        | None =>
            (Ret tt,
             set_sync_request_results
               (<[n := result]> (_sync_request_results c)) (popped n c),
             result_log c d ++ [EvNotify])
        end
    | None, Some error =>
        match _response_handlers c !! n ≫= snd with
        | Some h =>
            (run_callback h [error], popped n c,
             result_log c d ++ error_log c error ++ [EvCall h [error]])
        | None =>
            match error with
            | VDict e =>
                let message := default VNone (assoc "message" e) in
                (display_outcome (_error_display_handler c) message, popped n c,
                 result_log c d ++ error_log c error ++
                   display_trace (_error_display_handler c) message)
            | _ =>
                (Raise AttributeError, popped n c,
                 result_log c d ++ error_log c error)
            end
        end
    | _, _ =>
        (Ret tt, popped n c,
         result_log c d ++ [EvDebug [VStr "invalid response payload"; VDict d]])
    end.
Proof.
  intros Hid Hint.
  unfold response_handler, bind, self, update, lift, when, debug, emit, ret, raise,
    result_log, error_log, popped.
  simpl. rewrite Hid. simpl. rewrite Hint. simpl.
  destruct (log_payloads (settings c)) eqn:Hlog; simpl;
    destruct (assoc "result" d) as [result|]; simpl;
    destruct (assoc "error" d) as [error|]; simpl;
    try rewrite Hlog; simpl;
    try reflexivity;
    destruct (_response_handlers c !! n) as [[h [eh|]]|]; simpl;
    rewrite ?call_eq; simpl; try reflexivity;
    destruct error; simpl; rewrite ?call_display_eq; simpl;
    try reflexivity;
    destruct (display_outcome _ _); reflexivity.
Qed.

End Responses.

(** No request was issued, so no id is pending; a response with a result is
    stored in the sync-result table all the same, and one with an error is
    shown through the error display handler. *)
Lemma unmatched_response_not_dropped :
  let c := sample_displaying_client in
  let answer := VDict [("id", VInt 7); ("result", VStr "late")] in
  let failure :=
    VDict [("id", VInt 7);
           ("error", VDict [("code", VInt 1); ("message", VStr "boom")])] in
  _response_handlers c !! 7 = None /\
  _sync_request_results c !! 7 = None /\
  _sync_request_results
    (client_of (response_handler (rt := sample_runtime) answer c)) !! 7
    = Some (VStr "late") /\
  ~ dropped (rt := sample_runtime) c answer /\
  calls (trace_of (response_handler (rt := sample_runtime) failure c))
    = [(Callable 5, [VStr "boom"])] /\
  ~ dropped (rt := sample_runtime) c failure.
Proof.
  intros c answer failure.
  split; [reflexivity|]. split; [reflexivity|]. split; [reflexivity|].
  split; [|split; [reflexivity|]].
  - intros [Hc _].
    apply (f_equal (fun x => _sync_request_results x !! 7)) in Hc.
    vm_compute in Hc. discriminate.
  - intros [_ Hcalls]. vm_compute in Hcalls. discriminate.
Qed.

(** C2, amended. A response payload whose id [int] accepts and matches no
    pending entry calls no success handler and no error handler, and leaves
    the pending table as it was; nothing is logged about the missing entry.
    It is handled as the answer to a synchronous request: if it carries a
    result only, the result is put into the sync-result table under that id
    and the condition variable is notified; if it carries an error only and
    the error is an object, the error's message ([error.get("message")]) is
    given to the error display handler, no field changes, and the call ends
    as the handler does; if it carries an error only and the error is no
    object, [error.get] raises AttributeError, nothing is displayed and no
    field changes; if it carries both or neither, it is logged as invalid
    and no field changes. *)
Theorem unmatched_response `{Runtime} (d : list (string * value)) (id : value)
    (n : Z) (c : Client) :
  assoc "id" d = Some id ->
  py_int id = Ret n ->
  _response_handlers c !! n = None ->
  let r := response_handler (VDict d) c in
  _response_handlers (client_of r) = _response_handlers c /\
  match assoc "result" d, assoc "error" d with
  | Some result, None =>
      r = (Ret tt,
           set_sync_request_results (<[n := result]> (_sync_request_results c)) c,
           result_log c d ++ [EvNotify])
  | None, Some (VDict e) =>
      let message := default VNone (assoc "message" e) in
      r = (display_outcome (_error_display_handler c) message, c,
           result_log c d ++ error_log c (VDict e) ++
             display_trace (_error_display_handler c) message)
  | None, Some error =>
      r = (Raise AttributeError, c, result_log c d ++ error_log c error)
  | _, _ =>
      r = (Ret tt, c,
           result_log c d ++ [EvDebug [VStr "invalid response payload"; VDict d]])
  end.
Proof.
  intros Hid Hint Hnone r. subst r.
  rewrite (response_handler_eq d id n c Hid Hint), Hnone, (popped_absent n c Hnone).
  simpl.
  destruct (assoc "result" d) as [result|], (assoc "error" d) as [error|];
    simpl; auto.
  destruct error; simpl; auto.
Qed.

Lemma unmatched_response_witness :
  let c := sample_displaying_client in
  let d := [("id", VInt 7); ("result", VStr "late")] in
  let f := [("id", VInt 7); ("error", VStr "boom")] in
  response_handler (rt := sample_runtime) (VDict d) c
    = (Ret tt,
       set_sync_request_results (<[7 := VStr "late"]> (_sync_request_results c)) c,
       [EvNotify]) /\
  response_handler (rt := sample_runtime) (VDict f) c = (Raise AttributeError, c, []).
Proof.
  intros c d f. split.
  - exact (proj2 (unmatched_response (H := sample_runtime) d (VInt 7) 7 c
                    eq_refl eq_refl eq_refl)).
  - exact (proj2 (unmatched_response (H := sample_runtime) f (VInt 7) 7 c
                    eq_refl eq_refl eq_refl)).
Defined.

(** One request is pending, under id 1: a response for it with neither
    result nor error removes the entry, and the answer that comes after it
    no longer reaches the handler. *)
Lemma invalid_response_not_dropped :
  let request := {| request_method := "initialize"; request_params := VDict [] |} in
  let c := client_of (send_request (rt := sample_runtime) request (Callable 1) None
                        sample_client) in
  let invalid := VDict [("id", VInt 1)] in
  let c' := client_of (response_handler (rt := sample_runtime) invalid c) in
  let answer := VDict [("id", VInt 1); ("result", VStr "ok")] in
  _response_handlers c !! 1 = Some (Callable 1, None) /\
  _response_handlers c' !! 1 = None /\
  ~ dropped (rt := sample_runtime) c invalid /\
  calls (trace_of (response_handler (rt := sample_runtime) answer c)) 
    = [(Callable 1, [VStr "ok"])] /\
  calls (trace_of (response_handler (rt := sample_runtime) answer c')) = [].
Proof.
  intros request c invalid c' answer.
  split; [reflexivity|]. split; [reflexivity|].
  split; [|split; reflexivity].
  intros [Hc _]. fold c' in Hc.
  apply (f_equal (fun x => _response_handlers x !! 1)) in Hc.
  vm_compute in Hc. discriminate.
Qed.

(** C4, amended. A response payload that carries both of result/error or
    neither, under an id that [int] accepts, is logged as invalid and no
    handler is called; every field of the client is left as it was except
    the pending-handler table, from which the entry registered under that
    response's id has been removed (it is popped before the payload is
    looked at). *)
Theorem invalid_response `{Runtime} (d : list (string * value)) (id : value)
    (n : Z) (c : Client) :
  assoc "id" d = Some id ->
  py_int id = Ret n ->
  (is_Some (assoc "result" d) <-> is_Some (assoc "error" d)) ->
  response_handler (VDict d) c =
    (Ret tt,
     set_response_handlers (delete n (_response_handlers c)) c,
     result_log c d ++ [EvDebug [VStr "invalid response payload"; VDict d]]) /\
  calls (trace_of (response_handler (VDict d) c)) = [].
Proof.
  intros Hid Hint Hboth.
  rewrite (response_handler_eq d id n c Hid Hint). unfold popped.
  destruct (assoc "result" d) as [result|] eqn:Hr,
           (assoc "error" d) as [error|] eqn:He.
  - split; [reflexivity|]. unfold trace_of, result_log. simpl.
    destruct (log_payloads (settings c)); reflexivity.
  - exfalso. destruct Hboth as [Hboth _].
    destruct (Hboth (ex_intro _ result eq_refl)) as [x Hx]. discriminate.
  - exfalso. destruct Hboth as [_ Hboth].
    destruct (Hboth (ex_intro _ error eq_refl)) as [x Hx]. discriminate.
  - split; [reflexivity|]. unfold trace_of, result_log. simpl.
    destruct (log_payloads (settings c)); reflexivity.
Qed.

Lemma invalid_response_witness :
  let request := {| request_method := "initialize"; request_params := VDict [] |} in
  let c := client_of (send_request (rt := sample_runtime) request (Callable 1) None
                        sample_client) in
  let d := [("id", VInt 1); ("result", VStr "ok"); ("error", VDict [])] in
  response_handler (rt := sample_runtime) (VDict d) c
    = (Ret tt, set_response_handlers (delete 1 (_response_handlers c)) c,
       [EvDebug [VStr "invalid response payload"; VDict d]]).
Proof.
  intros request c d.
  refine (proj1 (invalid_response (H := sample_runtime) d (VInt 1) 1 c
                   eq_refl eq_refl _)).
  split; intros _; eexists; reflexivity.
Defined.

(** ** Requests and notifications from the server *)

Section Dispatch.
Context {rt : Runtime}.

(** [handle] on a dict whose method is a str, case by case. *)
Lemma handle_eq typestr d method handlers args c :
  assoc "method" d = Some (VStr method) ->
  let params := default VNone (assoc "params" d) in
  handle typestr (VDict d) handlers args c =
    match handlers !! method with
    | Some h =>
        match run_callback h (params :: args) with
        | Ret _ => (Ret tt, c, arrival_log c method params ++ [EvCall h (params :: args)])
        | Raise e =>
            if is_Exception e
            then (Ret tt, c,
                  arrival_log c method params ++
                    [EvCall h (params :: args);
                     EvExceptionLog
                       ("Error handling " +:+ typestr +:+ " " +:+ method) e])
            else (Raise e, c, arrival_log c method params ++ [EvCall h (params :: args)])
        end
    | None =>
        (Ret tt, c,
         arrival_log c method params ++ [EvDebug [VStr ("Unhandled " +:+ typestr); VStr method]])
    end.
Proof.
  intros Hm params. subst params.
  unfold handle, bind, self, lift, when, debug, exception_log, emit, ret, raise,
    try_except, arrival_log.
  simpl. rewrite Hm. simpl.
  destruct (assoc "params" d) as [p|]; simpl;
    destruct (String.eqb method "window/logMessage"); simpl;
    destruct (handlers !! method) as [h|]; simpl;
    destruct (log_payloads (settings c)); simpl;
    try destruct (py_truthy p); simpl;
    rewrite ?call_eq;
    try destruct (run_callback h _) as [[]|e]; simpl;
    try destruct (is_Exception e); reflexivity.
Qed.

End Dispatch.

(** Two requests with the same method and different ids: the handler raises
    on both, and the two failures are logged with the same line, which has
    the kind of message and the method in it and not the id. A handler that
    exits the interpreter is not caught: [SystemExit] is no [Exception]. *)
Lemma handler_failure_logged_without_id :
  let c := sample_serving_client in
  let payload id := VDict [("id", VInt id); ("method", VStr "workspace/configuration")] in
  let failure id :=
    trace_of (handle (rt := sample_runtime) "request" (payload id)
                (_request_handlers c) [VInt id] c) in
  calls (failure 41) = [(Callable 13, [VNone; VInt 41])] /\
  calls (failure 42) = [(Callable 13, [VNone; VInt 42])] /\
  exception_logs (failure 41) = ["Error handling request workspace/configuration"] /\
  exception_logs (failure 42) = exception_logs (failure 41) /\
  ~ logged_with_method_and_id (rt := sample_runtime) "workspace/configuration"
      (VInt 42) (failure 42) /\
  result_of (handle (rt := sample_runtime) "request" (payload 42)
               {["workspace/configuration" := Callable 14]} [VInt 42] c)
    = Raise SystemExit.
Proof.
  intros c payload failure.
  split; [reflexivity|]. split; [reflexivity|]. split; [reflexivity|].
  split; [reflexivity|]. split; [|reflexivity].
  intros (line & Hin & _ & Hid).
  destruct Hin as [<-|[]]. vm_compute in Hid. discriminate.
Qed.

(** C9, amended. For an incoming request or notification (a JSON object
    whose method is a str) dispatched through [handle]: if a handler is
    registered for the method and raises an exception of a class derived
    from [Exception], the exception is caught in [handle], logged with the
    kind of message (request or notification) and the method (the id is not
    part of the log line), [handle] returns, and no field of the client, so
    no pending state, is changed; if no handler is registered for the method,
    the message is logged as unhandled and [handle] returns, again with
    every field as it was. *)
Theorem handle_contains_handler_failure `{Runtime} (typestr : string)
    (d : list (string * value)) (method : string)
    (handlers : gmap string callable) (args : list value) (c : Client) :
  assoc "method" d = Some (VStr method) ->
  let params := default VNone (assoc "params" d) in
  (forall h e,
     handlers !! method = Some h ->
     run_callback h (params :: args) = Raise e ->
     is_Exception e = true ->
     handle typestr (VDict d) handlers args c =
       (Ret tt, c,
        arrival_log c method params ++
          [EvCall h (params :: args);
           EvExceptionLog ("Error handling " +:+ typestr +:+ " " +:+ method) e])) /\
  (handlers !! method = None ->
   handle typestr (VDict d) handlers args c =
     (Ret tt, c,
      arrival_log c method params ++
        [EvDebug [VStr ("Unhandled " +:+ typestr); VStr method]])).
Proof.
  intros Hm params. subst params. split.
  - intros h e Hh Hraise Hexc.
    rewrite (handle_eq typestr d method handlers args c Hm), Hh, Hraise, Hexc.
    reflexivity.
  - intros Hnone.
    rewrite (handle_eq typestr d method handlers args c Hm), Hnone. reflexivity.
Qed.

Lemma handle_contains_handler_failure_witness :
  let c := sample_serving_client in
  let d := [("id", VInt 41); ("method", VStr "workspace/configuration")] in
  let n := [("method", VStr "textDocument/publishDiagnostics"); ("params", VList [])] in
  handle (rt := sample_runtime) "request" (VDict d) (_request_handlers c) [VInt 41] c
    = (Ret tt, c,
       [EvDebug [VStr "<--  workspace/configuration"];
        EvCall (Callable 13) [VNone; VInt 41];
        EvExceptionLog "Error handling request workspace/configuration"
          (OtherException 0)]) /\
  handle (rt := sample_runtime) "notification" (VDict n) (_notification_handlers c) [] c
    = (Ret tt, c,
       [EvDebug [VStr "<--  textDocument/publishDiagnostics"];
        EvDebug [VStr "Unhandled notification";
                 VStr "textDocument/publishDiagnostics"]]).
Proof.
  intros c d n. split.
  - exact (proj1 (handle_contains_handler_failure (H := sample_runtime) "request" d
                    "workspace/configuration" (_request_handlers c) [VInt 41] c eq_refl)
             (Callable 13) (OtherException 0) eq_refl eq_refl eq_refl).
  - exact (proj2 (handle_contains_handler_failure (H := sample_runtime) "notification" n
                    "textDocument/publishDiagnostics" (_notification_handlers c) [] c
                    eq_refl) eq_refl).
Defined.

(** ** Reading a trace, piece by piece *)

Lemma calls_app tr1 tr2 : calls (tr1 ++ tr2) = calls tr1 ++ calls tr2.
Proof.
  induction tr1 as [|ev tr1 IH]; simpl; [reflexivity|].
  destruct ev; simpl; rewrite IH; reflexivity.
Qed.

Lemma sent_app tr1 tr2 : sent (tr1 ++ tr2) = sent tr1 ++ sent tr2.
Proof.
  induction tr1 as [|ev tr1 IH]; simpl; [reflexivity|].
  destruct ev; simpl; rewrite IH; reflexivity.
Qed.

Section Logs.
Context {rt : Runtime}.

Lemma calls_result_log c d : calls (result_log c d) = [].
Proof. unfold result_log. destruct (log_payloads (settings c)); reflexivity. Qed.


Lemma calls_arrival_log c method params : calls (arrival_log c method params) = [].
Proof.
  unfold arrival_log. destruct (String.eqb method _); [reflexivity|].
  simpl. destruct (_ && _); reflexivity.
Qed.

Lemma sent_result_log c d : sent (result_log c d) = [].
Proof. unfold result_log. destruct (log_payloads (settings c)); reflexivity. Qed.

Lemma sent_arrival_log c method params : sent (arrival_log c method params) = [].
Proof.
  unfold arrival_log. destruct (String.eqb method _); [reflexivity|].
  simpl. destruct (_ && _); reflexivity.
Qed.

End Logs.

(** ** Messages that decode *)

Section Decoded.
Context {rt : Runtime}.

(** [receive_payload] on a message that decodes to a dict, by the keys the
    dict has. *)
Lemma receive_payload_object message d c :
  json_loads message = Some (VDict d) ->
  receive_payload message c =
    try_except
      (match assoc "method" d, assoc "id" d with
       | Some _, Some id => handle "request" (VDict d) (_request_handlers c) [id]
       | Some _, None => handle "notification" (VDict d) (_notification_handlers c) []
       | None, Some _ => response_handler (VDict d)
       | None, None => debug [VStr "Unknown payload type: "; VDict d]
       end)
      is_Exception server_payload_log c.
Proof.
  intros Hm. unfold receive_payload. unfold bind at 1. unfold try_except at 1.
  rewrite Hm. simpl. unfold try_except, bind, self, lift. simpl.
  destruct (assoc "method" d), (assoc "id" d); simpl;
    repeat match goal with
           | |- context [handle ?a ?b ?c ?d ?e] => destruct (handle a b c d e) as [[[[]|?] ?] ?]
           | |- context [response_handler ?a ?b] => destruct (response_handler a b) as [[[[]|?] ?] ?]
           end; simpl; rewrite ?app_nil_r; try reflexivity;
    destruct (is_Exception _); reflexivity.
Qed.

Lemma receive_payload_stray message v c :
  json_loads message = Some v ->
  (forall d, v <> VDict d) ->
  receive_payload message c = (Ret tt, c, [stray_payload_log v]).
Proof.
  intros Hm Hnot. unfold receive_payload. unfold bind at 1. unfold try_except at 1.
  rewrite Hm. simpl.
  destruct v as [| b | n | f | s | l | d]; try reflexivity.
  - unfold try_except, bind, self, lift, stray_payload_log. simpl.
    destruct (contains "method" s); simpl.
    + destruct (contains "id" s); reflexivity.
    + destruct (contains "id" s); reflexivity.
  - unfold try_except, bind, self, lift, stray_payload_log. simpl.
    destruct (existsb (fun x => py_eq_str x "method") l); simpl.
    + destruct (existsb (fun x => py_eq_str x "id") l); reflexivity.
    + destruct (existsb (fun x => py_eq_str x "id") l); reflexivity.
  - exfalso. exact (Hnot d eq_refl).
Qed.

Lemma py_int_raises_exception v e : py_int v = Raise e -> is_Exception e = true.
Proof.
  destruct v as [| b | n | f | s | l | d]; simpl; try discriminate;
    try (intros [= <-]; reflexivity).
  - destruct f; try discriminate; intros [= <-]; reflexivity.
  - destruct (int_of_str s); [discriminate | intros [= <-]; reflexivity].
Qed.

(** The calls that [handle] makes. *)
Lemma handle_calls typestr d method handlers args c :
  assoc "method" d = Some (VStr method) ->
  let r := handle typestr (VDict d) handlers args c in
  client_of r = c /\
  calls (trace_of r) =
    match handlers !! method with
    | Some h => [(h, default VNone (assoc "params" d) :: args)]
    | None => []
    end.
Proof.
  intros Hm r. subst r. rewrite (handle_eq typestr d method handlers args c Hm).
  destruct (handlers !! method) as [h|]; simpl.
  - destruct (run_callback h _) as [[]|e]; [|destruct (is_Exception e)];
      unfold client_of, trace_of; simpl; rewrite calls_app, calls_arrival_log;
      split; reflexivity.
  - unfold client_of, trace_of; simpl. rewrite calls_app, calls_arrival_log.
    split; reflexivity.
Qed.

Lemma server_payload_guard (m : M unit) c :
  let r := try_except m is_Exception server_payload_log c in
  client_of r = client_of (m c) /\
  calls (trace_of r) = calls (trace_of (m c)) /\
  sent (trace_of r) = sent (trace_of (m c)) /\
  (forall e, result_of r = Raise e ->
     result_of (m c) = Raise e /\ is_Exception e = false).
Proof.
  intros r. subst r. unfold try_except, server_payload_log, exception_log, emit.
  destruct (m c) as [[[[]|e] c1] t1]; unfold client_of, trace_of, result_of; simpl.
  - split; [|split; [|split]]; try reflexivity. intros e0 [=].
  - destruct (is_Exception e) eqn:He; simpl.
    + rewrite calls_app, sent_app. simpl. rewrite !app_nil_r.
      split; [|split; [|split]]; try reflexivity. intros e0 [=].
    + split; [|split; [|split]]; try reflexivity.
      intros e0 [= <-]. split; [reflexivity | exact He].
Qed.

End Decoded.

(** ** Synchronous requests *)

Section Waiting.
Context {rt : Runtime}.

Lemma deliver_returns arrivals c : result_of (deliver arrivals c) = Ret tt.
Proof.
  revert c. induction arrivals as [|message rest IH]; intros c; simpl; [reflexivity|].
  destruct (receive_payload message c) as [[[[]|e] c1] t1]; [|reflexivity].
  specialize (IH c1). unfold result_of in *.
  destruct (deliver rest c1) as [[r c2] t2]. simpl in *. exact IH.
Qed.

Lemma send_payload_attached payload c t :
  transport c = Some t ->
  send_payload payload c = (Ret tt, c, [EvSend t (format_request payload)]).
Proof. intros Ht. unfold send_payload, bind, self. simpl. rewrite Ht. reflexivity. Qed.

(** [execute_request] with a transport: the request goes out under the new
    id, and the call then returns what the sync-result table holds under
    that id when the wait ends; when it holds nothing, the call ends as the
    wait does. *)
Lemma execute_request_attached request timeout arrivals c t :
  transport c = Some t ->
  let id := request_id c + 1 in
  let waiting := deliver arrivals (set_request_id id c) in
  let sending :=
    [EvDebug [VStr (" ==> " +:+ request_method request)];
     EvSend t (format_request (Request_to_payload request id))] in
  execute_request request timeout arrivals c =
    match _sync_request_results (client_of waiting) !! id with
    | Some result =>
        (Ret result,
         set_sync_request_results
           (delete id (_sync_request_results (client_of waiting))) (client_of waiting),
         sending ++ trace_of waiting)
    | None =>
        match wait_for_end timeout with
        | TimesOut =>
            (Ret VNone, client_of waiting,
             sending ++ trace_of waiting ++
               [EvDebug [VStr "timeout on"; VStr (request_method request)]])
        | Overflows => (Raise OverflowError, client_of waiting, sending ++ trace_of waiting)
        | Polls => (Raise NeverReturns, client_of waiting, sending ++ trace_of waiting)
        end
    end.
Proof.
  intros Ht id waiting sending. subst sending.
  unfold execute_request. unfold bind, self, update, debug, emit, try_except.
  simpl. rewrite Ht. simpl. fold id.
  rewrite (send_payload_attached _ (set_request_id id c) t Ht). simpl.
  pose proof (deliver_returns arrivals (set_request_id id c)) as Hret.
  fold waiting in Hret. fold waiting.
  unfold result_of, client_of, trace_of in *.
  destruct waiting as [[r c1] t1]. simpl in *. subst r. simpl.
  destruct (_sync_request_results c1 !! id) as [result|]; simpl.
  - rewrite app_nil_r. reflexivity.
  - destruct (wait_for_end timeout); simpl; rewrite app_nil_r; reflexivity.
Qed.

End Waiting.

(** What the deliveries do to the entry of the sync-result table under
    one id. *)
Section Results.
Context {rt : Runtime}.

Lemma same_result_refl id c : same_result id c c.
Proof. reflexivity. Qed.

Lemma same_result_trans id a b c :
  same_result id a b -> same_result id b c -> same_result id a c.
Proof. unfold same_result. congruence. Qed.

Lemma response_handler_bad_id d id e c :
  assoc "id" d = Some id ->
  py_int id = Raise e ->
  response_handler (VDict d) c = (Raise e, c, []).
Proof.
  intros Hid Hint. unfold response_handler, bind, lift. simpl.
  rewrite Hid. simpl. rewrite Hint. reflexivity.
Qed.

(** A message that is no answer to the request [id] leaves what the table
    holds under [id] as it is. *)
Lemma receive_payload_keeps_result id message c :
  answers id message = false ->
  same_result id c (client_of (receive_payload message c)).
Proof.
  unfold answers. intros Hno.
  destruct (json_loads message) as [v|] eqn:Hm.
  - assert (Hcases : (exists d, v = VDict d) \/ (forall d, v <> VDict d)).
    { destruct v; try (right; intros d0; discriminate). left. eauto. }
    destruct Hcases as [[d ->]|Hnot].
    + rewrite (receive_payload_object message d c Hm).
      match goal with
      | |- same_result _ _ (client_of (try_except ?m _ _ _)) =>
          destruct (server_payload_guard m c) as (-> & _)
      end.
      destruct (assoc "method" d) as [method|].
      * destruct (assoc "id" d);
          apply (keeps_handle (same_result id) (same_result_refl id)
                   (same_result_trans id)).
      * destruct (assoc "id" d) as [v|] eqn:Hid; [|reflexivity].
        destruct (py_int v) as [n|e] eqn:Hint.
        -- rewrite (response_handler_eq d v n c Hid Hint).
           destruct (assoc "result" d) as [result|], (assoc "error" d) as [error|];
             try reflexivity.
           ++ destruct (_response_handlers c !! n) as [[h eh]|]; [reflexivity|].
              unfold same_result, client_of. simpl.
              apply lookup_insert_ne. intros ->. rewrite Z.eqb_refl in Hno.
              discriminate.
           ++ destruct (_response_handlers c !! n ≫= snd); [reflexivity|].
              destruct error; reflexivity.
        -- rewrite (response_handler_bad_id d v e c Hid Hint). reflexivity.
    + rewrite (receive_payload_stray message v c Hm Hnot). reflexivity.
  - rewrite (receive_payload_undecodable message c Hm). reflexivity.
Qed.

Lemma deliver_keeps_result id arrivals :
  Forall (fun message => answers id message = false) arrivals ->
  forall c, same_result id c (client_of (deliver arrivals c)).
Proof.
  induction 1 as [|message rest Hmessage Hrest IH]; intros c; [reflexivity|].
  pose proof (receive_payload_keeps_result id message c Hmessage) as H1.
  simpl. unfold client_of in *.
  destruct (receive_payload message c) as [[[[]|e] c1] t1]; simpl in *; [|exact H1].
  specialize (IH c1). destruct (deliver rest c1) as [[r c2] t2]; simpl in *.
  eapply same_result_trans; eassumption.
Qed.

End Results.

(** A response under id 1 arrives before any request is made, and is stored;
    the first [execute_request] then gets id 1 and returns that result at
    once, though no response to it has arrived. And a request made with an
    infinite timeout raises OverflowError when the result is not there. *)
Lemma execute_request_stale_result_or_overflow :
  let request := {| request_method := "textDocument/hover"; request_params := VDict [] |} in
  let c := client_of (receive_payload (rt := sample_runtime) (sample_print sample_pong)
                        sample_client) in
  request_id c = 0 /\
  _sync_request_results c !! 1 = Some (VStr "pong") /\
  result_of (execute_request (rt := sample_runtime) request
               DEFAULT_SYNC_REQUEST_TIMEOUT [] c) = Ret (VStr "pong") /\
  result_of (execute_request (rt := sample_runtime) request
               DEFAULT_SYNC_REQUEST_TIMEOUT [] c) <> Ret VNone /\
  result_of (execute_request (rt := sample_runtime) request
               (S754_infinity false) [] sample_client) = Raise OverflowError.
Proof.
  intros request c. split; [reflexivity|]. split; [reflexivity|].
  split; [reflexivity|]. split; [|reflexivity].
  vm_compute. discriminate.
Qed.

(** C6, amended. An [execute_request] call made with a timeout that the
    wait accepts (a number, and one that is not above [TIMEOUT_MAX]: then
    [wait_for] returns when the time is up) returns None and raises nothing
    when the response does not come: when no result is stored under the id
    of the request at the time of the call, and no message that arrives
    while the call waits is a response with a result only under that id.
    The timeout is an argument, 1.0 by default. *)
Theorem execute_request_timeout `{Runtime} (request : Request)
    (timeout : spec_float) (arrivals : list string) (c : Client) :
  wait_for_end timeout = TimesOut ->
  _sync_request_results c !! (request_id c + 1) = None ->
  Forall (fun message => answers (request_id c + 1) message = false) arrivals ->
  result_of (execute_request request timeout arrivals c) = Ret VNone.
Proof.
  intros Hwait Hfree Hlate. destruct (transport c) as [t|] eqn:Ht.
  - rewrite (execute_request_attached request timeout arrivals c t Ht).
    pose proof (deliver_keeps_result (request_id c + 1) arrivals Hlate
                  (set_request_id (request_id c + 1) c)) as Hsame.
    unfold same_result in Hsame. simpl in Hsame. simpl.
    rewrite Hsame, Hfree, Hwait. reflexivity.
  - rewrite (execute_request_detached request timeout arrivals c Ht). reflexivity.
Qed.

Lemma execute_request_timeout_witness :
  let request := {| request_method := "textDocument/hover"; request_params := VDict [] |} in
  wait_for_end (rt := sample_runtime) DEFAULT_SYNC_REQUEST_TIMEOUT = TimesOut /\
  result_of (execute_request (rt := sample_runtime) request
               DEFAULT_SYNC_REQUEST_TIMEOUT ["{}"; "null"] sample_client)
    = Ret VNone.
Proof.
  intros request. split; [reflexivity|].
  apply (execute_request_timeout (H := sample_runtime) request
           DEFAULT_SYNC_REQUEST_TIMEOUT ["{}"; "null"] sample_client).
  - reflexivity.
  - reflexivity.
  - repeat constructor.
Defined.

(** The same call in full: two messages arrive during the wait, neither is
    the response, and the call gives up. *)
Example execute_request_gives_up :
  let request := {| request_method := "textDocument/hover"; request_params := VDict [] |} in
  execute_request (rt := sample_runtime) request DEFAULT_SYNC_REQUEST_TIMEOUT
    ["{}"; "null"] sample_client
  = (Ret VNone, set_request_id 1 sample_client,
     [EvDebug [VStr " ==> textDocument/hover"];
      EvSend StdioTransport
        (json_dumps (Runtime := sample_runtime)
           (Request_to_payload (Runtime := sample_runtime) request 1));
      EvDebug [VStr "Unknown payload type: "; VDict []];
      EvExceptionLog "Error handling server payload" TypeError;
      EvDebug [VStr "timeout on"; VStr "textDocument/hover"]]).
Proof. reflexivity. Qed.

(** The response arrives during the wait: it matches no entry of the
    pending-handler table, since [execute_request] records none, goes to the
    sync-result table, and the waiting call takes it from there. *)
Example execute_request_gets_its_response :
  let request := {| request_method := "ping"; request_params := VNone |} in
  let r := execute_request (rt := sample_runtime) request
             DEFAULT_SYNC_REQUEST_TIMEOUT [sample_print sample_pong] sample_client in
  result_of r = Ret (VStr "pong") /\
  _sync_request_results (client_of r) !! 1 = None /\
  trace_of r =
    [EvDebug [VStr " ==> ping"];
     EvSend StdioTransport
       (sample_print (VDict [("id", VInt 1); ("method", VStr "ping"); ("params", VNone)]));
     EvNotify].
Proof. repeat split; reflexivity. Qed.

(** ** Request ids *)

(** The deliveries hand nothing to the transport. *)
Section SilentRules.










End SilentRules.


Section Ids.
Context {rt : Runtime}.









(** The two steps of [send_request] are the method. *)
Lemma send_request_in_two_steps request handler error_handler :
  send_request request handler error_handler =
    (send_request_increment ;;
     send_request_after_increment request handler error_handler).
Proof. reflexivity. Qed.






End Ids.



(** Ids over a series of calls: a request, a blocking request that times
    out, the transport closing, a request that cannot be sent and uses up an
    id, and a blocking one that gives up at once. Two requests were made,
    under ids 1 and 2, and the counter has reached 3. *)
Example request_ids_of_a_session :
  let request := {| request_method := "textDocument/hover"; request_params := VDict [] |} in
  requests_made (rt := sample_runtime)
    [Call_send_request request (Callable 1) None;
     Call_execute_request request DEFAULT_SYNC_REQUEST_TIMEOUT [];
     Call_on_transport_closed;
     Call_send_request request (Callable 1) None;
     Call_execute_request request DEFAULT_SYNC_REQUEST_TIMEOUT []]
    sample_client
  = [(request, 1); (request, 2)] /\
  request_id
    (run (rt := sample_runtime)
       [Call_send_request request (Callable 1) None;
        Call_execute_request request DEFAULT_SYNC_REQUEST_TIMEOUT [];
        Call_on_transport_closed;
        Call_send_request request (Callable 1) None;
        Call_execute_request request DEFAULT_SYNC_REQUEST_TIMEOUT []]
       sample_client) = 3.
Proof. split; reflexivity. Qed.

(** * Further properties of the client *)

(** ** Responses that find their entry *)

(** X1. A response that carries a result only, under an id with a pending
    entry, calls the success handler of that entry exactly once, with the
    result, and no other callable; [response_handler] ends as that handler
    ends. The entry is removed, every other pending entry stays, and the
    sync-result table is not touched. *)
Theorem response_reaches_its_handler `{Runtime} (d : list (string * value))
    (id : value) (n : Z) (c : Client) (h : callable) (eh : option callable)
    (result : value) :
  assoc "id" d = Some id ->
  py_int id = Ret n ->
  _response_handlers c !! n = Some (h, eh) ->
  assoc "result" d = Some result ->
  assoc "error" d = None ->
  let r := response_handler (VDict d) c in
  calls (trace_of r) = [(h, [result])] /\
  result_of r = run_callback h [result] /\
  _response_handlers (client_of r) !! n = None /\
  (forall k, k <> n ->
     _response_handlers (client_of r) !! k = _response_handlers c !! k) /\
  _sync_request_results (client_of r) = _sync_request_results c.
Proof.
  intros Hid Hint Hentry Hres Herr r. subst r.
  rewrite (response_handler_eq d id n c Hid Hint), Hres, Herr, Hentry.
  unfold trace_of, result_of, client_of, popped. simpl.
  rewrite calls_app, calls_result_log. simpl.
  repeat split; auto.
  - apply lookup_delete_eq.
  - intros k Hk. apply lookup_delete_ne. congruence.
Qed.

Lemma response_reaches_its_handler_witness :
  let request := {| request_method := "initialize"; request_params := VDict [] |} in
  let c := client_of (send_request (rt := sample_runtime) request (Callable 1)
                        (Some (Callable 2)) sample_client) in
  let r := response_handler (rt := sample_runtime) sample_pong c in
  _response_handlers c !! 1 = Some (Callable 1, Some (Callable 2)) /\
  calls (trace_of r) = [(Callable 1, [VStr "pong"])] /\
  _response_handlers (client_of r) !! 1 = None.
Proof.
  intros request c r.
  destruct (response_reaches_its_handler (H := sample_runtime)
              [("id", VInt 1); ("result", VStr "pong")] (VInt 1) 1 c
              (Callable 1) (Some (Callable 2)) (VStr "pong")
              eq_refl eq_refl eq_refl eq_refl eq_refl) as (Hc & _ & Hgone & _).
  split; [reflexivity|]. split; [exact Hc | exact Hgone].
Defined.



(** X3. A request and its response, one after the other: [send_request] on
    a client with a transport, then a response with a result under the id
    that the request was given. The response calls the handler passed to
    [send_request], once, with the result, and the pending-handler table is
    again what it was before the request, when no entry was under that id. *)
Theorem request_then_response `{Runtime} (request : Request) (handler : callable)
    (error_handler : option callable) (d : list (string * value)) (id result : value)
    (c : Client) (t : Transport) :
  transport c = Some t ->
  _response_handlers c !! (request_id c + 1) = None ->
  assoc "id" d = Some id ->
  py_int id = Ret (request_id c + 1) ->
  assoc "result" d = Some result ->
  assoc "error" d = None ->
  let c1 := client_of (send_request request handler error_handler c) in
  let r := response_handler (VDict d) c1 in
  calls (trace_of r) = [(handler, [result])] /\
  _response_handlers (client_of r) = _response_handlers c /\
  request_id (client_of r) = request_id c + 1.
Proof.
  intros Ht Hfree Hid Hint Hres Herr c1 r.
  assert (Hc1 : c1 = set_response_handlers
                       (<[request_id c + 1 := (handler, error_handler)]>
                          (_response_handlers c))
                       (set_request_id (request_id c + 1) c)).
  { subst c1. rewrite (send_request_attached request handler error_handler c t Ht).
    reflexivity. }
  assert (Hr : r = (run_callback handler [result], popped (request_id c + 1) c1,
                    result_log c1 d ++ [EvCall handler [result]])).
  { subst r. rewrite (response_handler_eq d id (request_id c + 1) c1 Hid Hint).
    rewrite Hres, Herr. rewrite Hc1 at 1. simpl. rewrite lookup_insert_eq.
    reflexivity. }
  rewrite Hr. unfold trace_of, client_of, popped. simpl.
  rewrite calls_app, calls_result_log. simpl.
  split; [reflexivity|]. rewrite Hc1. simpl. split; [|reflexivity].
  rewrite delete_insert_eq. apply delete_id. exact Hfree.
Qed.

Lemma request_then_response_witness :
  let request := {| request_method := "ping"; request_params := VNone |} in
  let c1 := client_of (send_request (rt := sample_runtime) request (Callable 1) None
                         sample_client) in
  let r := response_handler (rt := sample_runtime) sample_pong c1 in
  calls (trace_of r) = [(Callable 1, [VStr "pong"])] /\
  _response_handlers (client_of r) = _response_handlers sample_client /\
  request_id (client_of r) = 1.
Proof.
  intros request c1 r.
  exact (request_then_response (H := sample_runtime) request (Callable 1) None
           [("id", VInt 1); ("result", VStr "pong")] (VInt 1) (VStr "pong")
           sample_client StdioTransport eq_refl eq_refl eq_refl eq_refl eq_refl eq_refl).
Defined.

(** X4. A message that decodes to an object with a str method is given to
    the registry that fits it: with an id, to the handler registered by
    [on_request] for the method, called once with the params and the id;
    without an id, to the handler registered by [on_notification], called
    once with the params alone. A handler of the other registry is not
    called, no callable is called when the registry has none for the method,
    and no field of the client changes. *)
Theorem receive_payload_dispatch `{Runtime} (message : string)
    (d : list (string * value)) (method : string) (c : Client) :
  json_loads message = Some (VDict d) ->
  assoc "method" d = Some (VStr method) ->
  let r := receive_payload message c in
  let params := default VNone (assoc "params" d) in
  client_of r = c /\
  calls (trace_of r) =
    match assoc "id" d with
    | Some id =>
        match _request_handlers c !! method with
        | Some h => [(h, [params; id])]
        | None => []
        end
    | None =>
        match _notification_handlers c !! method with
        | Some h => [(h, [params])]
        | None => []
        end
    end.
Proof.
  intros Hm Hmethod r params. subst r params.
  rewrite (receive_payload_object message d c Hm), Hmethod.
  destruct (assoc "id" d) as [id|].
  - destruct (server_payload_guard (handle "request" (VDict d) (_request_handlers c) [id]) c)
      as (Hc & Hcalls & _).
    destruct (handle_calls "request" d method (_request_handlers c) [id] c Hmethod)
      as (Hc' & Hcalls').
    split; [congruence|]. rewrite Hcalls, Hcalls'. reflexivity.
  - destruct (server_payload_guard
                (handle "notification" (VDict d) (_notification_handlers c) []) c)
      as (Hc & Hcalls & _).
    destruct (handle_calls "notification" d method (_notification_handlers c) [] c Hmethod)
      as (Hc' & Hcalls').
    split; [congruence|]. rewrite Hcalls, Hcalls'. reflexivity.
Qed.

Lemma receive_payload_dispatch_witness :
  let c := demo_serving_client in
  calls (trace_of (receive_payload (rt := demo_runtime) (sample_print demo_ping) c))
    = [(Callable 20, [VDict [("items", VList [])]; VInt 7])] /\
  calls (trace_of (receive_payload (rt := demo_runtime)
                     (sample_print demo_diagnostics) c))
    = [(Callable 21, [VDict [("uri", VStr "file:///a.py")]])].
Proof.
  intros c. split.
  - exact (proj2 (receive_payload_dispatch (H := demo_runtime) (sample_print demo_ping)
                    _ "workspace/configuration" c eq_refl eq_refl)).
  - exact (proj2 (receive_payload_dispatch (H := demo_runtime)
                    (sample_print demo_diagnostics)
                    _ "textDocument/publishDiagnostics" c eq_refl eq_refl)).
Defined.

(** X5. A message that decodes to anything but an object (None, a bool, a
    number, a str, a list) is survived: [receive_payload] returns, changes no
    field, calls no callable, sends nothing, and leaves exactly one log
    line. *)
Theorem receive_payload_stray_value `{Runtime} (message : string) (v : value)
    (c : Client) :
  json_loads message = Some v ->
  (forall d, v <> VDict d) ->
  let r := receive_payload message c in
  result_of r = Ret tt /\
  client_of r = c /\
  calls (trace_of r) = [] /\
  sent (trace_of r) = [] /\
  length (trace_of r) = 1%nat.
Proof.
  intros Hm Hnot r. subst r. rewrite (receive_payload_stray message v c Hm Hnot).
  unfold result_of, client_of, trace_of. cbn [fst snd length].
  assert (Hlog : calls [stray_payload_log v] = [] /\ sent [stray_payload_log v] = []).
  { unfold stray_payload_log.
    destruct v; simpl; auto;
      repeat match goal with |- context [if ?b then _ else _] => destruct b end;
      simpl; auto. }
  destruct Hlog as [Hc Hs]. rewrite Hc, Hs. auto.
Qed.

Lemma receive_payload_stray_value_witness :
  receive_payload (rt := demo_runtime) (sample_print (VStr "method")) demo_serving_client
    = (Ret tt, demo_serving_client,
       [EvExceptionLog "Error handling server payload" AttributeError]) /\
  result_of (receive_payload (rt := demo_runtime) (sample_print (VInt 3))
               demo_serving_client) = Ret tt.
Proof.
  split; [reflexivity|].
  refine (proj1 (receive_payload_stray_value (H := demo_runtime) (sample_print (VInt 3))
                   (VInt 3) demo_serving_client eq_refl _)).
  intros d. discriminate.
Defined.

(** X6. A response whose id [int] does not accept (None, a list, a str
    that is no number, ...) is survived without any effect on the tables:
    [receive_payload] logs the exception and returns, no field changes, and
    no callable is called. *)
Theorem receive_payload_bad_response_id `{Runtime} (message : string)
    (d : list (string * value)) (id : value) (e : exn) (c : Client) :
  json_loads message = Some (VDict d) ->
  assoc "method" d = None ->
  assoc "id" d = Some id ->
  py_int id = Raise e ->
  receive_payload message c =
    (Ret tt, c, [EvExceptionLog "Error handling server payload" e]).
Proof.
  intros Hm Hmethod Hid Hint.
  rewrite (receive_payload_object message d c Hm), Hmethod, Hid.
  unfold try_except, response_handler, bind, lift, server_payload_log,
    exception_log, emit.
  simpl. rewrite Hid. simpl. rewrite Hint. simpl.
  rewrite (py_int_raises_exception id e Hint). reflexivity.
Qed.

Lemma receive_payload_bad_response_id_witness :
  receive_payload (rt := demo_runtime) (sample_print demo_null_id) sample_client
    = (Ret tt, sample_client,
       [EvExceptionLog "Error handling server payload" TypeError]).
Proof.
  exact (receive_payload_bad_response_id (H := demo_runtime)
           (sample_print demo_null_id) _ VNone TypeError sample_client
           eq_refl eq_refl eq_refl eq_refl).
Defined.

(** X7. Registration overwrites: after [on_request(method, h)], whatever
    was registered before, a server request for that method calls [h], once,
    with the params and the id; the handlers of the other methods and the
    notification registry are as they were. *)
Theorem on_request_overwrites `{Runtime} (method : string) (h : callable)
    (message : string) (d : list (string * value)) (id : value) (c : Client) :
  json_loads message = Some (VDict d) ->
  assoc "method" d = Some (VStr method) ->
  assoc "id" d = Some id ->
  let c' := client_of (on_request method h c) in
  calls (trace_of (receive_payload message c'))
    = [(h, [default VNone (assoc "params" d); id])] /\
  (forall other, other <> method ->
     _request_handlers c' !! other = _request_handlers c !! other) /\
  _notification_handlers c' = _notification_handlers c.
Proof.
  intros Hm Hmethod Hid c'.
  assert (Hreg : _request_handlers c' = <[method := h]> (_request_handlers c))
    by reflexivity.
  split; [|split].
  - rewrite (receive_payload_object message d c' Hm), Hmethod, Hid.
    destruct (server_payload_guard
                (handle "request" (VDict d) (_request_handlers c') [id]) c')
      as (_ & Hcalls & _).
    destruct (handle_calls "request" d method (_request_handlers c') [id] c' Hmethod)
      as (_ & Hcalls').
    rewrite Hcalls, Hcalls', Hreg, lookup_insert_eq. reflexivity.
  - intros other Hother. rewrite Hreg. apply lookup_insert_ne. congruence.
  - reflexivity.
Qed.

Lemma on_request_overwrites_witness :
  let c' := client_of (on_request "workspace/configuration" (Callable 30)
                         demo_serving_client) in
  _request_handlers demo_serving_client !! "workspace/configuration"
    = Some (Callable 20) /\
  calls (trace_of (receive_payload (rt := demo_runtime) (sample_print demo_ping) c'))
    = [(Callable 30, [VDict [("items", VList [])]; VInt 7])].
Proof.
  intros c'. split; [reflexivity|].
  exact (proj1 (on_request_overwrites (H := demo_runtime) "workspace/configuration"
                  (Callable 30) (sample_print demo_ping) _ (VInt 7) demo_serving_client
                  eq_refl eq_refl eq_refl)).
Defined.

(** X8. [send_notification] and [send_response] change no field of the
    client: no id is consumed and no pending entry is made. With a transport
    each hands exactly one message to it; without one, [send_notification]
    logs that it is unable to send, and [send_response] does nothing at all,
    not even a log line. *)
Theorem notifications_and_responses_leave_no_state `{Runtime}
    (notification : Notification) (response : Response) (c : Client) :
  client_of (send_notification notification c) = c /\
  client_of (send_response response c) = c /\
  trace_of (send_notification notification c) =
    match transport c with
    | Some t =>
        [EvDebug [VStr (" --> " +:+ notification_method notification)];
         EvSend t (format_request (Notification_to_payload notification))]
    | None => [EvDebug [VStr "unable to send"; VStr (notification_method notification)]]
    end /\
  trace_of (send_response response c) =
    match transport c with
    | Some t => [EvSend t (format_request (Response_to_payload response))]
    | None => []
    end.
Proof.
  unfold send_notification, send_response, send_payload, bind, self, debug, emit,
    client_of, trace_of.
  simpl. destruct (transport c) as [t|] eqn:Ht; simpl; rewrite ?Ht; simpl; auto.
Qed.

(** ** Failure callbacks that raise *)

(** X9. [handle_transport_failure] detaches the transport before it calls
    anything: whatever the two callbacks do, the transport reference is None
    afterwards and no other field has changed. When the transport-failure
    handler raises, its exception leaves [handle_transport_failure] and the
    crash handler is not called. *)
Theorem handle_transport_failure_detaches_first `{Runtime} (c : Client) :
  client_of (handle_transport_failure c) = set_transport None c /\
  (forall tf e,
     _transport_fail_handler c = Some tf ->
     run_callback tf [] = Raise e ->
     result_of (handle_transport_failure c) = Raise e /\
     calls (trace_of (handle_transport_failure c)) = [(tf, [])]).
Proof.
  rewrite handle_transport_failure_eq. split; [reflexivity|].
  intros tf e Htf Hraise. rewrite Htf, Hraise. split; reflexivity.
Qed.

Lemma handle_transport_failure_detaches_first_witness :
  let r := handle_transport_failure (rt := demo_runtime) demo_failing_client in
  transport (client_of r) = None /\
  result_of r = Raise (OtherException 0) /\
  calls (trace_of r) = [(Callable 13, [])].
Proof.
  intros r.
  destruct (handle_transport_failure_detaches_first (H := demo_runtime)
              demo_failing_client) as (Hc & Hraise).
  split; [fold r in Hc; rewrite Hc; reflexivity|].
  exact (Hraise (Callable 13) (OtherException 0) eq_refl eq_refl).
Defined.

(** X10. When the error display handler raises on the closing message, the
    close stops there, also when [exiting] is false: the exception leaves
    [on_transport_closed], neither failure handler is called, and the
    transport reference stays attached. *)
Theorem on_transport_closed_display_failure `{Runtime} (c : Client) (f : callable)
    (e : exn) :
  _error_display_handler c = Display f ->
  run_callback f [closing_message] = Raise e ->
  on_transport_closed c = (Raise e, c, [EvCall f [closing_message]]).
Proof.
  intros Hd Hraise.
  rewrite (on_transport_closed_display_raises c e); rewrite Hd; simpl; auto.
Qed.

Lemma on_transport_closed_display_failure_witness :
  let c := set_error_display_handler_field (Display (Callable 13)) sample_watched_client in
  exiting c = false /\
  on_transport_closed (rt := demo_runtime) c
    = (Raise (OtherException 0), c, [EvCall (Callable 13) [closing_message]]) /\
  transport (client_of (on_transport_closed (rt := demo_runtime) c))
    = Some StdioTransport.
Proof.
  intros c. split; [reflexivity|].
  pose proof (on_transport_closed_display_failure (H := demo_runtime) c (Callable 13)
                (OtherException 0) eq_refl eq_refl) as Hclose.
  split; [exact Hclose|]. rewrite Hclose. reflexivity.
Defined.

(** ** What the receive path lets through *)

Section OrdinaryRules.

Lemma ordinary_ret {A} (a : A) : ordinary (ret a).
Proof. intros c e [=]. Qed.

Lemma ordinary_self : ordinary self.
Proof. intros c e [=]. Qed.

Lemma ordinary_emit (ev : event) : ordinary (emit ev).
Proof. intros c e [=]. Qed.

Lemma ordinary_update (f : Client -> Client) : ordinary (update f).
Proof. intros c e [=]. Qed.

Lemma ordinary_raise {A} (e : exn) : is_Exception e = true -> ordinary (@raise A e).
Proof. intros He c e' [= <-]. exact He. Qed.

Lemma ordinary_lift {A} (o : outcome A) :
  (forall e, o = Raise e -> is_Exception e = true) -> ordinary (lift o).
Proof. intros Ho c e. destruct o; simpl; [intros [=] | intros [= <-]; auto]. Qed.

Lemma ordinary_bind {A B} (m : M A) (k : A -> M B) :
  ordinary m -> (forall a, ordinary (k a)) -> ordinary (bind m k).
Proof.
  intros Hm Hk c e. unfold ordinary, result_of, bind in *. specialize (Hm c).
  destruct (m c) as [[[a|e1] c1] t1]; simpl in *.
  - specialize (Hk a c1).
    destruct (k a c1) as [[r c2] t2]; simpl in *. apply Hk.
  - intros [= <-]. apply Hm. reflexivity.
Qed.

Lemma ordinary_try_except {A} (m : M A) (catches : exn -> bool) (h : exn -> M A) :
  ordinary m -> (forall e, ordinary (h e)) -> ordinary (try_except m catches h).
Proof.
  intros Hm Hh c e. unfold ordinary, result_of, try_except in *. specialize (Hm c).
  destruct (m c) as [[[a|e1] c1] t1]; simpl in *; [intros [=]|].
  destruct (catches e1); simpl; [|apply Hm].
  specialize (Hh e1 c1).
  destruct (h e1 c1) as [[r c2] t2]; simpl in *. apply Hh.
Qed.

Lemma ordinary_when (b : bool) (m : M unit) : ordinary m -> ordinary (when b m).
Proof. intros Hm. destruct b; [exact Hm | apply ordinary_ret]. Qed.

End OrdinaryRules.

(** The operations on values raise built-in exceptions only. *)
Lemma py_in_raises_exception key v e : py_in key v = Raise e -> is_Exception e = true.
Proof. destruct v; simpl; intros [=]; subst; reflexivity. Qed.

Lemma py_get_raises_exception v key default e :
  py_get v key default = Raise e -> is_Exception e = true.
Proof. destruct v; simpl; intros [=]; subst; reflexivity. Qed.

Lemma py_getitem_raises_exception v key e :
  py_getitem v key = Raise e -> is_Exception e = true.
Proof.
  destruct v as [| | | | | |d]; simpl; try (intros [=]; subst; reflexivity).
  destruct (assoc key d); intros [=]; subst; reflexivity.
Qed.

Lemma py_concat_raises_exception prefix v e :
  py_concat prefix v = Raise e -> is_Exception e = true.
Proof. destruct v; simpl; intros [=]; subst; reflexivity. Qed.

Lemma handlers_get_raises_exception handlers key e :
  handlers_get handlers key = Raise e -> is_Exception e = true.
Proof. destruct key; simpl; intros [=]; subst; reflexivity. Qed.

Ltac ordinary_step :=
  lazymatch goal with
  | |- ordinary (bind _ _) => apply ordinary_bind; [| intros ?; cbv beta]
  | |- ordinary (try_except _ _ _) => apply ordinary_try_except; [| intros ?; cbv beta]
  | |- ordinary (when _ _) => apply ordinary_when
  | |- ordinary (ret _) => apply ordinary_ret
  | |- ordinary self => apply ordinary_self
  | |- ordinary (emit _) => apply ordinary_emit
  | |- ordinary (update _) => apply ordinary_update
  | |- ordinary (raise _) => apply ordinary_raise; reflexivity
  | |- ordinary (lift (py_in _ _)) =>
      apply ordinary_lift; intros ?; apply py_in_raises_exception
  | |- ordinary (lift (py_get _ _ _)) =>
      apply ordinary_lift; intros ?; apply py_get_raises_exception
  | |- ordinary (lift (py_getitem _ _)) =>
      apply ordinary_lift; intros ?; apply py_getitem_raises_exception
  | |- ordinary (lift (py_int _)) =>
      apply ordinary_lift; intros ?; apply py_int_raises_exception
  | |- ordinary (lift (py_concat _ _)) =>
      apply ordinary_lift; intros ?; apply py_concat_raises_exception
  | |- ordinary (lift (handlers_get _ _)) =>
      apply ordinary_lift; intros ?; apply handlers_get_raises_exception
  | |- ordinary (match ?x with _ => _ end) => destruct x
  | |- ordinary (let _ := _ in _) => cbv zeta
  end.

Section OrdinaryMethods.
Context {rt : Runtime}.
(** No callable leaves the interpreter or interrupts it. *)
Hypothesis callbacks_ordinary :
  forall f args e, run_callback f args = Raise e -> is_Exception e = true.

Lemma ordinary_call f args : ordinary (call f args).
Proof.
  unfold call. apply ordinary_bind; [apply ordinary_emit|]. intros _.
  apply ordinary_lift. intros e. apply callbacks_ordinary.
Qed.

Lemma ordinary_call_display d msg : ordinary (call_display d msg).
Proof. destruct d; simpl; [apply ordinary_emit | apply ordinary_call]. Qed.

Lemma ordinary_handle typestr message handlers args :
  ordinary (handle typestr message handlers args).
Proof.
  unfold handle, debug, exception_log.
  repeat first [apply ordinary_call | ordinary_step].
Qed.

Lemma ordinary_response_handler response : ordinary (response_handler response).
Proof.
  unfold response_handler, debug.
  repeat first [apply ordinary_call | apply ordinary_call_display | ordinary_step].
Qed.

End OrdinaryMethods.

(** X11. When no callable leaves or interrupts the interpreter (whatever a
    callable raises is an [Exception]), every message that decodes is
    survived: [receive_payload] returns, whatever the message holds and
    whatever the handlers raise. *)
Theorem receive_payload_survives `{Runtime} (message : string) (v : value)
    (c : Client) :
  (forall f args e, run_callback f args = Raise e -> is_Exception e = true) ->
  json_loads message = Some v ->
  result_of (receive_payload message c) = Ret tt.
Proof.
  intros Hcb Hm.
  destruct (result_of (receive_payload message c)) as [[]|e] eqn:Hr; [reflexivity|].
  exfalso.
  assert (Hdict : exists d, v = VDict d).
  { destruct v as [| b | n | f | s | l | d]; [| | | | | | exists d; reflexivity];
      exfalso;
      (rewrite (receive_payload_stray message _ c Hm) in Hr;
       [discriminate Hr | intros d; discriminate]). }
  destruct Hdict as [d ->].
  rewrite (receive_payload_object message d c Hm) in Hr.
  match type of Hr with
  | result_of (try_except ?m _ _ _) = _ =>
      destruct (server_payload_guard m c) as (_ & _ & _ & Hraise);
      destruct (Hraise e Hr) as [Hbody Hnot];
      assert (Hord : ordinary m)
  end.
  { destruct (assoc "method" d), (assoc "id" d).
    - apply ordinary_handle. exact Hcb.
    - apply ordinary_handle. exact Hcb.
    - apply ordinary_response_handler. exact Hcb.
    - apply ordinary_emit. }
  rewrite (Hord c e Hbody) in Hnot. discriminate.
Qed.

Lemma receive_payload_survives_witness :
  result_of (receive_payload (rt := demo_runtime) (sample_print demo_ping)
               (client_of (on_request "workspace/configuration" (Callable 13)
                             sample_client)))
    = Ret tt.
Proof.
  apply (receive_payload_survives (H := demo_runtime) (sample_print demo_ping) demo_ping).
  - intros [n] args e. unfold run_callback; simpl. unfold demo_run_callback.
    do 14 (destruct n as [|n]; [intros [=]; subst; reflexivity|]).
    intros [=].
  - reflexivity.
Defined.

(** ** The two tables over the life of a client *)

Section KeepsTables.
Context {rt : Runtime}.
Context (R : Client -> Client -> Prop).
Hypothesis R_refl : forall c, R c c.
Hypothesis R_trans : forall a b c, R a b -> R b c -> R a c.
(** The assignments to the tables, as the methods make them. *)
Hypothesis R_pop_pending :
  forall c n, R c (set_response_handlers (delete n (_response_handlers c)) c).
Hypothesis R_store_result :
  forall c n x,
    R c (set_sync_request_results (<[n := x]> (_sync_request_results c)) c).

Lemma keeps_response_handler_tables response : keeps R (response_handler response).
Proof.
  unfold response_handler.
  repeat first [apply keeps_debug; assumption | apply keeps_call; assumption
               | apply keeps_call_display; assumption | keeps_step].
Qed.

Lemma keeps_receive_payload_tables message : keeps R (receive_payload message).
Proof.
  unfold receive_payload.
  repeat first [apply keeps_debug; assumption | apply keeps_exception_log; assumption
               | apply keeps_handle; assumption
               | apply keeps_response_handler_tables | keeps_step].
Qed.

Lemma keeps_deliver_tables arrivals : keeps R (deliver arrivals).
Proof.
  induction arrivals as [|message rest IH]; simpl.
  - keeps_step.
  - intros c. pose proof (keeps_receive_payload_tables message c) as H1.
    unfold client_of in *.
    destruct (receive_payload message c) as [[[a|e] c1] t1]; simpl in *; [|exact H1].
    specialize (IH c1). destruct (deliver rest c1) as [[r c2] t2]; simpl in *.
    eapply R_trans; eassumption.
Qed.

Hypothesis R_request_id : forall c, R c (set_request_id (request_id c + 1) c).
Hypothesis R_register :
  forall c x,
    R c (set_response_handlers (<[request_id c := x]> (_response_handlers c)) c).
Hypothesis R_request_handlers : forall c x, R c (set_request_handlers x c).
Hypothesis R_notification_handlers : forall c x, R c (set_notification_handlers x c).
Hypothesis R_exiting : forall c, R c (set_exiting true c).
Hypothesis R_transport : forall c, R c (set_transport None c).
Hypothesis R_crash_handler : forall c x, R c (set_crash_handler_field x c).
Hypothesis R_transport_fail_handler :
  forall c x, R c (set_transport_fail_handler_field x c).
Hypothesis R_error_display_handler :
  forall c x, R c (set_error_display_handler_field x c).
(** [execute_request] takes its result out of the sync-result table: what it
    keeps is shown apart. *)
Hypothesis R_execute_request :
  forall request timeout arrivals, keeps R (execute_request request timeout arrivals).

Lemma keeps_send_request_tables request handler error_handler :
  keeps R (send_request request handler error_handler).
Proof.
  unfold send_request.
  repeat first [apply keeps_debug; assumption | apply keeps_send_payload; assumption
               | apply keeps_call_if_set; assumption | keeps_step].
Qed.

Lemma keeps_perform_tables a : keeps R (perform a).
Proof.
  destruct a; simpl; try apply keeps_returning_None; try assumption.
  - apply keeps_send_request_tables.
  - apply R_execute_request.
  - apply keeps_send_notification; assumption.
  - apply keeps_send_response; assumption.
  - unfold exit. repeat first [apply keeps_send_notification; assumption | keeps_step].
  - unfold set_crash_handler. keeps_step.
  - unfold set_error_display_handler. keeps_step.
  - unfold set_transport_failure_handler. keeps_step.
  - apply keeps_receive_payload_tables.
  - unfold on_transport_closed, handle_transport_failure.
    repeat first [apply keeps_debug; assumption | apply keeps_call_display; assumption
                 | apply keeps_call_if_set; assumption | keeps_step].
  - unfold on_request. keeps_step.
  - unfold on_notification. keeps_step.
Qed.

Lemma keeps_run_tables history : forall c, R c (run history c).
Proof.
  induction history as [|a rest IH]; intros c; simpl.
  - apply R_refl.
  - eapply R_trans; [apply keeps_perform_tables | apply IH].
Qed.

End KeepsTables.

Section Tables.
Context {rt : Runtime}.

Lemma pending_bounded_stays_execute_request request timeout arrivals :
  keeps pending_bounded_stays (execute_request request timeout arrivals).
Proof.
  unfold execute_request.
  assert (Hrefl : forall c, pending_bounded_stays c c) by (intros c Hc; exact Hc).
  assert (Htrans : forall a b c, pending_bounded_stays a b ->
            pending_bounded_stays b c -> pending_bounded_stays a c)
    by (unfold pending_bounded_stays; auto).
  assert (Hpop : forall c n, pending_bounded_stays c
            (set_response_handlers (delete n (_response_handlers c)) c)).
  { intros c n Hc k [x Hk]. simpl in Hk.
    apply lookup_delete_Some in Hk as [_ Hk]. apply Hc. eauto. }
  assert (Hstore : forall c n x, pending_bounded_stays c
            (set_sync_request_results (<[n := x]> (_sync_request_results c)) c))
    by (intros c n x Hc; exact Hc).
  repeat first [apply keeps_debug; assumption | apply keeps_send_payload; assumption
               | apply keeps_deliver_tables; assumption | keeps_step].
  intros Hc k Hk. simpl in *. specialize (Hc k Hk). lia.
Qed.

Lemma pending_bounded_run history c :
  pending_bounded c -> pending_bounded (run history c).
Proof.
  apply (keeps_run_tables pending_bounded_stays);
    try (unfold pending_bounded_stays, pending_bounded; intros; simpl in *; auto; fail).
  - intros c0 n Hc k [x Hk]. simpl in Hk.
    apply lookup_delete_Some in Hk as [_ Hk]. apply Hc. eauto.
  - intros c0 Hc k Hk. simpl in *. specialize (Hc k Hk). lia.
  - intros c0 x Hc k [y Hk]. simpl in *.
    destruct (decide (request_id c0 = k)) as [<-|Hne]; [lia|].
    rewrite lookup_insert_ne in Hk by exact Hne. apply Hc. eauto.
  - apply pending_bounded_stays_execute_request.
Qed.

Lemma results_stay_refl c : results_stay c c.
Proof. split; [lia | auto]. Qed.

Lemma results_stay_trans a b c : results_stay a b -> results_stay b c -> results_stay a c.
Proof.
  intros [Hab Kab] [Hbc Kbc]. split; [lia|].
  intros k Hk Hs. apply Kbc; [lia|]. apply Kab; assumption.
Qed.

Lemma results_stay_store c n x :
  results_stay c (set_sync_request_results (<[n := x]> (_sync_request_results c)) c).
Proof.
  split; [simpl; lia|]. intros k _ Hs. simpl.
  destruct (decide (n = k)) as [<-|Hne].
  - rewrite lookup_insert_eq. eauto.
  - rewrite lookup_insert_ne by exact Hne. exact Hs.
Qed.

Lemma results_stay_same_table c c' :
  request_id c <= request_id c' ->
  _sync_request_results c' = _sync_request_results c ->
  results_stay c c'.
Proof. intros Hle Heq. split; [exact Hle|]. intros k _ Hs. rewrite Heq. exact Hs. Qed.

Lemma results_stay_execute_request request timeout arrivals :
  keeps results_stay (execute_request request timeout arrivals).
Proof.
  intros c. destruct (transport c) as [t|] eqn:Ht.
  - rewrite (execute_request_attached request timeout arrivals c t Ht).
    set (id := request_id c + 1).
    pose proof (keeps_deliver_tables results_stay results_stay_refl results_stay_trans
                  ltac:(intros; apply results_stay_same_table; simpl; [lia | reflexivity])
                  results_stay_store arrivals (set_request_id id c)) as [Hle Hkeep].
    simpl in Hle, Hkeep.
    set (w := client_of (deliver arrivals (set_request_id id c))) in *.
    destruct (_sync_request_results w !! id) as [result|] eqn:Hw;
      [|destruct (wait_for_end timeout)]; unfold client_of at 1; simpl.
    + split; [simpl; subst id; lia|]. intros k Hk Hs. simpl.
      rewrite lookup_delete_ne by (subst id; lia).
      apply Hkeep; [subst id; lia | exact Hs].
    + split; [subst id; lia|]. intros k Hk Hs.
      apply Hkeep; [subst id; lia | exact Hs].
    + split; [subst id; lia|]. intros k Hk Hs.
      apply Hkeep; [subst id; lia | exact Hs].
    + split; [subst id; lia|]. intros k Hk Hs.
      apply Hkeep; [subst id; lia | exact Hs].
  - rewrite (execute_request_detached request timeout arrivals c Ht).
    apply results_stay_refl.
Qed.

Lemma results_stay_run history c : results_stay c (run history c).
Proof.
  apply (keeps_run_tables results_stay);
    first [ exact results_stay_refl
          | exact results_stay_trans
          | exact results_stay_store
          | exact results_stay_execute_request
          | intros; apply results_stay_same_table; simpl; [lia | reflexivity] ].
Qed.


End Tables.

(** X12. From a client whose pending entries are all under ids that the
    counter has reached (a new client has none), every series of calls made
    one after the other leaves it so: the id that the next request will get
    has no pending entry, so a [send_request] that starts when the calls
    before it have ended does not overwrite the handlers of a request that is
    still pending. *)
Theorem pending_ids_are_fresh `{Runtime} (history : list api_call) (c : Client) (k : Z) :
  pending_bounded c ->
  request_id (run history c) < k ->
  _response_handlers (run history c) !! k = None.
Proof.
  intros Hc Hk. pose proof (pending_bounded_run history c Hc k) as Hb.
  destruct (_response_handlers (run history c) !! k) eqn:E; [|reflexivity].
  exfalso. assert (k <= request_id (run history c)) by (apply Hb; eauto). lia.
Qed.

Lemma pending_ids_are_fresh_witness :
  let request := {| request_method := "ping"; request_params := VNone |} in
  let c := run (rt := demo_runtime)
             [Call_send_request request (Callable 1) None;
              Call_send_request request (Callable 2) None;
              Call_receive_payload (sample_print sample_pong)]
             sample_client in
  request_id c = 2 /\
  _response_handlers c !! 2 = Some (Callable 2, None) /\
  _response_handlers c !! 3 = None.
Proof.
  intros request c. split; [reflexivity|]. split; [reflexivity|].
  apply (pending_ids_are_fresh (H := demo_runtime)).
  - intros k [x Hk]. discriminate Hk.
  - reflexivity.
Defined.

(** X13. A result stored in the sync-result table under an id that has
    been given out is never taken out again: [execute_request] removes only
    the result of its own, new id, and no other method removes any. So the
    result of a response that arrives after its [execute_request] has given
    up stays in the table for the life of the client. *)
Theorem late_results_stay `{Runtime} (history : list api_call) (c : Client) (k : Z) :
  k <= request_id c ->
  is_Some (_sync_request_results c !! k) ->
  is_Some (_sync_request_results (run history c) !! k).
Proof.
  intros Hk Hs. destruct (results_stay_run history c) as [_ Hkeep].
  apply Hkeep; assumption.
Qed.

Lemma late_results_stay_witness :
  let request := {| request_method := "ping"; request_params := VNone |} in
  let c := run (rt := demo_runtime)
             [Call_execute_request request DEFAULT_SYNC_REQUEST_TIMEOUT [];
              Call_receive_payload (sample_print sample_pong)]
             sample_client in
  let c' := run (rt := demo_runtime)
              [Call_execute_request request DEFAULT_SYNC_REQUEST_TIMEOUT [];
               Call_send_request request (Callable 1) None;
               Call_on_transport_closed;
               Call_execute_request request DEFAULT_SYNC_REQUEST_TIMEOUT []]
              c in
  _sync_request_results c !! 1 = Some (VStr "pong") /\
  is_Some (_sync_request_results c' !! 1).
Proof.
  intros request c c'. split; [reflexivity|].
  apply (late_results_stay (H := demo_runtime)); [vm_compute; discriminate|].
  eexists. reflexivity.
Defined.



(** * Properties of document synchronisation *)

Import Documents.

(** ** The table of document states *)

Section DocumentStates.

Lemma has_document_state_eq w p s :
  has_document_state w p s =
    (Returns (bool_decide (is_Some (tracked_version s w p))), s, []).
Proof.
  unfold has_document_state, dbind, globals, tracked_version. simpl.
  destruct (document_states s !! window_id w) as [docs|]; simpl.
  - destruct (docs !! p); reflexivity.
  - reflexivity.
Qed.

Lemma tracked_version_insert s w docs w' p' :
  tracked_version (set_document_states (<[window_id w := docs]> (document_states s)) s)
    w' p' =
  if decide (window_id w = window_id w')
  then version <$> docs !! p'
  else tracked_version s w' p'.
Proof.
  unfold tracked_version. simpl. rewrite lookup_insert.
  destruct (decide (window_id w = window_id w')); reflexivity.
Qed.

Lemma tracked_version_documents_of s w p :
  tracked_version s w p = version <$> documents_of s w !! p.
Proof.
  unfold tracked_version, documents_of.
  destruct (document_states s !! window_id w); simpl; [reflexivity|].
  rewrite lookup_empty. reflexivity.
Qed.

(** [get_document_state], by whether the document is tracked. *)
Lemma get_document_state_eq w p s :
  get_document_state w p s =
    match documents_of s w !! p with
    | Some state => (Returns state, s, [])
    | None =>
        (Returns (DocumentState_init p),
         set_document_states
           (<[window_id w := <[p := DocumentState_init p]> (documents_of s w)]>
              (document_states s)) s,
         [])
    end.
Proof.
  unfold get_document_state, dbind, globals, assign, dret, documents_of. simpl.
  destruct (default ∅ (document_states s !! window_id w) !! p); reflexivity.
Qed.

(** After [get_document_state] the document is tracked, and nothing else
    has changed. *)
Lemma get_document_state_tracks w p s :
  let s' := state_of (get_document_state w p s) in
  is_Some (tracked_version s' w p) /\
  (forall w' p', (window_id w', p') <> (window_id w, p) ->
     tracked_version s' w' p' = tracked_version s w' p') /\
  pending_buffer_changes s' = pending_buffer_changes s.
Proof.
  intros s'. subst s'. rewrite get_document_state_eq.
  pose proof (tracked_version_documents_of s w p) as Ht.
  destruct (documents_of s w !! p) as [state|] eqn:Hp; unfold state_of; simpl in *.
  - split; [rewrite Ht; eauto|]. split; reflexivity.
  - split; [|split; [|reflexivity]].
    + rewrite tracked_version_insert, decide_True by reflexivity.
      rewrite lookup_insert_eq. simpl. eauto.
    + intros w' p' Hne. rewrite tracked_version_insert.
      destruct (decide (window_id w = window_id w')) as [Heq|]; [|reflexivity].
      rewrite lookup_insert_ne by congruence.
      rewrite (tracked_version_documents_of s w' p').
      unfold documents_of. rewrite Heq. reflexivity.
Qed.

End DocumentStates.

(** What [get_document_state] returns and leaves, for the proofs below. *)
Lemma get_document_state_spec (w : Window) (p : string)
    (s : Module_state) :
  let r := get_document_state w p s in
  let s' := state_of r in
  (exists state,
     outcome_of r = Returns state /\
     version state = default 0 (tracked_version s w p) /\
     (tracked_version s w p = None -> state = DocumentState_init p) /\
     tracked_version s' w p = Some (version state) /\
     get_document_state w p s' = (Returns state, s', [])) /\
  outcome_of (has_document_state w p s') = Returns true /\
  (forall w' p',
     (window_id w', p') <> (window_id w, p) ->
     tracked_version s' w' p' = tracked_version s w' p').
Proof.
  intros r s'. subst s' r. rewrite get_document_state_eq.
  pose proof (tracked_version_documents_of s w p) as Ht.
  destruct (documents_of s w !! p) as [state|] eqn:Hp; unfold state_of, outcome_of;
    simpl in *.
  - split; [|split].
    + exists state. rewrite Ht. simpl. split; [reflexivity|]. split; [reflexivity|].
      split; [discriminate|]. split; [reflexivity|].
      rewrite get_document_state_eq, Hp. reflexivity.
    + rewrite has_document_state_eq, Ht. reflexivity.
    + reflexivity.
  - assert (Ht' : forall w' p',
      tracked_version
        (set_document_states
           (<[window_id w := <[p := DocumentState_init p]> (documents_of s w)]>
              (document_states s)) s)
        w' p' =
      if decide (window_id w = window_id w')
      then version <$> (<[p := DocumentState_init p]> (documents_of s w)) !! p'
      else tracked_version s w' p') by (intros; apply tracked_version_insert).
    split; [|split].
    + exists (DocumentState_init p). rewrite Ht. simpl.
      split; [reflexivity|]. split; [reflexivity|]. split; [reflexivity|]. split.
      * rewrite Ht'. rewrite decide_True by reflexivity.
        rewrite lookup_insert_eq. reflexivity.
      * rewrite get_document_state_eq. unfold documents_of at 1. simpl.
        rewrite lookup_insert_eq. simpl. rewrite lookup_insert_eq. reflexivity.
    + rewrite has_document_state_eq, Ht'. rewrite decide_True by reflexivity.
      rewrite lookup_insert_eq. reflexivity.
    + intros w' p' Hne. rewrite Ht'.
      destruct (decide (window_id w = window_id w')) as [Heq|]; [|reflexivity].
      rewrite lookup_insert_ne by congruence.
      rewrite (tracked_version_documents_of s w' p').
      unfold documents_of. rewrite Heq. reflexivity.
Qed.

(** X15. [get_document_state] creates or finds: the state it returns has
    the path asked for, with version 0 when the document was not tracked and
    the state already in the table when it was; afterwards
    [has_document_state] is true for that window and path, the documents of
    the other windows and the other paths are as they were, and asking again
    returns the same state and changes nothing. *)
Theorem get_document_state_creates_or_finds (w : Window) (p : string)
    (s : Module_state) :
  let r := get_document_state w p s in
  let s' := state_of r in
  (exists state,
     outcome_of r = Returns state /\
     version state = default 0 (tracked_version s w p) /\
     (tracked_version s w p = None -> state = DocumentState_init p) /\
     tracked_version s' w p = Some (version state) /\
     get_document_state w p s' = (Returns state, s', [])) /\
  outcome_of (has_document_state w p s') = Returns true /\
  (forall w' p',
     (window_id w', p') <> (window_id w, p) ->
     tracked_version s' w' p' = tracked_version s w' p').
Proof. exact (get_document_state_spec w p s). Qed.

Section ClearingStates.

Lemma clear_document_state_eq w p s :
  clear_document_state w p s =
    match document_states s !! window_id w with
    | Some docs =>
        match docs !! p with
        | Some _ =>
            (Returns tt,
             set_document_states (<[window_id w := delete p docs]> (document_states s)) s,
             [])
        | None => (Raises KeyError, s, [])
        end
    | None => (Returns tt, s, [])
    end.
Proof.
  unfold clear_document_state, dbind, globals, assign, draise, dret. simpl.
  destruct (document_states s !! window_id w) as [docs|]; [|reflexivity].
  destruct (docs !! p); reflexivity.
Qed.

End ClearingStates.

(** The three cases of [clear_document_state], for the proofs below. *)
Lemma clear_document_state_spec (w : Window) (p : string)
    (s : Module_state) :
  let r := clear_document_state w p s in
  (is_Some (tracked_version s w p) ->
   outcome_of r = Returns tt /\
   tracked_version (state_of r) w p = None /\
   is_Some (document_states (state_of r) !! window_id w) /\
   (forall w' p', (window_id w', p') <> (window_id w, p) ->
      tracked_version (state_of r) w' p' = tracked_version s w' p')) /\
  (is_Some (document_states s !! window_id w) ->
   tracked_version s w p = None ->
   r = (Raises KeyError, s, [])) /\
  (document_states s !! window_id w = None -> r = (Returns tt, s, [])).
Proof.
  intros r. subst r. rewrite clear_document_state_eq.
  unfold tracked_version.
  destruct (document_states s !! window_id w) as [docs|] eqn:Hw; simpl.
  - destruct (docs !! p) as [state|] eqn:Hp; simpl.
    + split; [|split]; [| intros _ [=] | intros [=]].
      intros _. unfold outcome_of, state_of. simpl.
      split; [reflexivity|]. split; [|split].
      * rewrite lookup_insert_eq. simpl. rewrite lookup_delete_eq. reflexivity.
      * rewrite lookup_insert_eq. eauto.
      * intros w' p' Hne. rewrite lookup_insert.
        destruct (decide (window_id w = window_id w')) as [Heq|]; [|reflexivity].
        simpl. rewrite lookup_delete_ne by congruence. rewrite <- Heq, Hw. reflexivity.
    + split; [|split]; [intros [x [=]] | reflexivity | intros [=]].
  - split; [|split]; [intros [x [=]] | intros [x [=]] | reflexivity].
Qed.

(** X16. [clear_document_state] has three cases. A tracked document is no
    longer tracked afterwards, the other documents are as they were, and the
    window keeps its table, empty or not. For a window that has a table but
    not this path, the [del] raises KeyError and nothing changes. For a window
    that has no table, nothing happens at all. *)
Theorem clear_document_state_cases (w : Window) (p : string)
    (s : Module_state) :
  let r := clear_document_state w p s in
  (is_Some (tracked_version s w p) ->
   outcome_of r = Returns tt /\
   tracked_version (state_of r) w p = None /\
   is_Some (document_states (state_of r) !! window_id w) /\
   (forall w' p', (window_id w', p') <> (window_id w, p) ->
      tracked_version (state_of r) w' p' = tracked_version s w' p')) /\
  (is_Some (document_states s !! window_id w) ->
   tracked_version s w p = None ->
   r = (Raises KeyError, s, [])) /\
  (document_states s !! window_id w = None -> r = (Returns tt, s, [])).
Proof. exact (clear_document_state_spec w p s). Qed.

Lemma clear_document_state_cases_witness :
  let s := state_of (get_document_state sample_window
                       "/work/a.py" initial_state) in
  let r := clear_document_state sample_window "/work/a.py" s in
  tracked_version s sample_window "/work/a.py" = Some 0 /\
  tracked_version (state_of r) sample_window "/work/a.py" = None /\
  clear_document_state sample_window "/work/a.py" (state_of r)
    = (Raises KeyError, state_of r, []) /\
  clear_document_state sample_window "/work/a.py" initial_state
    = (Returns tt, initial_state, []).
Proof.
  intros s r.
  destruct (clear_document_state_cases sample_window
              "/work/a.py" s) as (Htracked & _ & _).
  destruct (Htracked ltac:(eexists; reflexivity)) as (_ & Hgone & _).
  destruct (clear_document_state_cases sample_window
              "/work/a.py" (state_of r)) as (_ & Hkey & _).
  destruct (clear_document_state_cases sample_window
              "/work/a.py" initial_state) as (_ & _ & Hnone).
  split; [reflexivity|]. split; [exact Hgone|]. split.
  - apply Hkey; [eexists; reflexivity | exact Hgone].
  - apply Hnone. reflexivity.
Defined.

(** ** The changes that wait to be sent *)

Section Queue.
Context {ed : Editor}.

Lemma queue_did_change_eq view region newText s :
  let buffer := buffer_id view in
  let waiting := pending_of s buffer in
  queue_did_change view region newText s =
    if Z.ltb (Z.of_nat (length waiting)) (change_count view)
    then
      (Returns tt,
       set_pending_buffer_changes
         (<[buffer := waiting ++ [queued_change view region newText]]>
            (pending_buffer_changes s)) s,
       [Debug [DebugChange (queued_change view region newText)];
        PurgeLater buffer (change_count view) 500])
    else
      (Raises (Exception "No changes found"),
       set_pending_buffer_changes (<[buffer := waiting]> (pending_buffer_changes s)) s,
       []).
Proof.
  intros buffer waiting. subst buffer waiting.
  unfold queue_did_change, get_change_list, dbind, globals, assign, tell, debug,
    draise, dret, pending_of, queued_change.
  simpl.
  destruct (pending_buffer_changes s !! buffer_id view) as [l|] eqn:Hl; simpl.
  - destruct (Z.ltb _ _); simpl; [reflexivity|].
    rewrite insert_id by exact Hl. destruct s; reflexivity.
  - destruct (Z.ltb _ _); simpl; [|reflexivity].
    rewrite insert_insert_eq. reflexivity.
Qed.

End Queue.

Lemma pending_of_insert s buffer l b :
  pending_of (set_pending_buffer_changes (<[buffer := l]> (pending_buffer_changes s)) s) b
    = if decide (buffer = b) then l else pending_of s b.
Proof.
  unfold pending_of. simpl. rewrite lookup_insert.
  destruct (decide (buffer = b)); reflexivity.
Qed.

(** X17. [queue_did_change] queues a change only when the change count of
    the view is above the number of changes that already wait for the buffer:
    then the list grows by exactly that change, at its end, and one purge is
    scheduled for that buffer and change count, 500 ms later. Otherwise it
    raises 'No changes found', the waiting changes stay as they were, and no
    purge is scheduled. The lists of the other buffers are not touched. *)
Theorem queue_did_change_guard `{Editor} (view : View) (region : Region)
    (newText : option string) (s : Module_state) :
  let buffer := buffer_id view in
  let r := queue_did_change view region newText s in
  (Z.of_nat (length (pending_of s buffer)) < change_count view ->
   outcome_of r = Returns tt /\
   pending_of (state_of r) buffer
     = pending_of s buffer ++ [queued_change view region newText] /\
   events_of r = [Debug [DebugChange (queued_change view region newText)];
                  PurgeLater buffer (change_count view) 500]) /\
  (change_count view <= Z.of_nat (length (pending_of s buffer)) ->
   outcome_of r = Raises (Exception "No changes found") /\
   pending_of (state_of r) buffer = pending_of s buffer /\
   events_of r = []) /\
  (forall b, b <> buffer -> pending_of (state_of r) b = pending_of s b).
Proof.
  intros buffer r. subst r. rewrite queue_did_change_eq. fold buffer.
  destruct (Z.ltb_spec (Z.of_nat (length (pending_of s buffer))) (change_count view))
    as [Hlt|Hge]; unfold outcome_of, state_of, events_of; simpl.
  - split; [|split].
    + intros _. rewrite pending_of_insert, decide_True by reflexivity. auto.
    + intros Hle. lia.
    + intros b Hb. rewrite pending_of_insert, decide_False by congruence. reflexivity.
  - split; [|split].
    + intros Hlt. lia.
    + intros _. rewrite pending_of_insert, decide_True by reflexivity. auto.
    + intros b Hb. rewrite pending_of_insert, decide_False by congruence. reflexivity.
Qed.

Lemma queue_did_change_guard_witness :
  let region := {| region_a := 3; region_b := 4 |} in
  let r1 := queue_did_change (ed := sample_editor 1) view_a region (Some "x")
              initial_state in
  let r2 := queue_did_change (ed := sample_editor 1) view_a region (Some "y")
              (state_of r1) in
  length (pending_of (state_of r1) 101) = 1%nat /\
  events_of r1 = [Debug [DebugChange (queued_change (ed := sample_editor 1) view_a
                                        region (Some "x"))];
                  PurgeLater 101 1 500] /\
  outcome_of r2 = Raises (Exception "No changes found") /\
  pending_of (state_of r2) 101 = pending_of (state_of r1) 101 /\
  events_of r2 = [].
Proof.
  intros region r1 r2.
  destruct (queue_did_change_guard (H := sample_editor 1) view_a region (Some "x")
              initial_state) as (Hqueue & _ & _).
  destruct (Hqueue ltac:(vm_compute; reflexivity)) as (_ & Hlist & Hevents).
  destruct (queue_did_change_guard (H := sample_editor 1) view_a region (Some "y")
              (state_of r1)) as (_ & Hrefuse & _).
  destruct (Hrefuse ltac:(vm_compute; discriminate)) as (Hraise & Hsame & Hnone).
  split; [exact (f_equal (@length TextChange) Hlist)|].
  split; [exact Hevents|]. split; [exact Hraise|]. split; [exact Hsame | exact Hnone].
Defined.

(** X18. Whatever the editor answers, [queue_did_change] keeps the lists
    of waiting changes counted: no list is longer than the change count of
    its last change. *)
Theorem queue_did_change_keeps_counted `{Editor} (view : View) (region : Region)
    (newText : option string) (s : Module_state) :
  counted s ->
  counted (state_of (queue_did_change view region newText s)).
Proof.
  intros Hs. rewrite queue_did_change_eq.
  destruct (Z.ltb_spec (Z.of_nat (length (pending_of s (buffer_id view))))
              (change_count view)) as [Hlt|Hge]; unfold state_of; simpl.
  - intros b l c Hl Hlast. simpl in Hl. rewrite lookup_insert in Hl.
    destruct (decide (buffer_id view = b)) as [<-|Hne].
    + injection Hl as <-. rewrite last_snoc in Hlast. injection Hlast as <-.
      rewrite length_app. simpl. lia.
    + exact (Hs b l c Hl Hlast).
  - intros b l c Hl Hlast. simpl in Hl. rewrite lookup_insert in Hl.
    destruct (decide (buffer_id view = b)) as [<-|Hne].
    + injection Hl as <-. unfold pending_of in *.
      destruct (pending_buffer_changes s !! buffer_id view) as [l|] eqn:E;
        simpl in *; [exact (Hs _ l c E Hlast) | discriminate].
    + exact (Hs b l c Hl Hlast).
Qed.

Lemma queue_did_change_keeps_counted_witness :
  counted initial_state /\
  counted (state_of (queue_did_change (ed := sample_editor 4) view_a
                       {| region_a := 0; region_b := 1 |} None initial_state)).
Proof.
  assert (Hinit : counted initial_state) by (intros b l c Hl; discriminate Hl).
  split; [exact Hinit|].
  exact (queue_did_change_keeps_counted (H := sample_editor 4) view_a
           {| region_a := 0; region_b := 1 |} None initial_state Hinit).
Defined.

Section Versions.

Lemma set_version_eq w p v s :
  set_version w p v s =
    (Returns tt,
     set_document_states
       (alter (alter (fun state => {| path := path state; version := v |}) p)
          (window_id w) (document_states s)) s,
     []).
Proof. reflexivity. Qed.

Lemma tracked_version_alter s w p v w' p' :
  tracked_version
    (set_document_states
       (alter (alter (fun state => {| path := path state; version := v |}) p)
          (window_id w) (document_states s)) s) w' p' =
  if decide ((window_id w, p) = (window_id w', p'))
  then (fun _ => v) <$> tracked_version s w' p'
  else tracked_version s w' p'.
Proof.
  unfold tracked_version. simpl. rewrite lookup_alter.
  destruct (decide (window_id w = window_id w')) as [Hw|Hw].
  - rewrite <- Hw. destruct (document_states s !! window_id w) as [docs|]; simpl.
    + rewrite lookup_alter.
      destruct (decide (p = p')) as [<-|Hp].
      * rewrite decide_True by (rewrite Hw; reflexivity).
        destruct (docs !! p); reflexivity.
      * rewrite decide_False by congruence. reflexivity.
    + destruct (decide _); reflexivity.
  - rewrite decide_False by congruence. reflexivity.
Qed.

(** What [with_version] leaves: the version asked for, for that document,
    and every other document and table as it was. *)
Lemma with_version_spec w p v s :
  tracked_version (with_version w p v s) w p = Some v /\
  (forall w' p', (window_id w', p') <> (window_id w, p) ->
     tracked_version (with_version w p v s) w' p' = tracked_version s w' p') /\
  pending_buffer_changes (with_version w p v s) = pending_buffer_changes s.
Proof.
  pose proof (get_document_state_tracks w p s) as (Ht & Hother & Hp).
  simpl in Ht, Hother, Hp.
  set (s1 := state_of (get_document_state w p s)) in *.
  assert (E : with_version w p v s =
              set_document_states
                (alter (alter (fun state => {| path := path state; version := v |}) p)
                   (window_id w) (document_states s1)) s1) by reflexivity.
  rewrite E. clear E.
  split; [|split].
  - rewrite tracked_version_alter, decide_True by reflexivity.
    destruct Ht as [x Hx]. rewrite Hx. reflexivity.
  - intros w' p' Hne. rewrite tracked_version_alter, decide_False by congruence.
    apply Hother. exact Hne.
  - exact Hp.
Qed.

End Versions.

Section Purge.
Context {ed : Editor}.

Lemma notify_did_incremental_change_eq change s :
  let view := change_view change in
  notify_did_incremental_change change s =
    match window view, named (file_name view) with
    | Some w, Some name =>
        match pending_buffer_changes s !! buffer_id view with
        | None => (Raises AssertionError, s, [])
        | Some pending_changes =>
            let s1 :=
              set_pending_buffer_changes
                (delete (buffer_id view) (pending_buffer_changes s)) s in
            match client_for_view view with
            | Some _ =>
                (Returns tt, with_version w name (change_count view) s1,
                 [Debug [DebugValue (VStr "pending list cleared")];
                  Debug [DebugValue (VStr "didChange");
                         DebugValue (incremental_params view name pending_changes)]])
            | None =>
                (Returns tt, s1, [Debug [DebugValue (VStr "pending list cleared")]])
            end
        end
    | _, _ => (Returns tt, s, [])
    end.
Proof.
  intros view. subst view. unfold notify_did_incremental_change.
  destruct (window (change_view change)) as [w|]; [|reflexivity].
  destruct (named (file_name (change_view change))) as [name|]; [|reflexivity].
  unfold dbind at 1. unfold globals at 1. simpl.
  destruct (pending_buffer_changes s !! buffer_id (change_view change)) as [l|];
    [|reflexivity].
  unfold dbind, assign, debug, tell, dret. simpl.
  destruct (client_for_view (change_view change)) as [c|]; [|reflexivity].
  unfold with_version, incremental_params.
  rewrite !get_document_state_eq.
  destruct (documents_of _ w !! name); reflexivity.
Qed.

Lemma purge_did_change_eq buffer requested_version s :
  purge_did_change buffer requested_version s =
    match pending_buffer_changes s !! buffer with
    | None =>
        (Returns tt, s,
         [Debug [DebugValue (VStr "no pending changes for buffer");
                 DebugValue (VInt buffer)]])
    | Some change_list =>
        match last change_list with
        | None => (Raises IndexError, s, [])
        | Some last_edit =>
            if match requested_version with
               | None => true
               | Some v => Z.eqb v (change_change_count last_edit)
               end
            then
              let '(r, s', tr) := notify_did_incremental_change last_edit s in
              (r, s',
               Debug [DebugValue (VStr "purging at version");
                      version_arg requested_version] :: tr)
            else
              (Returns tt, s,
               [Debug [DebugValue (VStr "skipping version");
                       version_arg requested_version]])
        end
    end.
Proof.
  unfold purge_did_change, dbind, globals, debug, tell, draise, version_arg. simpl.
  destruct (pending_buffer_changes s !! buffer) as [l|]; [|reflexivity].
  destruct (last l) as [c|]; [|reflexivity].
  destruct requested_version as [v|]; simpl.
  - destruct (Z.eqb v (change_change_count c)); [|reflexivity].
    destruct (notify_did_incremental_change c s) as [[r s'] tr]. reflexivity.
  - destruct (notify_did_incremental_change c s) as [[r s'] tr]. reflexivity.
Qed.

Lemma notifications_incremental change s :
  notifications (events_of (notify_did_incremental_change change s)) = [].
Proof.
  rewrite notify_did_incremental_change_eq.
  destruct (window _); [|reflexivity].
  destruct (named _); [|reflexivity].
  destruct (pending_buffer_changes s !! _); [|reflexivity].
  destruct (client_for_view _); reflexivity.
Qed.

End Purge.

(** X19. A purge asked for the version of a change that is no longer the
    last one waiting is skipped: when the waiting list of the buffer ends
    with a change of another change count, [purge_did_change] changes nothing
    and only logs that it skips the version. So of the purges scheduled by a
    burst of changes, only the one of the last change flushes. *)
Theorem purge_did_change_skips_stale `{Editor} (buffer : Z) (v : Z)
    (change_list : list TextChange) (last_edit : TextChange) (s : Module_state) :
  pending_buffer_changes s !! buffer = Some change_list ->
  last change_list = Some last_edit ->
  v <> change_change_count last_edit ->
  purge_did_change buffer (Some v) s =
    (Returns tt, s,
     [Debug [DebugValue (VStr "skipping version"); DebugValue (VInt v)]]).
Proof.
  intros Hl Hlast Hv. rewrite purge_did_change_eq, Hl, Hlast.
  destruct (Z.eqb_spec v (change_change_count last_edit)); [contradiction|].
  reflexivity.
Qed.

Lemma purge_did_change_skips_stale_witness :
  let region := {| region_a := 3; region_b := 4 |} in
  let s1 := state_of (queue_did_change (ed := sample_editor 1) view_a region (Some "x")
                        initial_state) in
  let s2 := state_of (queue_did_change (ed := sample_editor 2) view_a region (Some "y")
                        s1) in
  length (pending_of s2 101) = 2%nat /\
  purge_did_change (ed := sample_editor 2) 101 (Some 1) s2 =
    (Returns tt, s2,
     [Debug [DebugValue (VStr "skipping version"); DebugValue (VInt 1)]]).
Proof.
  intros region s1 s2. split; [reflexivity|].
  apply (purge_did_change_skips_stale (H := sample_editor 2) 101 1
           (pending_of s2 101)
           (queued_change (ed := sample_editor 2) view_a region (Some "y")) s2).
  - reflexivity.
  - reflexivity.
  - discriminate.
Defined.

(** X20. The incremental path sends nothing: whatever the tables and the
    editor hold, neither [queue_did_change] nor [purge_did_change] nor
    [notify_did_incremental_change] gives a notification to a client (the
    call that would send the change is commented out in the source). *)
Theorem incremental_changes_are_not_sent `{Editor} (s : Module_state) :
  (forall view region newText,
     notifications (events_of (queue_did_change view region newText s)) = []) /\
  (forall buffer requested_version,
     notifications (events_of (purge_did_change buffer requested_version s)) = []) /\
  (forall change,
     notifications (events_of (notify_did_incremental_change change s)) = []).
Proof.
  split; [|split].
  - intros view region newText. rewrite queue_did_change_eq.
    destruct (Z.ltb _ _); reflexivity.
  - intros buffer requested_version. rewrite purge_did_change_eq.
    destruct (pending_buffer_changes s !! buffer) as [l|]; [|reflexivity].
    destruct (last l) as [c|]; [|reflexivity].
    destruct (match requested_version with None => true | Some v => _ end);
      [|reflexivity].
    pose proof (notifications_incremental c s) as Hn. unfold events_of in *.
    destruct (notify_did_incremental_change c s) as [[r s'] tr]. simpl in *. exact Hn.
  - intros change. apply notifications_incremental.
Qed.

(** X21. A purge that is due flushes: when the waiting list of the buffer
    ends with a change of the requested version (or no version is requested),
    the view of that change has a window and a file, its buffer is this
    buffer and it has a client, [purge_did_change] returns with the list of
    the buffer removed from the table and the version of the document set to
    the change count of the view; the lists of the other buffers and the
    versions of the other documents are as they were. *)
Theorem purge_did_change_flushes `{Editor} (buffer : Z) (requested_version : option Z)
    (change_list : list TextChange) (last_edit : TextChange) (w : Window)
    (name : string) (c : client) (s : Module_state) :
  pending_buffer_changes s !! buffer = Some change_list ->
  last change_list = Some last_edit ->
  (forall v, requested_version = Some v -> v = change_change_count last_edit) ->
  window (change_view last_edit) = Some w ->
  named (file_name (change_view last_edit)) = Some name ->
  buffer_id (change_view last_edit) = buffer ->
  client_for_view (change_view last_edit) = Some c ->
  let r := purge_did_change buffer requested_version s in
  outcome_of r = Returns tt /\
  pending_buffer_changes (state_of r) = delete buffer (pending_buffer_changes s) /\
  tracked_version (state_of r) w name = Some (change_count (change_view last_edit)) /\
  (forall w' p', (window_id w', p') <> (window_id w, name) ->
     tracked_version (state_of r) w' p' = tracked_version s w' p').
Proof.
  intros Hl Hlast Hv Hw Hname Hb Hc r. subst r.
  rewrite purge_did_change_eq, Hl, Hlast.
  assert (Hwanted : match requested_version with
                    | None => true
                    | Some v => Z.eqb v (change_change_count last_edit)
                    end = true).
  { destruct requested_version as [v|]; [|reflexivity].
    rewrite (Hv v eq_refl). apply Z.eqb_refl. }
  rewrite Hwanted, notify_did_incremental_change_eq, Hw, Hname, Hb, Hl, Hc.
  unfold outcome_of, state_of. simpl.
  set (s1 := set_pending_buffer_changes (delete buffer (pending_buffer_changes s)) s).
  destruct (with_version_spec w name (change_count (change_view last_edit)) s1)
    as (Hversion & Hother & Hpending).
  split; [reflexivity|]. split; [exact Hpending|]. split; [exact Hversion|].
  intros w' p' Hne. rewrite (Hother w' p' Hne). reflexivity.
Qed.

Lemma purge_did_change_flushes_witness :
  let region := {| region_a := 3; region_b := 4 |} in
  let s1 := state_of (queue_did_change (ed := sample_editor 1) view_a region (Some "x")
                        initial_state) in
  let s2 := state_of (queue_did_change (ed := sample_editor 2) view_a region (Some "y")
                        s1) in
  let r := purge_did_change (ed := sample_editor 2) 101 (Some 2) s2 in
  outcome_of r = Returns tt /\
  pending_buffer_changes (state_of r) !! 101 = None /\
  tracked_version (state_of r) sample_window "/work/a.py" = Some 2.
Proof.
  intros region s1 s2 r.
  destruct (purge_did_change_flushes (H := sample_editor 2) 101 (Some 2)
              (pending_of s2 101)
              (queued_change (ed := sample_editor 2) view_a region (Some "y"))
              sample_window "/work/a.py" (ClientObject 1) s2
              eq_refl eq_refl ltac:(intros v [= <-]; reflexivity)
              eq_refl eq_refl eq_refl eq_refl) as (Hr & Hp & Hv & _).
  split; [exact Hr|]. split; [|exact Hv].
  fold r in Hp. rewrite Hp. apply lookup_delete_eq.
Defined.

(** ** Opening, closing, saving and changing a document *)

Section Notifying.
Context {ed : Editor}.

Lemma notify_did_open_eq view c config w name s :
  client_for_view view = Some c ->
  config_for_scope view = Some config ->
  window view = Some w ->
  named (file_name view) = Some name ->
  notify_did_open view s =
    if bool_decide (is_Some (tracked_version s w name))
    then (Returns tt, s, [SettingsSet view "show_definitions" (VBool false)])
    else
      (Returns tt, state_of (get_document_state w name s),
       SettingsSet view "show_definitions" (VBool false) ::
       (if show_view_status
        then [SetStatus view "lsp_clients" (config_name config)] else []) ++
       [SendNotification c (Notification_didOpen (did_open_params view config name 0))]).
Proof.
  intros Hc Hcfg Hw Hn. unfold notify_did_open. rewrite Hc, Hcfg, Hw, Hn.
  unfold dbind, tell, dret. rewrite has_document_state_eq.
  pose proof (tracked_version_documents_of s w name) as Ht.
  destruct (bool_decide (is_Some (tracked_version s w name))) eqn:Hb; [reflexivity|].
  cbn [negb]. cbv beta iota. rewrite !get_document_state_eq.
  destruct (documents_of s w !! name) as [state|] eqn:Hd.
  - apply bool_decide_eq_false in Hb. destruct Hb. rewrite Ht. simpl. eauto.
  - unfold state_of, did_open_params. simpl.
    destruct show_view_status; reflexivity.
Qed.

Lemma notify_did_close_eq view w name s :
  active_window = Some w ->
  named (file_name view) = Some name ->
  notify_did_close view s =
    match tracked_version s w name with
    | Some _ =>
        (Returns tt, state_of (clear_document_state w name s),
         match config_for_scope view with
         | Some config =>
             match window_clients w !! config_name config with
             | Some c => [SendNotification c (Notification_didClose (uri_params name))]
             | None => []
             end
         | None => []
         end)
    | None => (Returns tt, s, [])
    end.
Proof.
  intros Hw Hn. unfold notify_did_close. rewrite Hw, Hn.
  unfold dbind, tell, dret. rewrite has_document_state_eq.
  destruct (tracked_version s w name) as [v|] eqn:Ht; [|reflexivity].
  assert (Hb : bool_decide (is_Some (Some v)) = true) by reflexivity.
  rewrite Hb. cbv beta iota. rewrite !clear_document_state_eq.
  unfold tracked_version in Ht. unfold state_of.
  destruct (document_states s !! window_id w) as [docs|]; simpl in *; [|discriminate].
  destruct (docs !! name) as [state|]; simpl in *; [|discriminate].
  destruct (config_for_scope view) as [config|]; [|reflexivity].
  destruct (window_clients w !! config_name config); reflexivity.
Qed.

Lemma notify_did_save_eq view s :
  notify_did_save view s =
    match window view, named (file_name view) with
    | Some w, Some name =>
        match tracked_version s w name with
        | Some _ =>
            (Returns tt, s,
             match client_for_view view with
             | Some c => [SendNotification c (Notification_didSave (uri_params name))]
             | None => []
             end)
        | None =>
            (Returns tt, s,
             [Debug [DebugValue (VStr "document not tracked"); DebugValue (VStr name)]])
        end
    | _, _ => (Returns tt, s, [])
    end.
Proof.
  unfold notify_did_save.
  destruct (window view) as [w|]; [|reflexivity].
  destruct (named (file_name view)) as [name|]; [|reflexivity].
  unfold dbind, tell, dret, debug. rewrite has_document_state_eq.
  destruct (tracked_version s w name); simpl; [|reflexivity].
  destruct (client_for_view view); reflexivity.
Qed.

Lemma notify_did_change_eq view w name s :
  window view = Some w ->
  named (file_name view) = Some name ->
  let s1 := set_pending_buffer_changes
              (delete (buffer_id view) (pending_buffer_changes s)) s in
  let cleared :=
    Debug [DebugValue (VStr (if bool_decide (is_Some (pending_buffer_changes s
                                                        !! buffer_id view))
                             then "pending list cleared"
                             else "no pending changes for buffer"))] in
  notify_did_change view s =
    match client_for_view view with
    | Some c =>
        (Returns tt, with_version w name (change_count view) s1,
         [cleared;
          SendNotification c (Notification_didChange (did_change_params view name))])
    | None => (Returns tt, s1, [cleared])
    end.
Proof.
  intros Hw Hn s1 cleared. subst s1 cleared. unfold notify_did_change.
  rewrite Hw, Hn. unfold with_version, did_change_params.
  unfold dbind, globals, assign, tell, dret, debug.
  destruct (pending_buffer_changes s !! buffer_id view) as [l|] eqn:Hl; simpl.
  - destruct (client_for_view view) as [c|]; [|reflexivity].
    rewrite !get_document_state_eq.
    destruct (documents_of _ w !! name); reflexivity.
  - rewrite delete_id by exact Hl.
    assert (Hs : set_pending_buffer_changes (pending_buffer_changes s) s = s)
      by (destruct s; reflexivity).
    rewrite Hs.
    destruct (client_for_view view) as [c|]; [|reflexivity].
    rewrite !get_document_state_eq.
    destruct (documents_of _ w !! name); reflexivity.
Qed.

End Notifying.

(** What [notify_did_open] does for a view that has all it needs, for the proofs below. *)
Lemma notify_did_open_spec `{Editor} (view : View) (c : client)
    (config : ClientConfig) (w : Window) (name : string) (s : Module_state) :
  client_for_view view = Some c ->
  config_for_scope view = Some config ->
  window view = Some w ->
  named (file_name view) = Some name ->
  let r := notify_did_open view s in
  let again := notify_did_open view (state_of r) in
  outcome_of r = Returns tt /\
  tracked_version (state_of r) w name = Some (default 0 (tracked_version s w name)) /\
  notifications (events_of r) =
    (if bool_decide (is_Some (tracked_version s w name)) then []
     else [(c, Notification_didOpen (did_open_params view config name 0))]) /\
  (forall w' p', (window_id w', p') <> (window_id w, name) ->
     tracked_version (state_of r) w' p' = tracked_version s w' p') /\
  state_of again = state_of r /\
  notifications (events_of again) = [].
Proof.
  intros Hc Hcfg Hw Hn r again.
  assert (Hr : outcome_of r = Returns tt /\
               tracked_version (state_of r) w name
                 = Some (default 0 (tracked_version s w name)) /\
               notifications (events_of r) =
                 (if bool_decide (is_Some (tracked_version s w name)) then []
                  else [(c, Notification_didOpen (did_open_params view config name 0))]) /\
               (forall w' p', (window_id w', p') <> (window_id w, name) ->
                  tracked_version (state_of r) w' p' = tracked_version s w' p')).
  { subst r. rewrite (notify_did_open_eq view c config w name s Hc Hcfg Hw Hn).
    destruct (get_document_state_spec w name s)
      as ((state & Hout & Hv & _ & Ht & _) & _ & Hother).
    destruct (tracked_version s w name) as [v|] eqn:Hs.
    - rewrite bool_decide_eq_true_2 by eauto.
      unfold outcome_of, state_of, events_of. simpl.
      split; [reflexivity|]. split; [exact Hs|]. split; reflexivity.
    - rewrite bool_decide_eq_false_2 by (intros [x [=]]).
      unfold outcome_of, events_of. simpl fst. simpl snd. cbv beta.
      split; [reflexivity|]. split; [|split].
      + simpl in Hv, Ht.
        change (tracked_version (state_of (get_document_state w name s)) w name
                = Some 0).
        rewrite Ht, Hv. reflexivity.
      + destruct show_view_status; reflexivity.
      + exact Hother. }
  destruct Hr as (Hout & Ht & Hnote & Hother).
  split; [exact Hout|]. split; [exact Ht|]. split; [exact Hnote|].
  split; [exact Hother|].
  subst again.
  rewrite (notify_did_open_eq view c config w name (state_of r) Hc Hcfg Hw Hn).
  rewrite Ht. rewrite bool_decide_eq_true_2 by eauto.
  split; reflexivity.
Qed.

(** X22. A document is opened once. For a view with a client, a
    configuration, a window and a file, [notify_did_open] returns with the
    document tracked; when it was not tracked before, exactly one didOpen is
    given to the client of the view, with version 0, and when it was, none is
    and the version is kept. Calling it again sends nothing and changes
    nothing. *)
Theorem notify_did_open_once `{Editor} (view : View) (c : client)
    (config : ClientConfig) (w : Window) (name : string) (s : Module_state) :
  client_for_view view = Some c ->
  config_for_scope view = Some config ->
  window view = Some w ->
  named (file_name view) = Some name ->
  let r := notify_did_open view s in
  let again := notify_did_open view (state_of r) in
  outcome_of r = Returns tt /\
  tracked_version (state_of r) w name = Some (default 0 (tracked_version s w name)) /\
  notifications (events_of r) =
    (if bool_decide (is_Some (tracked_version s w name)) then []
     else [(c, Notification_didOpen (did_open_params view config name 0))]) /\
  (forall w' p', (window_id w', p') <> (window_id w, name) ->
     tracked_version (state_of r) w' p' = tracked_version s w' p') /\
  state_of again = state_of r /\
  notifications (events_of again) = [].
Proof. exact (notify_did_open_spec view c config w name s). Qed.

Lemma notify_did_open_once_witness :
  let r := notify_did_open (ed := sample_editor 0) view_a initial_state in
  tracked_version (state_of r) sample_window "/work/a.py" = Some 0 /\
  notifications (events_of r) =
    [(ClientObject 1,
      sample_notification "textDocument/didOpen"
        (VDict [("textDocument",
                 VDict [("uri", VStr "file:///work/a.py");
                        ("languageId", VStr "python");
                        ("text", VStr "import os");
                        ("version", VInt 0)])]))] /\
  notifications (events_of (notify_did_open (ed := sample_editor 0) view_a
                              (state_of r))) = [].
Proof.
  intros r.
  destruct (notify_did_open_once (H := sample_editor 0) view_a (ClientObject 1)
              {| config_name := "pyls"; languageId := "python" |}
              sample_window "/work/a.py" initial_state
              eq_refl eq_refl eq_refl eq_refl)
    as (_ & Ht & Hnote & _ & _ & Hagain).
  split; [exact Ht|]. split; [exact Hnote | exact Hagain].
Defined.

(** What [notify_did_close] does, for the proofs below. *)
Lemma notify_did_close_spec `{Editor} (view : View) (s : Module_state) :
  let r := notify_did_close view s in
  outcome_of r = Returns tt /\
  (forall w name,
     active_window = Some w -> named (file_name view) = Some name ->
     tracked_version (state_of r) w name = None /\
     (forall w' p', (window_id w', p') <> (window_id w, name) ->
        tracked_version (state_of r) w' p' = tracked_version s w' p') /\
     notifications (events_of r) =
       match tracked_version s w name, config_for_scope view with
       | Some _, Some config =>
           match window_clients w !! config_name config with
           | Some c => [(c, Notification_didClose (uri_params name))]
           | None => []
           end
       | _, _ => []
       end) /\
  (active_window = None \/ named (file_name view) = None ->
   r = (Returns tt, s, [])).
Proof.
  intros r. subst r.
  destruct active_window as [w|] eqn:Hw.
  - destruct (named (file_name view)) as [name|] eqn:Hn.
    + rewrite (notify_did_close_eq view w name s Hw Hn).
      destruct (clear_document_state_spec w name s) as (Htracked & _ & _).
      destruct (tracked_version s w name) as [v|] eqn:Ht.
      * destruct (Htracked ltac:(eauto)) as (_ & Hgone & _ & Hother).
        unfold outcome_of, events_of. simpl fst. simpl snd.
        split; [reflexivity|]. split.
        -- intros w0 name0 [= <-] [= <-]. split; [exact Hgone|].
           split; [exact Hother|]. rewrite Ht.
           destruct (config_for_scope view) as [config|]; [|reflexivity].
           destruct (window_clients w !! config_name config); reflexivity.
        -- intros [[=]|[=]].
      * unfold outcome_of, state_of, events_of. simpl.
        split; [reflexivity|]. split.
        -- intros w0 name0 [= <-] [= <-]. split; [exact Ht|].
           rewrite Ht. split; reflexivity.
        -- intros [[=]|[=]].
    + unfold notify_did_close. rewrite Hw, Hn.
      split; [reflexivity|]. split; [intros w0 name0 _ [=] | reflexivity].
  - unfold notify_did_close. rewrite Hw.
    split; [reflexivity|]. split; [intros w0 name0 [=] | reflexivity].
Qed.

(** X23. [notify_did_close] never raises, although the [del] of
    [clear_document_state] can: it clears only a tracked document. With an
    active window and a file, the document of that path is not tracked in the
    ACTIVE window afterwards (the window of the view is not asked), every
    other document is as it was, and a didClose goes to the client that the
    active window has under the name of the configuration of the view, only
    when the document was tracked and both exist. With no active window or no
    file, nothing happens. *)
Theorem notify_did_close_forgets `{Editor} (view : View) (s : Module_state) :
  let r := notify_did_close view s in
  outcome_of r = Returns tt /\
  (forall w name,
     active_window = Some w -> named (file_name view) = Some name ->
     tracked_version (state_of r) w name = None /\
     (forall w' p', (window_id w', p') <> (window_id w, name) ->
        tracked_version (state_of r) w' p' = tracked_version s w' p') /\
     notifications (events_of r) =
       match tracked_version s w name, config_for_scope view with
       | Some _, Some config =>
           match window_clients w !! config_name config with
           | Some c => [(c, Notification_didClose (uri_params name))]
           | None => []
           end
       | _, _ => []
       end) /\
  (active_window = None \/ named (file_name view) = None ->
   r = (Returns tt, s, [])).
Proof. exact (notify_did_close_spec view s). Qed.

Lemma notify_did_close_forgets_witness :
  let s := state_of (notify_did_open (ed := sample_editor 0) view_a initial_state) in
  let r := notify_did_close (ed := sample_editor 0) view_a s in
  tracked_version s sample_window "/work/a.py" = Some 0 /\
  outcome_of r = Returns tt /\
  tracked_version (state_of r) sample_window "/work/a.py" = None /\
  notifications (events_of r) =
    [(ClientObject 1,
      sample_notification "textDocument/didClose"
        (VDict [("textDocument", VDict [("uri", VStr "file:///work/a.py")])]))].
Proof.
  intros s r.
  destruct (notify_did_close_forgets (H := sample_editor 0) view_a s)
    as (Hout & Hclose & _).
  destruct (Hclose sample_window "/work/a.py" eq_refl eq_refl)
    as (Hgone & _ & Hnote).
  split; [reflexivity|]. split; [exact Hout|]. split; [exact Hgone | exact Hnote].
Defined.

(** X24. A view that is closed while another window is active stays
    tracked: after [notify_did_open] for a view in window w, a
    [notify_did_close] of that view with another window active leaves the
    document tracked in w, and a later [notify_did_open] of the view sends no
    didOpen. *)
Theorem close_in_another_window_keeps_document `{Editor} (view : View) (c : client)
    (config : ClientConfig) (w active : Window) (name : string) (s : Module_state) :
  client_for_view view = Some c ->
  config_for_scope view = Some config ->
  window view = Some w ->
  named (file_name view) = Some name ->
  active_window = Some active ->
  window_id active <> window_id w ->
  let opened := state_of (notify_did_open view s) in
  let closed := state_of (notify_did_close view opened) in
  is_Some (tracked_version opened w name) /\
  tracked_version closed w name = tracked_version opened w name /\
  notifications (events_of (notify_did_open view closed)) = [].
Proof.
  intros Hc Hcfg Hw Hn Ha Hne opened closed.
  destruct (notify_did_open_spec view c config w name s Hc Hcfg Hw Hn)
    as (_ & Ht & _).
  fold opened in Ht.
  destruct (notify_did_close_spec view opened) as (_ & Hclose & _).
  destruct (Hclose active name Ha Hn) as (_ & Hother & _).
  fold closed in Hother.
  assert (Hkept : tracked_version closed w name = tracked_version opened w name).
  { apply Hother. intros [= E]. apply Hne. symmetry. exact E. }
  split; [rewrite Ht; eauto|]. split; [exact Hkept|].
  rewrite (notify_did_open_eq view c config w name closed Hc Hcfg Hw Hn).
  rewrite Hkept, Ht. rewrite bool_decide_eq_true_2 by eauto. reflexivity.
Qed.

Lemma close_in_another_window_keeps_document_witness :
  let ed := sample_editor_in (Some {| window_id := 11 |}) [] 0 in
  let opened := state_of (notify_did_open (ed := ed) view_a initial_state) in
  let closed := state_of (notify_did_close (ed := ed) view_a opened) in
  tracked_version closed sample_window "/work/a.py" = Some 0 /\
  notifications (events_of (notify_did_open (ed := ed) view_a closed)) = [].
Proof.
  intros ed opened closed.
  destruct (close_in_another_window_keeps_document (H := ed) view_a (ClientObject 1)
              {| config_name := "pyls"; languageId := "python" |}
              sample_window {| window_id := 11 |} "/work/a.py" initial_state
              eq_refl eq_refl eq_refl eq_refl eq_refl ltac:(discriminate))
    as (_ & Hkept & Hnone).
  split; [|exact Hnone].
  fold opened closed in Hkept. rewrite Hkept. reflexivity.
Defined.

(** X25. Closing restarts the version. For a view whose window is the
    active one, with a client and a configuration: whatever version the
    document had reached, after [notify_did_close] a [notify_did_open] gives
    one didOpen with version 0 to the client of the view, and the document is
    tracked at version 0. *)
Theorem close_then_open_restarts_version `{Editor} (view : View) (c : client)
    (config : ClientConfig) (w : Window) (name : string) (s : Module_state) :
  client_for_view view = Some c ->
  config_for_scope view = Some config ->
  window view = Some w ->
  active_window = Some w ->
  named (file_name view) = Some name ->
  let closed := state_of (notify_did_close view s) in
  let r := notify_did_open view closed in
  notifications (events_of r) =
    [(c, Notification_didOpen (did_open_params view config name 0))] /\
  tracked_version (state_of r) w name = Some 0.
Proof.
  intros Hc Hcfg Hw Ha Hn closed r.
  destruct (notify_did_close_spec view s) as (_ & Hclose & _).
  destruct (Hclose w name Ha Hn) as (Hgone & _).
  fold closed in Hgone.
  destruct (notify_did_open_spec view c config w name closed Hc Hcfg Hw Hn)
    as (_ & Ht & Hnote & _).
  fold r in Ht, Hnote. rewrite Hgone in Ht, Hnote.
  split; [exact Hnote | exact Ht].
Qed.

Lemma close_then_open_restarts_version_witness :
  let s1 := state_of (notify_did_open (ed := sample_editor 0) view_a initial_state) in
  let s2 := state_of (notify_did_change (ed := sample_editor 7) view_a s1) in
  let closed := state_of (notify_did_close (ed := sample_editor 7) view_a s2) in
  let r := notify_did_open (ed := sample_editor 7) view_a closed in
  tracked_version s2 sample_window "/work/a.py" = Some 7 /\
  tracked_version (state_of r) sample_window "/work/a.py" = Some 0.
Proof.
  intros s1 s2 closed r. split; [reflexivity|].
  exact (proj2 (close_then_open_restarts_version (H := sample_editor 7) view_a
                  (ClientObject 1) {| config_name := "pyls"; languageId := "python" |}
                  sample_window "/work/a.py" s2
                  eq_refl eq_refl eq_refl eq_refl eq_refl)).
Defined.

(** X26. [notify_did_change] sends the whole text. For a view with a
    window and a file it returns with the waiting changes of the buffer of the
    view dropped, whether the view has a client or not. With a client, exactly
    one didChange goes to it, with the change count of the view as version and
    the text of the whole view as the only content change, and that change
    count is recorded as the version of the document, the other documents
    being as they were; with no client nothing is sent and the table of
    documents is as it was. *)
Theorem notify_did_change_sends_full_text `{Editor} (view : View) (w : Window)
    (name : string) (s : Module_state) :
  window view = Some w ->
  named (file_name view) = Some name ->
  let r := notify_did_change view s in
  outcome_of r = Returns tt /\
  pending_buffer_changes (state_of r)
    = delete (buffer_id view) (pending_buffer_changes s) /\
  match client_for_view view with
  | Some c =>
      notifications (events_of r)
        = [(c, Notification_didChange (did_change_params view name))] /\
      tracked_version (state_of r) w name = Some (change_count view) /\
      (forall w' p', (window_id w', p') <> (window_id w, name) ->
         tracked_version (state_of r) w' p' = tracked_version s w' p')
  | None =>
      notifications (events_of r) = [] /\
      document_states (state_of r) = document_states s
  end.
Proof.
  intros Hw Hn r. subst r. rewrite (notify_did_change_eq view w name s Hw Hn).
  set (s1 := set_pending_buffer_changes
               (delete (buffer_id view) (pending_buffer_changes s)) s).
  destruct (client_for_view view) as [c|].
  - destruct (with_version_spec w name (change_count view) s1)
      as (Hversion & Hother & Hpending).
    unfold outcome_of, state_of, events_of. simpl fst. simpl snd.
    split; [reflexivity|]. split; [exact Hpending|].
    split; [reflexivity|]. split; [exact Hversion|].
    intros w' p' Hne. rewrite (Hother w' p' Hne). reflexivity.
  - unfold outcome_of, state_of, events_of. simpl.
    split; [reflexivity|]. split; [reflexivity|]. split; reflexivity.
Qed.

Lemma notify_did_change_sends_full_text_witness :
  let s1 := state_of (queue_did_change (ed := sample_editor 1) view_a
                        {| region_a := 3; region_b := 4 |} (Some "x") initial_state) in
  let r := notify_did_change (ed := sample_editor 1) view_a s1 in
  length (pending_of s1 101) = 1%nat /\
  pending_buffer_changes (state_of r) !! 101 = None /\
  notifications (events_of r) =
    [(ClientObject 1,
      sample_notification "textDocument/didChange"
        (VDict [("textDocument",
                 VDict [("uri", VStr "file:///work/a.py"); ("version", VInt 1)]);
                ("contentChanges", VList [VDict [("text", VStr "import os")]])]))] /\
  tracked_version (state_of r) sample_window "/work/a.py" = Some 1.
Proof.
  intros s1 r.
  destruct (notify_did_change_sends_full_text (H := sample_editor 1) view_a
              sample_window "/work/a.py" s1 eq_refl eq_refl)
    as (_ & Hp & Hnote & Hv & _).
  split; [reflexivity|]. split; [|split; [exact Hnote | exact Hv]].
  fold r in Hp. rewrite Hp. apply lookup_delete_eq.
Defined.

(** X27. [notify_did_save] changes nothing and never raises; it gives one
    didSave to the client of the view exactly when the view has a window and a
    file, the document is tracked in that window and the view has a client,
    and nothing to any client otherwise. *)
Theorem notify_did_save_only_when_tracked `{Editor} (view : View) (s : Module_state) :
  let r := notify_did_save view s in
  outcome_of r = Returns tt /\
  state_of r = s /\
  notifications (events_of r) =
    match window view, named (file_name view), client_for_view view with
    | Some w, Some name, Some c =>
        if bool_decide (is_Some (tracked_version s w name))
        then [(c, Notification_didSave (uri_params name))]
        else []
    | _, _, _ => []
    end.
Proof.
  intros r. subst r. rewrite notify_did_save_eq.
  destruct (window view) as [w|]; [|repeat split; reflexivity].
  destruct (named (file_name view)) as [name|]; [|repeat split; reflexivity].
  destruct (tracked_version s w name) as [v|].
  - destruct (client_for_view view); repeat split; reflexivity.
  - destruct (client_for_view view); repeat split; reflexivity.
Qed.

(** ** Positions and words *)

Section Words.
Context {ed : Editor}.

Lemma land_pow2 (c k : Z) :
  0 <= k -> Z.land c (2 ^ k) = if Z.testbit c k then 2 ^ k else 0.
Proof.
  intros Hk. apply Z.bits_inj'. intros n Hn.
  rewrite Z.land_spec, Z.pow2_bits_eqb by exact Hk.
  destruct (Z.eqb_spec k n) as [->|Hne].
  - destruct (Z.testbit c n); simpl.
    + rewrite Z.pow2_bits_eqb by exact Hn. symmetry. apply Z.eqb_refl.
    + symmetry. apply Z.bits_0.
  - rewrite andb_false_r. destruct (Z.testbit c k).
    + rewrite Z.pow2_bits_eqb by exact Hk. symmetry. apply Z.eqb_neq. exact Hne.
    + symmetry. apply Z.bits_0.
Qed.

(** The mask 515 is bits 0, 1 and 9. *)
Lemma word_mask_bits (c : Z) :
  negb (Z.eqb (Z.land c SUBLIME_WORD_MASK) 0)
    = Z.testbit c 0 || Z.testbit c 1 || Z.testbit c 9.
Proof.
  unfold SUBLIME_WORD_MASK.
  change 515 with (Z.lor (2 ^ 0) (Z.lor (2 ^ 1) (2 ^ 9))).
  rewrite !Z.land_lor_distr_r, !land_pow2 by lia.
  destruct (Z.testbit c 0), (Z.testbit c 1), (Z.testbit c 9); reflexivity.
Qed.

Lemma is_at_word_eq view event s :
  is_at_word view event s =
    match get_position view event s with
    | (Returns pos, s1, t1) =>
        (Returns (Z.testbit (classify view pos) 0 || Z.testbit (classify view pos) 1
                  || Z.testbit (classify view pos) 9), s1, t1)
    | (Raises e, s1, t1) => (Raises e, s1, t1)
    end.
Proof.
  unfold is_at_word, dbind.
  destruct (get_position view event s) as [[[pos|e] s1] t1]; [|reflexivity].
  rewrite word_mask_bits.
  destruct (_ || _); unfold dret; rewrite app_nil_r; reflexivity.
Qed.

End Words.

(** X28. [is_at_word] answers whether the classification of the position
    has one of the bits 0, 1 and 9 (the mask 515), and no other bit of the
    classification matters. The position is where the mouse event points
    when there is one, and the beginning of the first selection otherwise; a
    view with no selection makes it raise IndexError. It changes nothing and
    asks nothing of the collaborators but the position and its class. *)
Theorem is_at_word_bits `{Editor} (view : View) (event : option (value * value))
    (s : Module_state) :
  let r := is_at_word view event s in
  let word (pos : Z) : bool :=
    Z.testbit (classify view pos) 0 || Z.testbit (classify view pos) 1
    || Z.testbit (classify view pos) 9 in
  state_of r = s /\
  events_of r = [] /\
  outcome_of r =
    match event, sel view with
    | Some (x, y), _ => Returns (word (window_to_text view x y))
    | None, cursor :: _ => Returns (word (Region_begin cursor))
    | None, [] => Raises IndexError
    end.
Proof.
  intros r word. subst r word. rewrite is_at_word_eq.
  unfold get_position, first_cursor.
  destruct event as [[x y]|].
  - repeat split; reflexivity.
  - destruct (sel view) as [|cursor rest]; repeat split; reflexivity.
Qed.

(** ** Following the cursors *)

Section Cursors.

Lemma map_lookup {A B} (f : A -> B) (l : list A) (i : nat) :
  map f l !! i = f <$> l !! i.
Proof.
  revert i. induction l as [|x l IH]; intros [|i]; simpl; try reflexivity. apply IH.
Qed.

Context {ed : Editor}.

(** One turn of the loop of [on_modified_async] at a caret that has moved
    by [d] from where it was recorded, the carets before it having moved the
    recorded positions by [offset]. *)
Lemma on_modified_loop_caret view name recorded text index offset p d rest s :
  named (file_name view) = Some name ->
  d <> 0 ->
  prev_cursors s !! view_id view = Some recorded ->
  recorded !! index = Some (caret p, text) ->
  on_modified_loop view index offset (caret (p + offset + d) :: rest) s =
    let '(r, s', tr) := on_modified_loop view (S index) (offset + d) rest s in
    (r, s',
     (if 0 <? d
      then Publish "view.on_modified" view
             {| region_a := p + offset; region_b := p + offset + d |}
             (Some (substr view {| region_a := p + offset; region_b := p + offset + d |}))
      else Publish "view.on_modified" view (caret (p + offset)) None) :: tr).
Proof.
  intros Hn Hd Hprev Hrec. simpl. unfold dbind at 1. unfold globals at 1.
  cbv beta iota. rewrite Hprev, Hrec.
  unfold on_delete, on_insert. rewrite Hn.
  repeat progress (unfold Region_begin, Region_end, Region_empty, Region_cover, caret;
                   cbn [region_a region_b]).
  repeat (rewrite Z.min_id || rewrite Z.max_id). rewrite Z.eqb_refl. cbn [negb orb].
  replace (offset + (p + offset + d - (p + offset))) with (offset + d) by lia.
  destruct (Z.ltb_spec 0 d) as [Hpos|Hneg].
  - assert (E1 : (p + offset + d <? p + offset) = false) by (apply Z.ltb_ge; lia).
    assert (E2 : (p + offset <? p + offset + d) = true) by (apply Z.ltb_lt; lia).
    rewrite E1, E2.
    rewrite Z.min_l, Z.max_r by lia. rewrite Z.min_l, Z.max_r by lia.
    unfold dbind, dret, tell. simpl.
    destruct (on_modified_loop view (S index) (offset + d) rest s) as [[r s'] tr].
    reflexivity.
  - assert (E1 : (p + offset + d <? p + offset) = true) by (apply Z.ltb_lt; lia).
    assert (E2 : (p + offset <? p + offset + d) = false) by (apply Z.ltb_ge; lia).
    rewrite E1, E2.
    unfold dbind, dret, tell. simpl.
    destruct (on_modified_loop view (S index) (offset + d) rest s) as [[r s'] tr].
    reflexivity.
Qed.

Lemma on_modified_loop_carets view name recorded d s :
  named (file_name view) = Some name ->
  d <> 0 ->
  prev_cursors s !! view_id view = Some recorded ->
  forall post pre,
    (forall i p, (pre ++ post) !! i = Some p ->
       exists text, recorded !! i = Some (caret p, text)) ->
    on_modified_loop view (length pre) (Z.of_nat (length pre) * d)
      (imap (fun i p => caret (p + (Z.of_nat (length pre + i) + 1) * d)) post) s =
    (Returns tt, s,
     imap (fun i p =>
             let old := p + Z.of_nat (length pre + i) * d in
             if 0 <? d
             then Publish "view.on_modified" view
                    {| region_a := old; region_b := old + d |}
                    (Some (substr view {| region_a := old; region_b := old + d |}))
             else Publish "view.on_modified" view (caret old) None) post).
Proof.
  intros Hn Hd Hprev post.
  induction post as [|p post IH]; intros pre Hrec; [reflexivity|].
  rewrite !imap_cons.
  destruct (Hrec (length pre) p (list_lookup_middle _ _ _ _ eq_refl)) as [text Htext].
  replace (p + (Z.of_nat (length pre + 0) + 1) * d)
    with (p + Z.of_nat (length pre) * d + d) by lia.
  rewrite (on_modified_loop_caret view name recorded text _ _ p d _ s Hn Hd Hprev Htext).
  specialize (IH (pre ++ [p])). rewrite <- app_assoc in IH. specialize (IH Hrec).
  rewrite length_app in IH. simpl length in IH. rewrite Nat.add_1_r in IH.
  replace (Z.of_nat (S (length pre)) * d) with (Z.of_nat (length pre) * d + d) in IH
    by lia.
  rewrite (imap_ext _
             (fun i p0 => caret (p0 + (Z.of_nat (S (length pre) + i) + 1) * d)))
    by (intros i x _; unfold compose; rewrite Nat.add_succ_r; reflexivity).
  rewrite IH. cbv zeta. rewrite Nat.add_0_r. f_equal. f_equal.
  apply imap_ext. intros i x _. unfold compose. rewrite Nat.add_succ_r. reflexivity.
Qed.

End Cursors.

(** X29. Typing at many carets. When the carets of a view were recorded
    by [record_cursor_pos] at the points ps, and the same text of d
    characters has since been typed at each of them (d > 0), or d characters
    deleted before each of them (d < 0), so that the caret of number i is now
    at ps[i] + (i + 1) * d, then [on_modified_async] publishes one
    view.on_modified per caret, in order, and changes nothing: for typed text
    the region from ps[i] + i * d to ps[i] + (i + 1) * d, in the coordinates
    of the text as it is now, with the text that the view has there; for a
    deletion the empty region at ps[i] + i * d with no text. *)
Theorem typing_at_many_carets (before after : Editor) (view : View) (name : string)
    (ps : list Z) (d : Z) (s : Module_state) :
  sel (Editor := before) view = map caret ps ->
  sel (Editor := after) view
    = imap (fun i p => caret (p + (Z.of_nat i + 1) * d)) ps ->
  named (file_name (Editor := after) view) = Some name ->
  d <> 0 ->
  let recorded := state_of (record_cursor_pos (ed := before) view s) in
  on_modified_async (ed := after) view recorded =
    (Returns tt, recorded,
     imap (fun i p =>
             let old := p + Z.of_nat i * d in
             if 0 <? d
             then Publish "view.on_modified" view
                    {| region_a := old; region_b := old + d |}
                    (Some (substr (Editor := after) view
                             {| region_a := old; region_b := old + d |}))
             else Publish "view.on_modified" view (caret old) None) ps).
Proof.
  intros Hbefore Hafter Hn Hd recorded. unfold on_modified_async. rewrite Hafter.
  assert (Hprev : exists l,
            prev_cursors recorded !! view_id view = Some l /\
            forall i p, ps !! i = Some p -> exists text, l !! i = Some (caret p, text)).
  { subst recorded.
    unfold record_cursor_pos, assign, state_of, get_cursors. simpl.
    rewrite lookup_insert_eq, Hbefore. eexists. split; [reflexivity|].
    intros i p Hp. rewrite !map_lookup, Hp. simpl.
    destruct (Region_empty (caret p) && (0 <? Region_begin (caret p))); eauto. }
  destruct Hprev as (l & Hl & Hrec).
  exact (on_modified_loop_carets (ed := after) view name l d recorded Hn Hd Hl ps []
           Hrec).
Qed.

Lemma typing_at_many_carets_witness :
  let before := sample_editor_in (Some sample_window) [caret 3; caret 8] 0 in
  let after := sample_editor_in (Some sample_window) [caret 5; caret 12] 1 in
  let recorded := state_of (record_cursor_pos (ed := before) view_a initial_state) in
  on_modified_async (ed := after) view_a recorded =
    (Returns tt, recorded,
     [Publish "view.on_modified" view_a {| region_a := 3; region_b := 5 |}
        (Some "import os");
      Publish "view.on_modified" view_a {| region_a := 10; region_b := 12 |}
        (Some "import os")]).
Proof.
  intros before after recorded.
  exact (typing_at_many_carets before after view_a "/work/a.py" [3; 8] 2 initial_state
           eq_refl eq_refl eq_refl ltac:(discriminate)).
Defined.

(** X30. A refused change leaves an empty list behind. When no list
    waits for the buffer of a view and the change count of the view is not
    positive, [queue_did_change] raises 'No changes found' after
    [get_change_list] has put an empty list in the table; from then on
    [purge_did_change] for that buffer raises IndexError, at [change_list[-1]],
    whatever version it is asked for, and changes nothing. *)
Theorem purge_after_refused_change `{Editor} (view : View) (region : Region)
    (newText : option string) (s : Module_state) :
  pending_buffer_changes s !! buffer_id view = None ->
  change_count view <= 0 ->
  let r := queue_did_change view region newText s in
  outcome_of r = Raises (Exception "No changes found") /\
  events_of r = [] /\
  pending_buffer_changes (state_of r) !! buffer_id view = Some [] /\
  forall requested_version,
    purge_did_change (buffer_id view) requested_version (state_of r)
      = (Raises IndexError, state_of r, []).
Proof.
  intros Hnone Hcount r. subst r. rewrite queue_did_change_eq.
  unfold pending_of. rewrite Hnone. simpl.
  assert (Hle : (0 <? change_count view) = false) by (apply Z.ltb_ge; lia).
  change (Z.of_nat 0) with 0. rewrite Hle.
  unfold outcome_of, state_of, events_of. simpl.
  split; [reflexivity|]. split; [reflexivity|].
  split; [apply lookup_insert_eq|].
  intros requested_version. rewrite purge_did_change_eq. simpl.
  rewrite lookup_insert_eq. reflexivity.
Qed.

Lemma purge_after_refused_change_witness :
  let r := queue_did_change (ed := sample_editor 0) view_a
             {| region_a := 0; region_b := 1 |} (Some "x") initial_state in
  outcome_of r = Raises (Exception "No changes found") /\
  purge_did_change (ed := sample_editor 0) 101 None (state_of r)
    = (Raises IndexError, state_of r, []).
Proof.
  intros r.
  destruct (purge_after_refused_change (H := sample_editor 0) view_a
              {| region_a := 0; region_b := 1 |} (Some "x") initial_state
              eq_refl ltac:(vm_compute; discriminate)) as (Hout & _ & _ & Hpurge).
  split; [exact Hout | exact (Hpurge None)].
Defined.
